(** * BookStore: catalogue filtering, ownership-scoped mutation, upload
      validation, login and dashboard statistics

    A shallow embedding of the BookStore.API back end (C#, ASP.NET Core with
    Entity Framework) and of the dashboard statistics of the React front end.

    Conventions of the embedding
    - [Guid] and [DateTime] are integers; a fresh [Guid.NewGuid()] and the
      clock [DateTime.UtcNow] are explicit arguments of the operations that
      read them.
    - [decimal] prices count hundredths, the scale of the column
      [decimal(10,2)] and of the price inputs of the forms, so the
      validation bound [99999.99] is [9999999].  A request body can carry a
      price with more fraction digits: [Decimal] and [AnyScale] model what
      becomes of it.
    - A JavaScript number is a binary64 [float]: the dashboard adds prices
      as such.
    - C# strings are modelled by [string] over 8-bit characters; [ToLower]
      folds the letters A-Z.
    - A table is the list of its rows in insertion order; the database is
      threaded explicitly through every operation that saves changes, one
      request at a time.  What PostgreSQL refuses of a row (a text with the
      character U+0000, a text longer than its [character varying] column,
      a price beyond [decimal(10,2)]) is an exception of [SaveChangesAsync].
    - An exception is the [Throw] outcome of a [Task]; controllers turn it
      into a 500 response as their [catch] blocks do. *)

From Stdlib Require Import ZArith List String Ascii Bool Lia Permutation.
From Stdlib Require PrimFloat.
Import ListNotations.
Local Open Scope string_scope.
Local Open Scope list_scope.
Local Open Scope Z_scope.

Definition Guid := Z.
Definition DateTime := Z.
Definition decimal := Z.

(** ** System.String and System.IO.Path *)

Module Str.

Definition Char_ToLower (c : ascii) : ascii :=
  let n := nat_of_ascii c in
  if ((65 <=? n) && (n <=? 90))%nat then ascii_of_nat (n + 32) else c.

Fixpoint ToLower (s : string) : string :=
  match s with
  | EmptyString => EmptyString
  | String c r => String (Char_ToLower c) (ToLower r)
  end.

(** [StartsWith s t]: [t] is a prefix of [s]. *)
Fixpoint StartsWith (s t : string) {struct t} : bool :=
  match t, s with
  | EmptyString, _ => true
  | String _ _, EmptyString => false
  | String b t', String a s' => Ascii.eqb a b && StartsWith s' t'
  end.

(** [Contains s t]: [t] occurs in [s] (ordinal comparison). *)
Fixpoint Contains (s t : string) : bool :=
  StartsWith s t ||
  match s with
  | EmptyString => false
  | String _ s' => Contains s' t
  end.

Definition IsNullOrEmpty (s : option string) : bool :=
  match s with
  | None => true
  | Some EmptyString => true
  | Some _ => false
  end.

(** [Char.IsWhiteSpace] on the Latin-1 range. *)
Definition IsWhiteSpace (c : ascii) : bool :=
  let n := nat_of_ascii c in
  ((n =? 32) || ((9 <=? n) && (n <=? 13)) || (n =? 133) || (n =? 160))%nat.

Fixpoint AllWhiteSpace (s : string) : bool :=
  match s with
  | EmptyString => true
  | String c r => IsWhiteSpace c && AllWhiteSpace r
  end.

Definition IsNullOrWhiteSpace (s : option string) : bool :=
  match s with
  | None => true
  | Some s => AllWhiteSpace s
  end.

(** The separator of a Linux host, as in the container image of the
    README. *)
Definition IsDirectorySeparator (c : ascii) : bool := Ascii.eqb c "/".

(** [Path.GetExtension] scans the name from its end: at a period it
    returns the text from that period on (nothing when the period is the
    last character), at a directory separator it stops with nothing.
    [scan] computes, for a suffix of the name, where that backward scan
    stands once it has gone through the suffix. *)
Inductive Scan : Type :=
  | Found (ext : string)
  | Stopped
  | Exhausted.

Fixpoint scan (s : string) : Scan :=
  match s with
  | EmptyString => Exhausted
  | String c r =>
      match scan r with
      | Found e => Found e
      | Stopped => Stopped
      | Exhausted =>
          if Ascii.eqb c "." then
            Found (match r with EmptyString => EmptyString | _ => s end)
          else if IsDirectorySeparator c then Stopped
          else Exhausted
      end
  end.

Definition GetExtension (path : string) : string :=
  match scan path with
  | Found e => e
  | _ => EmptyString
  end.

End Str.

(** ** Models *)

Module User.
Record t : Type := mk {
  Id : Guid;
  Email : string;
  PasswordHash : string;
  FullName : option string;
  CreatedAt : DateTime;
  UpdatedAt : DateTime
}.
End User.

(** The entity class [Book]: its columns and the navigation property
    [User], which is [None] until a query loads it with [Include]. *)
Module Book.
Record t : Type := mk {
  Id : Guid;
  Name : string;
  Category : string;
  Price : decimal;
  Description : string;
  UserId : Guid;
  CreatedAt : DateTime;
  UpdatedAt : DateTime;
  ImageUrl : option string;
  FileUrl : option string;
  FileName : option string;
  FileSize : option Z;
  User : option User.t
}.
End Book.

(** ** DTOs *)

Module CreateBookDto.
Record t : Type := mk {
  Name : string;
  Category : string;
  Price : decimal;
  Description : string;
  ImageUrl : option string;
  FileUrl : option string;
  FileName : option string;
  FileSize : option Z
}.
End CreateBookDto.

Module UpdateBookDto.
Record t : Type := mk {
  Name : string;
  Category : string;
  Price : decimal;
  Description : string;
  ImageUrl : option string;
  FileUrl : option string;
  FileName : option string;
  FileSize : option Z
}.
End UpdateBookDto.

Module UserDto.
Record t : Type := mk {
  Id : Guid;
  Email : string;
  FullName : option string;
  CreatedAt : DateTime
}.
End UserDto.

Module BookDto.
Record t : Type := mk {
  Id : Guid;
  Name : string;
  Category : string;
  Price : decimal;
  Description : string;
  UserId : Guid;
  CreatedAt : DateTime;
  UpdatedAt : DateTime;
  ImageUrl : option string;
  FileUrl : option string;
  FileName : option string;
  FileSize : option Z;
  User : option UserDto.t
}.
End BookDto.

Module BookFiltersDto.
Record t : Type := mk {
  Search : option string;
  Category : option string;
  MinPrice : option decimal;
  MaxPrice : option decimal;
  Page : Z;
  PageSize : Z
}.
(** The object model binding builds from a query string with no filter
    parameter. *)
Definition empty : t := mk None None None None 1 20.
End BookFiltersDto.

Module LoginDto.
Record t : Type := mk {
  Email : string;
  Password : string
}.
End LoginDto.

Module AuthResponseDto.
Record t : Type := mk {
  Token : string;
  User : UserDto.t
}.
End AuthResponseDto.

(** ** DataAnnotations on the book DTOs

    [[Required]] refuses a null, empty or blank string, [[MaxLength(n)]] a
    string of more than [n] characters, [[Range(0, 99999.99)]] a price
    outside the interval.  [[Required]] on the non-nullable [decimal] never
    fails.  Each function lists the members that fail. *)
Module Validation.

Definition Required (s : string) : bool := negb (Str.IsNullOrWhiteSpace (Some s)).

Definition MaxLength (n : nat) (s : string) : bool := (String.length s <=? n)%nat.

Definition Range (lo hi : decimal) (v : decimal) : bool := (lo <=? v) && (v <=? hi).

Definition member (name : string) (ok : bool) : list string :=
  if ok then [] else [name].

Definition errors (Name Category : string) (Price : decimal) (Description : string)
  : list string :=
  member "Name" (Required Name && MaxLength 255 Name) ++
  member "Category" (Required Category && MaxLength 100 Category) ++
  member "Price" (Range 0 9999999 Price) ++
  member "Description" (Required Description && MaxLength 1000 Description).

Definition CreateBookDto_errors (d : CreateBookDto.t) : list string :=
  errors (CreateBookDto.Name d) (CreateBookDto.Category d)
         (CreateBookDto.Price d) (CreateBookDto.Description d).

Definition UpdateBookDto_errors (d : UpdateBookDto.t) : list string :=
  errors (UpdateBookDto.Name d) (UpdateBookDto.Category d)
         (UpdateBookDto.Price d) (UpdateBookDto.Description d).

End Validation.

(** ** Data: the database context *)

Module BookStoreContext.
Record t : Type := mk {
  Users : list User.t;
  Books : list Book.t
}.
End BookStoreContext.

(** The outcome of an awaited task: a value, or an exception. *)
Inductive Task (A : Type) : Type :=
  | Return (a : A)
  | Throw (message : string).
Arguments Return {A} a.
Arguments Throw {A} message.

Definition bind {A B : Type} (t : Task A) (k : A -> Task B) : Task B :=
  match t with
  | Return a => k a
  | Throw m => Throw m
  end.

Notation "'await' x <- t ; k" := (bind t (fun x => k))
  (at level 10, x pattern, t at level 100, k at level 200).

(** ** Repositories *)

Module BookRepository.

Import BookStoreContext.

(** [Include(b => b.User)]: the owner row joined on [UserId]. *)
Definition Include (ctx : BookStoreContext.t) (b : Book.t) : Book.t :=
  Book.mk (Book.Id b) (Book.Name b) (Book.Category b) (Book.Price b)
          (Book.Description b) (Book.UserId b) (Book.CreatedAt b)
          (Book.UpdatedAt b) (Book.ImageUrl b) (Book.FileUrl b)
          (Book.FileName b) (Book.FileSize b)
          (find (fun u => User.Id u =? Book.UserId b) (Users ctx)).

(** [OrderByDescending]: largest key first.  SQL leaves the order of rows
    of equal key open; this sort keeps them in row order, which is one of
    the orders the database may give. *)
Fixpoint insert_desc {A : Type} (key : A -> Z) (x : A) (l : list A) : list A :=
  match l with
  | [] => [x]
  | y :: r => if key y <=? key x then x :: l else y :: insert_desc key x r
  end.

Definition OrderByDescending {A : Type} (key : A -> Z) (l : list A) : list A :=
  fold_right (insert_desc key) [] l.

Definition GetAllAsync (ctx : BookStoreContext.t) (filters : option BookFiltersDto.t)
  : list Book.t :=
  let query := map (Include ctx) (Books ctx) in
  let query :=
    match filters with
    | None => query
    | Some filters =>
        let query :=
          match BookFiltersDto.Search filters with
          | Some Search =>
              if negb (Str.IsNullOrEmpty (Some Search)) then
                let searchLower := Str.ToLower Search in
                filter (fun b =>
                          Str.Contains (Str.ToLower (Book.Name b)) searchLower ||
                          Str.Contains (Str.ToLower (Book.Description b)) searchLower)
                       query
              else query
          | None => query
          end in
        let query :=
          match BookFiltersDto.Category filters with
          | Some Category =>
              if negb (Str.IsNullOrEmpty (Some Category)) then
                filter (fun b => String.eqb (Book.Category b) Category) query
              else query
          | None => query
          end in
        let query :=
          match BookFiltersDto.MinPrice filters with
          | Some MinPrice => filter (fun b => Book.Price b >=? MinPrice) query
          | None => query
          end in
        let query :=
          match BookFiltersDto.MaxPrice filters with
          | Some MaxPrice => filter (fun b => Book.Price b <=? MaxPrice) query
          | None => query
          end in
        query
    end in
  OrderByDescending Book.CreatedAt query.

Definition GetByUserIdAsync (ctx : BookStoreContext.t) (userId : Guid)
  (filters : option BookFiltersDto.t) : list Book.t :=
  let query :=
    filter (fun b => Book.UserId b =? userId) (map (Include ctx) (Books ctx)) in
  let query :=
    match filters with
    | None => query
    | Some filters =>
        let query :=
          match BookFiltersDto.Search filters with
          | Some Search =>
              if negb (Str.IsNullOrEmpty (Some Search)) then
                let searchLower := Str.ToLower Search in
                filter (fun b =>
                          Str.Contains (Str.ToLower (Book.Name b)) searchLower ||
                          Str.Contains (Str.ToLower (Book.Description b)) searchLower)
                       query
              else query
          | None => query
          end in
        let query :=
          match BookFiltersDto.Category filters with
          | Some Category =>
              if negb (Str.IsNullOrEmpty (Some Category)) then
                filter (fun b => String.eqb (Book.Category b) Category) query
              else query
          | None => query
          end in
        let query :=
          match BookFiltersDto.MinPrice filters with
          | Some MinPrice => filter (fun b => Book.Price b >=? MinPrice) query
          | None => query
          end in
        let query :=
          match BookFiltersDto.MaxPrice filters with
          | Some MaxPrice => filter (fun b => Book.Price b <=? MaxPrice) query
          | None => query
          end in
        query
    end in
  OrderByDescending Book.CreatedAt query.

Definition GetByIdAsync (ctx : BookStoreContext.t) (id : Guid) : option Book.t :=
  find (fun b => Book.Id b =? id) (map (Include ctx) (Books ctx)).

(** The row of an entity: its columns, without the navigation property. *)
Definition row_of (b : Book.t) : Book.t :=
  Book.mk (Book.Id b) (Book.Name b) (Book.Category b) (Book.Price b)
          (Book.Description b) (Book.UserId b) (Book.CreatedAt b)
          (Book.UpdatedAt b) (Book.ImageUrl b) (Book.FileUrl b)
          (Book.FileName b) (Book.FileSize b) None.

(** What the columns of [books] take.  No text of PostgreSQL holds the
    character U+0000.  [name] is [character varying(255)] and [category]
    [character varying(100)], from [[MaxLength]] on the model; the other
    texts are unbounded.  [price] is [decimal(10,2)]: eight digits before
    the point and two after it.  A text that is too long by spaces only is
    cut by PostgreSQL rather than refused; it is refused here, and no
    request through the endpoints gets that far, validation bounding both
    texts as the columns do. *)
Fixpoint HasNul (s : string) : bool :=
  match s with
  | EmptyString => false
  | String c r => Ascii.eqb c Ascii.zero || HasNul r
  end.

Definition text (s : string) : bool := negb (HasNul s).

Definition text_or_null (s : option string) : bool :=
  match s with
  | Some s => text s
  | None => true
  end.

Definition character_varying (n : nat) (s : string) : bool :=
  text s && (String.length s <=? n)%nat.

Definition decimal_10_2 (p : decimal) : bool :=
  (-10000000000 <? p) && (p <? 10000000000).

Definition Storable (b : Book.t) : bool :=
  character_varying 255 (Book.Name b) &&
  character_varying 100 (Book.Category b) &&
  decimal_10_2 (Book.Price b) &&
  text (Book.Description b) &&
  text_or_null (Book.ImageUrl b) &&
  text_or_null (Book.FileUrl b) &&
  text_or_null (Book.FileName b).

(** [SaveChangesAsync] for one added book: [UpdateTimestamps] stamps the
    entity, then its row is inserted.  The database refuses a row that its
    columns do not take, and it checks the primary key [Id] and the
    foreign key [UserId]; each refusal is an exception and nothing is
    written. *)
Definition SaveChanges_Added (ctx : BookStoreContext.t) (now : DateTime) (book : Book.t)
  : Task (Book.t * BookStoreContext.t) :=
  let book :=
    Book.mk (Book.Id book) (Book.Name book) (Book.Category book) (Book.Price book)
            (Book.Description book) (Book.UserId book) now now
            (Book.ImageUrl book) (Book.FileUrl book) (Book.FileName book)
            (Book.FileSize book) (Book.User book) in
  if existsb (fun b => Book.Id b =? Book.Id book) (Books ctx) then
    Throw "DbUpdateException"
  else if negb (existsb (fun u => User.Id u =? Book.UserId book) (Users ctx)) then
    Throw "DbUpdateException"
  else if negb (Storable book) then
    Throw "DbUpdateException"
  else Return (book, BookStoreContext.mk (Users ctx) (Books ctx ++ [row_of book])).

(** [SaveChangesAsync] for one modified book: [UpdateTimestamps] refreshes
    [UpdatedAt] and the row with the entity's key is overwritten; no such
    row is an exception, and so is a row that the columns do not take. *)
Definition SaveChanges_Modified (ctx : BookStoreContext.t) (now : DateTime) (book : Book.t)
  : Task (Book.t * BookStoreContext.t) :=
  let book :=
    Book.mk (Book.Id book) (Book.Name book) (Book.Category book) (Book.Price book)
            (Book.Description book) (Book.UserId book) (Book.CreatedAt book) now
            (Book.ImageUrl book) (Book.FileUrl book) (Book.FileName book)
            (Book.FileSize book) (Book.User book) in
  if negb (existsb (fun b => Book.Id b =? Book.Id book) (Books ctx)) then
    Throw "DbUpdateConcurrencyException"
  else if negb (Storable book) then
    Throw "DbUpdateException"
  else
    Return (book,
            BookStoreContext.mk (Users ctx)
              (map (fun b => if Book.Id b =? Book.Id book then row_of book else b)
                   (Books ctx))).

(** [SaveChangesAsync] for one removed book: its row is deleted by key. *)
Definition SaveChanges_Deleted (ctx : BookStoreContext.t) (book : Book.t)
  : BookStoreContext.t :=
  BookStoreContext.mk (Users ctx)
    (filter (fun b => negb (Book.Id b =? Book.Id book)) (Books ctx)).

Definition CreateAsync (ctx : BookStoreContext.t) (now : DateTime) (book : Book.t)
  : Task (Book.t * BookStoreContext.t) :=
  await (book, ctx) <- SaveChanges_Added ctx now book;
  Return (match GetByIdAsync ctx (Book.Id book) with
          | Some found => found
          | None => book
          end, ctx).

Definition UpdateAsync (ctx : BookStoreContext.t) (now : DateTime) (book : Book.t)
  : Task (Book.t * BookStoreContext.t) :=
  await (book, ctx) <- SaveChanges_Modified ctx now book;
  Return (match GetByIdAsync ctx (Book.Id book) with
          | Some found => found
          | None => book
          end, ctx).

Definition DeleteAsync (ctx : BookStoreContext.t) (id userId : Guid)
  : bool * BookStoreContext.t :=
  match find (fun b => (Book.Id b =? id) && (Book.UserId b =? userId)) (Books ctx) with
  | None => (false, ctx)
  | Some book => (true, SaveChanges_Deleted ctx book)
  end.

Definition ExistsAsync (ctx : BookStoreContext.t) (id userId : Guid) : bool :=
  existsb (fun b => (Book.Id b =? id) && (Book.UserId b =? userId)) (Books ctx).

End BookRepository.

(** ** Controllers *)

(** The caller as the authentication middleware leaves it: no valid token,
    or a validated token with the identifier its [NameIdentifier] claim
    parses to, if any. *)
Inductive Principal : Type :=
  | Anonymous
  | Bearer (NameIdentifier : option Guid).

Inductive ActionResult (A : Type) : Type :=
  | Ok (value : A)
  | CreatedAtAction (id : Guid) (value : A)
  | NoContent
  | BadRequest (message : string)
  | ValidationProblem (members : list string)
  | Unauthorized
  | NotFound (message : string)
  | StatusCode500 (message : string) (error : option string).
Arguments Ok {A} value.
Arguments CreatedAtAction {A} id value.
Arguments NoContent {A}.
Arguments BadRequest {A} message.
Arguments ValidationProblem {A} members.
Arguments Unauthorized {A}.
Arguments NotFound {A} message.
Arguments StatusCode500 {A} message error.

(** [[Authorize]]: the action runs only for a caller with a valid token. *)
Definition Authorize {A : Type} (User : Principal) (action : A) (denied : A) : A :=
  match User with
  | Anonymous => denied
  | Bearer _ => action
  end.

(** [[ApiController]]: a request whose body fails validation is answered
    before the action runs. *)
Definition ApiController {A : Type} (errors : list string) (action : A)
  (invalid : list string -> A) : A :=
  match errors with
  | [] => action
  | _ :: _ => invalid errors
  end.

Definition GetCurrentUserId (User : Principal) : Task Guid :=
  match User with
  | Bearer (Some userId) => Return userId
  | _ => Throw "Invalid user ID in token"
  end.

(** [try { ... } catch (Exception ex) { return StatusCode(500, ...); }]
    around a read and around a write; a failed write leaves the database
    as it was. *)
Definition try_read {A : Type} (body : Task (ActionResult A)) (message : string)
  : ActionResult A :=
  match body with
  | Return r => r
  | Throw ex => StatusCode500 message (Some ex)
  end.

Definition try_write {A : Type} (ctx : BookStoreContext.t)
  (body : Task (ActionResult A * BookStoreContext.t)) (message : string)
  : ActionResult A * BookStoreContext.t :=
  match body with
  | Return r => r
  | Throw ex => (StatusCode500 message (Some ex), ctx)
  end.

Module BooksController.

Import BookRepository.

Definition MapToDto (book : Book.t) : BookDto.t :=
  BookDto.mk (Book.Id book) (Book.Name book) (Book.Category book) (Book.Price book)
             (Book.Description book) (Book.UserId book) (Book.CreatedAt book)
             (Book.UpdatedAt book) (Book.ImageUrl book) (Book.FileUrl book)
             (Book.FileName book) (Book.FileSize book)
             (match Book.User book with
              | Some user =>
                  Some (UserDto.mk (User.Id user) (User.Email user)
                                   (User.FullName user) (User.CreatedAt user))
              | None => None
              end).

Definition GetAllBooks (ctx : BookStoreContext.t) (filters : BookFiltersDto.t)
  : ActionResult (list BookDto.t) :=
  try_read
    (let books := GetAllAsync ctx (Some filters) in
     let bookDtos := map MapToDto books in
     Return (Ok bookDtos))
    "An error occurred while fetching books".

Definition GetMyBooks (User : Principal) (ctx : BookStoreContext.t)
  (filters : BookFiltersDto.t) : ActionResult (list BookDto.t) :=
  try_read
    (await userId <- GetCurrentUserId User;
     let books := GetByUserIdAsync ctx userId (Some filters) in
     let bookDtos := map MapToDto books in
     Return (Ok bookDtos))
    "An error occurred while fetching your books".

Definition GetBook (ctx : BookStoreContext.t) (id : Guid) : ActionResult BookDto.t :=
  try_read
    (match GetByIdAsync ctx id with
     | None => Return (NotFound "Book not found")
     | Some book => Return (Ok (MapToDto book))
     end)
    "An error occurred while fetching the book".

(** [newId] is the [Guid.NewGuid()] of the [Book] initialiser and [now]
    the clock. *)
Definition CreateBook (User : Principal) (ctx : BookStoreContext.t)
  (newId : Guid) (now : DateTime) (createBookDto : CreateBookDto.t)
  : ActionResult BookDto.t * BookStoreContext.t :=
  try_write ctx
    (await userId <- GetCurrentUserId User;
     let book :=
       Book.mk newId
               (CreateBookDto.Name createBookDto)
               (CreateBookDto.Category createBookDto)
               (CreateBookDto.Price createBookDto)
               (CreateBookDto.Description createBookDto)
               userId now now
               (CreateBookDto.ImageUrl createBookDto)
               (CreateBookDto.FileUrl createBookDto)
               (CreateBookDto.FileName createBookDto)
               (CreateBookDto.FileSize createBookDto)
               None in
     await (createdBook, ctx) <- CreateAsync ctx now book;
     Return (CreatedAtAction (Book.Id createdBook) (MapToDto createdBook), ctx))
    "An error occurred while creating the book".

Definition UpdateBook (User : Principal) (ctx : BookStoreContext.t)
  (now : DateTime) (id : Guid) (updateBookDto : UpdateBookDto.t)
  : ActionResult BookDto.t * BookStoreContext.t :=
  try_write ctx
    (await userId <- GetCurrentUserId User;
     if negb (ExistsAsync ctx id userId) then
       Return (NotFound "Book not found or you don't have permission to update it", ctx)
     else
       match GetByIdAsync ctx id with
       | None => Return (NotFound "Book not found", ctx)
       | Some existingBook =>
           let existingBook :=
             Book.mk (Book.Id existingBook)
                     (UpdateBookDto.Name updateBookDto)
                     (UpdateBookDto.Category updateBookDto)
                     (UpdateBookDto.Price updateBookDto)
                     (UpdateBookDto.Description updateBookDto)
                     (Book.UserId existingBook)
                     (Book.CreatedAt existingBook)
                     (Book.UpdatedAt existingBook)
                     (UpdateBookDto.ImageUrl updateBookDto)
                     (UpdateBookDto.FileUrl updateBookDto)
                     (UpdateBookDto.FileName updateBookDto)
                     (UpdateBookDto.FileSize updateBookDto)
                     (Book.User existingBook) in
           await (updatedBook, ctx) <- UpdateAsync ctx now existingBook;
           Return (Ok (MapToDto updatedBook), ctx)
       end)
    "An error occurred while updating the book".

Definition DeleteBook (User : Principal) (ctx : BookStoreContext.t) (id : Guid)
  : ActionResult unit * BookStoreContext.t :=
  try_write ctx
    (await userId <- GetCurrentUserId User;
     let '(deleted, ctx) := DeleteAsync ctx id userId in
     if negb deleted then
       Return (NotFound "Book not found or you don't have permission to delete it", ctx)
     else Return (NoContent, ctx))
    "An error occurred while deleting the book".

(** The actions as requests reach them: behind [[Authorize]] where the
    action carries it, then behind the validation of the request body. *)
Definition HttpGet := GetAllBooks.

Definition HttpGet_my_books (User : Principal) (ctx : BookStoreContext.t)
  (filters : BookFiltersDto.t) : ActionResult (list BookDto.t) :=
  Authorize User (GetMyBooks User ctx filters) Unauthorized.

Definition HttpGet_id := GetBook.

Definition HttpPost (User : Principal) (ctx : BookStoreContext.t)
  (newId : Guid) (now : DateTime) (createBookDto : CreateBookDto.t)
  : ActionResult BookDto.t * BookStoreContext.t :=
  Authorize User
    (ApiController (Validation.CreateBookDto_errors createBookDto)
       (CreateBook User ctx newId now createBookDto)
       (fun members => (ValidationProblem members, ctx)))
    (Unauthorized, ctx).

Definition HttpPut_id (User : Principal) (ctx : BookStoreContext.t)
  (now : DateTime) (id : Guid) (updateBookDto : UpdateBookDto.t)
  : ActionResult BookDto.t * BookStoreContext.t :=
  Authorize User
    (ApiController (Validation.UpdateBookDto_errors updateBookDto)
       (UpdateBook User ctx now id updateBookDto)
       (fun members => (ValidationProblem members, ctx)))
    (Unauthorized, ctx).

Definition HttpDelete_id (User : Principal) (ctx : BookStoreContext.t) (id : Guid)
  : ActionResult unit * BookStoreContext.t :=
  Authorize User (DeleteBook User ctx id) (Unauthorized, ctx).

End BooksController.

(** ** Prices of any scale

    A C# [decimal] is an integer with a scale: up to 28 fraction digits.
    The DTOs above hold prices of at most two, which the column keeps as
    they are.  A request body may carry more. *)

Module Decimal.

(** The number [unscaled / 10^scale]. *)
Record t : Type := mk {
  unscaled : Z;
  scale : nat
}.

Definition pow10 (n : nat) : Z := 10 ^ Z.of_nat n.

Definition of_hundredths (h : decimal) : t := mk h 2.

(** [d] and [e] are the same number. *)
Definition same (d e : t) : Prop :=
  unscaled d * pow10 (scale e) = unscaled e * pow10 (scale d).

(** [[Range(lo, hi)]], the bounds in hundredths.  The attribute compares
    after a conversion to [double]; for a price within the bounds that
    agrees with the exact comparison taken here, while a price above [hi]
    by less than the spacing of the doubles there passes the attribute
    and not this check. *)
Definition Range (lo hi : decimal) (d : t) : bool :=
  (lo * pow10 (scale d) <=? unscaled d * 100) &&
  (unscaled d * 100 <=? hi * pow10 (scale d)).

(** Assignment to a column of type [decimal(10,2)]: PostgreSQL rounds to
    two fraction digits, a tie away from zero. *)
Definition round (d : t) : decimal :=
  Z.sgn (unscaled d) *
  ((2 * (Z.abs (unscaled d) * 100) + pow10 (scale d)) / (2 * pow10 (scale d))).

End Decimal.

(** The endpoints that take a price in the body, for a price of any
    scale.  Between the body and the column the price is only carried
    along: the action copies it into the entity and [SaveChangesAsync]
    hands it to the column, which rounds it.  So the database is left as
    the request with the rounded price leaves it, while the entity, and
    with it the view in the response, keeps the price of the body. *)
Module AnyScale.

Module CreateBody.
Record t : Type := mk {
  Name : string;
  Category : string;
  Price : Decimal.t;
  Description : string;
  ImageUrl : option string;
  FileUrl : option string;
  FileName : option string;
  FileSize : option Z
}.
End CreateBody.

Module UpdateBody.
Record t : Type := mk {
  Name : string;
  Category : string;
  Price : Decimal.t;
  Description : string;
  ImageUrl : option string;
  FileUrl : option string;
  FileName : option string;
  FileSize : option Z
}.
End UpdateBody.

(** The view in a response: the columns, and the price as the entity
    holds it. *)
Module View.
Record t : Type := mk {
  columns : BookDto.t;
  Price : Decimal.t
}.
End View.

Definition errors (Name Category : string) (Price : Decimal.t) (Description : string)
  : list string :=
  Validation.member "Name"
    (Validation.Required Name && Validation.MaxLength 255 Name) ++
  Validation.member "Category"
    (Validation.Required Category && Validation.MaxLength 100 Category) ++
  Validation.member "Price" (Decimal.Range 0 9999999 Price) ++
  Validation.member "Description"
    (Validation.Required Description && Validation.MaxLength 1000 Description).

Definition CreateBody_errors (d : CreateBody.t) : list string :=
  errors (CreateBody.Name d) (CreateBody.Category d)
         (CreateBody.Price d) (CreateBody.Description d).

Definition UpdateBody_errors (d : UpdateBody.t) : list string :=
  errors (UpdateBody.Name d) (UpdateBody.Category d)
         (UpdateBody.Price d) (UpdateBody.Description d).

(** The body as the columns take it. *)
Definition CreateBody_at_column (d : CreateBody.t) : CreateBookDto.t :=
  CreateBookDto.mk (CreateBody.Name d) (CreateBody.Category d)
                   (Decimal.round (CreateBody.Price d)) (CreateBody.Description d)
                   (CreateBody.ImageUrl d) (CreateBody.FileUrl d)
                   (CreateBody.FileName d) (CreateBody.FileSize d).

Definition UpdateBody_at_column (d : UpdateBody.t) : UpdateBookDto.t :=
  UpdateBookDto.mk (UpdateBody.Name d) (UpdateBody.Category d)
                   (Decimal.round (UpdateBody.Price d)) (UpdateBody.Description d)
                   (UpdateBody.ImageUrl d) (UpdateBody.FileUrl d)
                   (UpdateBody.FileName d) (UpdateBody.FileSize d).

Definition respond (Price : Decimal.t) (result : ActionResult BookDto.t)
  : ActionResult View.t :=
  match result with
  | Ok value => Ok (View.mk value Price)
  | CreatedAtAction id value => CreatedAtAction id (View.mk value Price)
  | NoContent => NoContent
  | BadRequest message => BadRequest message
  | ValidationProblem members => ValidationProblem members
  | Unauthorized => Unauthorized
  | NotFound message => NotFound message
  | StatusCode500 message error => StatusCode500 message error
  end.

Definition HttpPost (User : Principal) (ctx : BookStoreContext.t)
  (newId : Guid) (now : DateTime) (createBookDto : CreateBody.t)
  : ActionResult View.t * BookStoreContext.t :=
  Authorize User
    (ApiController (CreateBody_errors createBookDto)
       (let '(result, ctx) :=
          BooksController.CreateBook User ctx newId now
            (CreateBody_at_column createBookDto) in
        (respond (CreateBody.Price createBookDto) result, ctx))
       (fun members => (ValidationProblem members, ctx)))
    (Unauthorized, ctx).

Definition HttpPut_id (User : Principal) (ctx : BookStoreContext.t)
  (now : DateTime) (id : Guid) (updateBookDto : UpdateBody.t)
  : ActionResult View.t * BookStoreContext.t :=
  Authorize User
    (ApiController (UpdateBody_errors updateBookDto)
       (let '(result, ctx) :=
          BooksController.UpdateBook User ctx now id
            (UpdateBody_at_column updateBookDto) in
        (respond (UpdateBody.Price updateBookDto) result, ctx))
       (fun members => (ValidationProblem members, ctx)))
    (Unauthorized, ctx).

End AnyScale.

(** *** FilesController *)

Module IFormFile.
Record t : Type := mk {
  FileName : string;
  Length : Z
}.
End IFormFile.

Module HttpRequest.
Record t : Type := mk {
  Scheme : string;
  Host : string
}.
End HttpRequest.

Module UploadResult.
Record t : Type := mk {
  url : string;
  fileName : string;
  size : Z
}.
End UploadResult.

(** The content root on disk: each file's path with the number of bytes
    written to it. *)
Definition FileSystem := list (string * Z).

Module FilesController.

Definition _allowedImageExtensions : list string :=
  [".jpg"; ".jpeg"; ".png"; ".gif"; ".webp"].
Definition _allowedBookExtensions : list string :=
  [".pdf"; ".epub"; ".docx"; ".doc"; ".txt"; ".mobi"; ".azw3"].

Definition MaxImageSize : Z := 5 * 1024 * 1024.
Definition MaxBookSize : Z := 100 * 1024 * 1024.

(** [Array.Contains]. *)
Definition Contains (a : list string) (x : string) : bool :=
  existsb (fun y => String.eqb y x) a.

(** [Path.Combine] of two parts: a rooted second part replaces the first. *)
Fixpoint LastIsSeparator (s : string) : bool :=
  match s with
  | EmptyString => false
  | String c EmptyString => Str.IsDirectorySeparator c
  | String _ r => LastIsSeparator r
  end.

Definition Combine (path1 path2 : string) : string :=
  match path2 with
  | EmptyString => path1
  | String c _ =>
      if Str.IsDirectorySeparator c then path2
      else
        match path1 with
        | EmptyString => path2
        | _ => if LastIsSeparator path1 then (path1 ++ path2)%string
               else (path1 ++ "/" ++ path2)%string
        end
  end.

(** [new FileStream(filePath, FileMode.Create)] then [CopyToAsync]: the
    file is created, or truncated and rewritten.  The disk is a list of
    files, with no folders and no permissions: a write that the operating
    system would refuse, into a folder that is not there for one, is not
    modelled. *)
Definition WriteFile (fs : FileSystem) (filePath : string) (file : IFormFile.t)
  : FileSystem :=
  (filePath, IFormFile.Length file)
    :: filter (fun e => negb (String.eqb (fst e) filePath)) fs.

Definition catch {A : Type} (fs : FileSystem)
  (body : Task (ActionResult A * FileSystem)) (message : string)
  : ActionResult A * FileSystem :=
  match body with
  | Return r => r
  | Throw _ => (StatusCode500 message None, fs)
  end.

(** [newGuid] is the text of [Guid.NewGuid()] and [timestamp] that of
    [DateTime.UtcNow] in the format [yyyyMMddHHmmss]. *)
Definition UploadImage (User : Principal) (WebRootPath : string)
  (Request : HttpRequest.t) (fs : FileSystem)
  (newGuid timestamp : string)
  (file : option IFormFile.t) (bookId : option string)
  : ActionResult UploadResult.t * FileSystem :=
  catch fs
    (match file with
     | None => Return (BadRequest "No file provided", fs)
     | Some file =>
         if IFormFile.Length file =? 0 then
           Return (BadRequest "No file provided", fs)
         else if IFormFile.Length file >? MaxImageSize then
           Return (BadRequest "File size exceeds maximum allowed size of 5MB", fs)
         else
           let fileExtension := Str.ToLower (Str.GetExtension (IFormFile.FileName file)) in
           if negb (Contains _allowedImageExtensions fileExtension) then
             Return (BadRequest "Invalid file type. Only image files are allowed.", fs)
           else
             await userId <- GetCurrentUserId User;
             let fileName :=
               ((match bookId with Some bookId => bookId | None => newGuid end)
                ++ "-" ++ timestamp ++ fileExtension)%string in
             let uploadsDir := Combine (Combine WebRootPath "uploads") "images" in
             let filePath := Combine uploadsDir fileName in
             let fs := WriteFile fs filePath file in
             let fileUrl :=
               (HttpRequest.Scheme Request ++ "://" ++ HttpRequest.Host Request
                ++ "/uploads/images/" ++ fileName)%string in
             Return (Ok (UploadResult.mk fileUrl (IFormFile.FileName file)
                                         (IFormFile.Length file)), fs)
     end)
    "An error occurred while uploading the image".

Definition UploadBookFile (User : Principal) (WebRootPath : string)
  (Request : HttpRequest.t) (fs : FileSystem)
  (newGuid timestamp : string)
  (file : option IFormFile.t) (bookId : option string)
  : ActionResult UploadResult.t * FileSystem :=
  catch fs
    (match file with
     | None => Return (BadRequest "No file provided", fs)
     | Some file =>
         if IFormFile.Length file =? 0 then
           Return (BadRequest "No file provided", fs)
         else if IFormFile.Length file >? MaxBookSize then
           Return (BadRequest "File size exceeds maximum allowed size of 100MB", fs)
         else
           let fileExtension := Str.ToLower (Str.GetExtension (IFormFile.FileName file)) in
           if negb (Contains _allowedBookExtensions fileExtension) then
             Return (BadRequest
                       "Invalid file type. Only book files (PDF, EPUB, DOCX, etc.) are allowed.",
                     fs)
           else
             await userId <- GetCurrentUserId User;
             let fileName :=
               ((match bookId with Some bookId => bookId | None => newGuid end)
                ++ "-" ++ timestamp ++ fileExtension)%string in
             let uploadsDir := Combine (Combine WebRootPath "uploads") "books" in
             let filePath := Combine uploadsDir fileName in
             let fs := WriteFile fs filePath file in
             let fileUrl :=
               (HttpRequest.Scheme Request ++ "://" ++ HttpRequest.Host Request
                ++ "/uploads/books/" ++ fileName)%string in
             Return (Ok (UploadResult.mk fileUrl (IFormFile.FileName file)
                                         (IFormFile.Length file)), fs)
     end)
    "An error occurred while uploading the book file".

(** The controller carries [[Authorize]]: its actions run for callers with
    a valid token only. *)
Definition HttpPost_upload_image (User : Principal) (WebRootPath : string)
  (Request : HttpRequest.t) (fs : FileSystem)
  (newGuid timestamp : string)
  (file : option IFormFile.t) (bookId : option string)
  : ActionResult UploadResult.t * FileSystem :=
  Authorize User
    (UploadImage User WebRootPath Request fs newGuid timestamp file bookId)
    (Unauthorized, fs).

Definition HttpPost_upload_book (User : Principal) (WebRootPath : string)
  (Request : HttpRequest.t) (fs : FileSystem)
  (newGuid timestamp : string)
  (file : option IFormFile.t) (bookId : option string)
  : ActionResult UploadResult.t * FileSystem :=
  Authorize User
    (UploadBookFile User WebRootPath Request fs newGuid timestamp file bookId)
    (Unauthorized, fs).

End FilesController.

(** *** AuthController

    [UserRepository], [TokenService] and BCrypt are collaborators of the
    controller; it is written against their interfaces. *)

Module UserRepository.
Class IUserRepository : Type := {
  GetByEmailAsync : BookStoreContext.t -> string -> option User.t;
  GetByIdAsync : BookStoreContext.t -> Guid -> option User.t;
  CreateAsync : BookStoreContext.t -> User.t -> Task (User.t * BookStoreContext.t);
  EmailExistsAsync : BookStoreContext.t -> string -> bool
}.
End UserRepository.

Module TokenService.
Class ITokenService : Type := {
  GenerateToken : User.t -> string
}.
End TokenService.

Module BCrypt.
Class BCrypt : Type := {
  Verify : string -> string -> Task bool
}.
End BCrypt.

Module AuthController.

Section Controller.

Context {_userRepository : UserRepository.IUserRepository}.
Context {_tokenService : TokenService.ITokenService}.
Context {bcrypt : BCrypt.BCrypt}.

Definition Login (ctx : BookStoreContext.t) (loginDto : LoginDto.t)
  : ActionResult AuthResponseDto.t :=
  try_read
    (match UserRepository.GetByEmailAsync ctx (LoginDto.Email loginDto) with
     | None => Return (BadRequest "Invalid email or password")
     | Some user =>
         await verified <- BCrypt.Verify (LoginDto.Password loginDto) (User.PasswordHash user);
         if negb verified then
           Return (BadRequest "Invalid email or password")
         else
           let token := TokenService.GenerateToken user in
           let response :=
             AuthResponseDto.mk token
               (UserDto.mk (User.Id user) (User.Email user)
                           (User.FullName user) (User.CreatedAt user)) in
           Return (Ok response)
     end)
    "An error occurred during login".

End Controller.

End AuthController.

(** ** Front end: apiService and the dashboard statistics *)

Module BookFilters.
Record t : Type := mk {
  search : option string;
  category : option string;
  minPrice : option decimal;
  maxPrice : option decimal
}.
End BookFilters.

(** [[FromQuery] BookFiltersDto]: model binding turns a text parameter
    that is empty or holds white space only into null. *)
Module ModelBinding.

Definition ConvertEmptyStringToNull (value : option string) : option string :=
  match value with
  | Some text => if Str.IsNullOrWhiteSpace (Some text) then None else Some text
  | None => None
  end.

Definition FromQuery (query : BookFiltersDto.t) : BookFiltersDto.t :=
  BookFiltersDto.mk
    (ConvertEmptyStringToNull (BookFiltersDto.Search query))
    (ConvertEmptyStringToNull (BookFiltersDto.Category query))
    (BookFiltersDto.MinPrice query)
    (BookFiltersDto.MaxPrice query)
    (BookFiltersDto.Page query)
    (BookFiltersDto.PageSize query).

End ModelBinding.

Module apiService.

(** The parameters of the query string [getMyBooks] builds: one is
    appended for a non-empty [search] or [category] and for a defined
    price bound. *)
Definition params (filters : option BookFilters.t) : BookFiltersDto.t :=
  match filters with
  | None => BookFiltersDto.empty
  | Some filters =>
      BookFiltersDto.mk
        (match BookFilters.search filters with
         | Some EmptyString | None => None
         | Some s => Some s
         end)
        (match BookFilters.category filters with
         | Some EmptyString | None => None
         | Some s => Some s
         end)
        (BookFilters.minPrice filters)
        (BookFilters.maxPrice filters)
        1 20
  end.

Definition getMyBooks (User : Principal) (ctx : BookStoreContext.t)
  (filters : option BookFilters.t) : Task (list BookDto.t) :=
  match BooksController.HttpGet_my_books User ctx
          (ModelBinding.FromQuery (params filters)) with
  | Ok data => Return data
  | StatusCode500 message _ => Throw message
  | _ => Throw "Failed to fetch your books"
  end.

End apiService.

(** A JavaScript [Set] of strings: its members in insertion order. *)
Module JsSet.
Definition t := list string.
Definition add (s : t) (x : string) : t :=
  if existsb (String.eqb x) s then s else s ++ [x].
Definition new (values : list string) : t := fold_left add values [].
Definition size (s : t) : nat := List.length s.
End JsSet.

(** A JavaScript number: a binary64 float, added as IEEE 754 adds. *)
Module JsNumber.

Definition t := PrimFloat.float.

(** The number of an integer, exact up to 53 bits: each step doubles an
    integer and adds one at most. *)
Fixpoint of_positive (p : positive) : t :=
  match p with
  | xH => PrimFloat.one
  | xO p => PrimFloat.mul PrimFloat.two (of_positive p)
  | xI p => PrimFloat.add (PrimFloat.mul PrimFloat.two (of_positive p)) PrimFloat.one
  end.

Definition of_Z (z : Z) : t :=
  match z with
  | Z0 => PrimFloat.zero
  | Zpos p => of_positive p
  | Zneg p => PrimFloat.opp (of_positive p)
  end.

(** The number [JSON.parse] reads for a price that a [decimal(10,2)]
    column holds, which the server writes with its two fraction digits:
    the double nearest to it, that is the quotient of two integers that
    are doubles themselves. *)
Definition of_decimal (p : decimal) : t := PrimFloat.div (of_Z p) (of_Z 100).

Definition zero : t := of_Z 0.


End JsNumber.

Module Dashboard.

Record Stats : Type := mkStats {
  totalBooks : nat;
  totalValue : JsNumber.t;
  categoriesCount : nat
}.

(** [loadStats]: the next value of the [stats] state, given its current
    one; a failed request only logs the error. *)
Definition loadStats (User : Principal) (ctx : BookStoreContext.t) (stats : Stats)
  : Stats :=
  match apiService.getMyBooks User ctx None with
  | Return allBooks =>
      let totalBooks := List.length allBooks in
      let totalValue :=
        fold_left (fun sum book =>
                     PrimFloat.add sum (JsNumber.of_decimal (BookDto.Price book)))
                  allBooks JsNumber.zero in
      let categoriesCount := JsSet.size (JsSet.new (map BookDto.Category allBooks)) in
      mkStats totalBooks totalValue categoriesCount
  | Throw _ => stats
  end.

End Dashboard.

(** ** Front end: the earlier Supabase service

    The [books] table of the migration, read through the Supabase client.
    The table has row level security: the policy "Users can view their own
    books" lets an authenticated caller select the rows whose [user_id] is
    [auth.uid()]. *)

Module Row.
Record t : Type := mk {
  id : Guid;
  name : string;
  category : string;
  price : decimal;
  description : string;
  user_id : Guid;
  created_at : DateTime;
  updated_at : DateTime;
  image_url : option string;
  file_url : option string;
  file_name : option string;
  file_size : option Z
}.
End Row.

Module supabase.

Record Response (A : Type) : Type := mkResponse {
  data : option A;
  error : option string
}.
Arguments mkResponse {A} data error.
Arguments data {A} r.
Arguments error {A} r.


End supabase.

Module BookService.


End BookService.

(** ** The operations in the words of the specification *)

Module Spec.

Import BookStoreContext.

(** The stored population of books, as every query reads it. *)
Definition Population (ctx : BookStoreContext.t) : list Book.t :=
  map (BookRepository.Include ctx) (Books ctx).

(** Case-insensitive substring match: [q] occurs in [s] once both are
    folded to lower case. *)
Definition ci_substring (q s : string) : Prop :=
  exists pre post, Str.ToLower s = (pre ++ Str.ToLower q ++ post)%string.

Definition search_matches (q : string) (b : Book.t) : Prop :=
  ci_substring q (Book.Name b) \/ ci_substring q (Book.Description b).

(** Every specified predicate holds, a given category being an exact
    match whatever its text. *)
Definition satisfies_stated (f : BookFiltersDto.t) (b : Book.t) : Prop :=
  (forall q, BookFiltersDto.Search f = Some q -> search_matches q b) /\
  (forall c, BookFiltersDto.Category f = Some c -> Book.Category b = c) /\
  (forall m, BookFiltersDto.MinPrice f = Some m -> m <= Book.Price b) /\
  (forall M, BookFiltersDto.MaxPrice f = Some M -> Book.Price b <= M).

(** Every specified predicate holds, a category given as the empty text
    counting as absent. *)
Definition satisfies (f : BookFiltersDto.t) (b : Book.t) : Prop :=
  (forall q, BookFiltersDto.Search f = Some q -> search_matches q b) /\
  (forall c, BookFiltersDto.Category f = Some c -> c <> "" -> Book.Category b = c) /\
  (forall m, BookFiltersDto.MinPrice f = Some m -> m <= Book.Price b) /\
  (forall M, BookFiltersDto.MaxPrice f = Some M -> Book.Price b <= M).

Definition satisfies_opt (f : option BookFiltersDto.t) (b : Book.t) : Prop :=
  match f with
  | None => True
  | Some f => satisfies f b
  end.

(** A decision procedure for [satisfies_opt]. *)
Definition matchesb (f : option BookFiltersDto.t) (b : Book.t) : bool :=
  match f with
  | None => true
  | Some f =>
      match BookFiltersDto.Search f with
      | Some q =>
          Str.Contains (Str.ToLower (Book.Name b)) (Str.ToLower q) ||
          Str.Contains (Str.ToLower (Book.Description b)) (Str.ToLower q)
      | None => true
      end &&
      match BookFiltersDto.Category f with
      | Some c => String.eqb c "" || String.eqb (Book.Category b) c
      | None => true
      end &&
      match BookFiltersDto.MinPrice f with
      | Some m => m <=? Book.Price b
      | None => true
      end &&
      match BookFiltersDto.MaxPrice f with
      | Some M => Book.Price b <=? M
      | None => true
      end
  end.

(** [f'] relaxes [f]: each predicate of [f'] is the one of [f] or is
    dropped, or is a price bound moved outwards. *)
Definition relaxes (f f' : BookFiltersDto.t) : Prop :=
  (BookFiltersDto.Search f' = BookFiltersDto.Search f \/
   BookFiltersDto.Search f' = None) /\
  (BookFiltersDto.Category f' = BookFiltersDto.Category f \/
   BookFiltersDto.Category f' = None) /\
  (forall m', BookFiltersDto.MinPrice f' = Some m' ->
     exists m, BookFiltersDto.MinPrice f = Some m /\ m' <= m) /\
  (forall M', BookFiltersDto.MaxPrice f' = Some M' ->
     exists M, BookFiltersDto.MaxPrice f = Some M /\ M <= M').





(** The primary key: no two rows of [Books] share an [Id]. *)
Definition unique_ids (ctx : BookStoreContext.t) : Prop :=
  NoDup (map Book.Id (Books ctx)).

(** The row of a created book: the fields of the body under the new id,
    with the requester as owner and the time of the request as both time
    stamps. *)
Definition created_row (u newId : Guid) (now : DateTime) (d : CreateBookDto.t)
  : Book.t :=
  Book.mk newId (CreateBookDto.Name d) (CreateBookDto.Category d)
          (CreateBookDto.Price d) (CreateBookDto.Description d) u now now
          (CreateBookDto.ImageUrl d) (CreateBookDto.FileUrl d)
          (CreateBookDto.FileName d) (CreateBookDto.FileSize d) None.

(** The row of an updated book: the fields of the body under the id, the
    owner and the creation time of the row [e] it replaces, stamped with
    the time of the request. *)
Definition updated_row (e : Book.t) (now : DateTime) (d : UpdateBookDto.t)
  : Book.t :=
  Book.mk (Book.Id e) (UpdateBookDto.Name d) (UpdateBookDto.Category d)
          (UpdateBookDto.Price d) (UpdateBookDto.Description d)
          (Book.UserId e) (Book.CreatedAt e) now
          (UpdateBookDto.ImageUrl d) (UpdateBookDto.FileUrl d)
          (UpdateBookDto.FileName d) (UpdateBookDto.FileSize d) None.

(** The table after an insertion and after the replacement of the rows of
    one id. *)
Definition inserted (ctx : BookStoreContext.t) (row : Book.t) : BookStoreContext.t :=
  BookStoreContext.mk (Users ctx) (Books ctx ++ [row]).

Definition replaced (ctx : BookStoreContext.t) (row : Book.t) : BookStoreContext.t :=
  BookStoreContext.mk (Users ctx)
    (map (fun b => if Book.Id b =? Book.Id row then row else b) (Books ctx)).

(** A required string is there when it has a character that is not white
    space. *)
Definition present (s : string) : Prop := Str.AllWhiteSpace s = false.

(** Validation with no bound on the description. *)
Definition valid_without_description_bound
  (Name Category : string) (Price : decimal) (Description : string) : Prop :=
  present Name /\ (String.length Name <= 255)%nat /\
  present Category /\ (String.length Category <= 100)%nat /\
  0 <= Price <= 9999999 /\
  present Description.

(** Validation with the description bounded by 1000 characters. *)
Definition valid
  (Name Category : string) (Price : decimal) (Description : string) : Prop :=
  present Name /\ (String.length Name <= 255)%nat /\
  present Category /\ (String.length Category <= 100)%nat /\
  0 <= Price <= 9999999 /\
  present Description /\ (String.length Description <= 1000)%nat.

(** The primary key of [Users]. *)
Definition unique_user_ids (ctx : BookStoreContext.t) : Prop :=
  NoDup (map User.Id (Users ctx)).

(** [owner] is the row of [Users] that the foreign key of [b] names. *)
Definition owner_of (ctx : BookStoreContext.t) (b : Book.t) (owner : User.t) : Prop :=
  In owner (Users ctx) /\ User.Id owner = Book.UserId b.

(** The view [dto] is of the stored book [b] and gives away its file URL
    and the e-mail address of [owner]. *)
Definition exposes (b : Book.t) (owner : User.t) (dto : BookDto.t) : Prop :=
  BookDto.Id dto = Book.Id b /\
  BookDto.FileUrl dto = Book.FileUrl b /\
  exists view, BookDto.User dto = Some view /\
               UserDto.Id view = User.Id owner /\
               UserDto.Email view = User.Email owner.

End Spec.

(** ** File intake in the words of the specification *)

Module Intake.

Inductive Kind : Type := image | document.

Definition MiB : Z := 1024 * 1024.

Definition cap (kind : Kind) : Z :=
  match kind with
  | image => 5 * MiB
  | document => 100 * MiB
  end.

Definition allow_list (kind : Kind) : list string :=
  match kind with
  | image => ["jpg"; "jpeg"; "png"; "gif"; "webp"]
  | document => ["pdf"; "epub"; "docx"; "doc"; "txt"; "mobi"; "azw3"]
  end.

(** The extension of a file name, period included and letters folded, is
    one of the kind's list. *)
Definition allowed (kind : Kind) (declaredName : string) : Prop :=
  exists e, In e (allow_list kind) /\
            Str.ToLower (Str.GetExtension declaredName) = ("." ++ e)%string.

Definition upload (kind : Kind) :=
  match kind with
  | image => FilesController.UploadImage
  | document => FilesController.UploadBookFile
  end.

Definition endpoint (kind : Kind) :=
  match kind with
  | image => FilesController.HttpPost_upload_image
  | document => FilesController.HttpPost_upload_book
  end.

Definition too_large (kind : Kind) : string :=
  match kind with
  | image => "File size exceeds maximum allowed size of 5MB"
  | document => "File size exceeds maximum allowed size of 100MB"
  end.

Definition wrong_type (kind : Kind) : string :=
  match kind with
  | image => "Invalid file type. Only image files are allowed."
  | document => "Invalid file type. Only book files (PDF, EPUB, DOCX, etc.) are allowed."
  end.

End Intake.

(** ** Sample data

    The collaborators of [AuthController] get stand-ins to run it: users
    are looked up by lower-cased e-mail, and a password hash is the
    password behind a fixed prefix. *)

Module Sample.

Definition alice : User.t := User.mk 1 "alice@x.com" "$2a$11$hashA" (Some "Alice") 100 100.
Definition bob : User.t := User.mk 2 "bob@x.com" "$2a$11$hashB" None 110 110.

Definition hobbit : Book.t :=
  Book.mk 10 "The Hobbit" "Fiction" 999 "There and back again" 1 200 200
          (Some "http://h/uploads/images/10-1.png")
          (Some "http://h/uploads/books/10-1.pdf") (Some "hobbit.pdf") (Some 4096) None.
Definition sicp : Book.t :=
  Book.mk 11 "SICP" "Computing" 4500 "Wizard book" 2 210 210 None None None None None.
Definition dune : Book.t :=
  Book.mk 12 "Dune" "Fiction" 1250 "Arrakis" 1 220 220 None None None None None.

Definition ctx : BookStoreContext.t :=
  BookStoreContext.mk [alice; bob] [hobbit; sicp; dune].

Definition noFilter : BookFiltersDto.t := BookFiltersDto.empty.
Definition emptyCategory : BookFiltersDto.t :=
  BookFiltersDto.mk None (Some "") None None 1 20.
Definition fiction_under_10 : BookFiltersDto.t :=
  BookFiltersDto.mk (Some "HOB") (Some "Fiction") (Some 0) (Some 1000) 1 20.
Definition fiction : BookFiltersDto.t :=
  BookFiltersDto.mk None (Some "Fiction") None (Some 2000) 1 20.

Definition newFields : UpdateBookDto.t :=
  UpdateBookDto.mk "The Hobbit, 2nd ed." "Fiction" 1200 "Revised" None None None None.
Definition blankName : UpdateBookDto.t :=
  UpdateBookDto.mk "  " "Fiction" 1200 "Revised" None None None None.

Definition newBook : CreateBookDto.t :=
  CreateBookDto.mk "Emma" "Fiction" 799 "A novel"
                   (Some "http://h/uploads/images/e.png")
                   (Some "http://h/uploads/books/e.epub") (Some "emma.epub") (Some 2048).

Definition threeDigits : AnyScale.CreateBody.t :=
  AnyScale.CreateBody.mk "Emma" "Fiction" (Decimal.mk 7995 3) "A novel"
                         None None None None.
Definition twoDigits : AnyScale.CreateBody.t :=
  AnyScale.CreateBody.mk "Emma" "Fiction" (Decimal.mk 799 2) "A novel"
                         (Some "http://h/uploads/images/e.png")
                         (Some "http://h/uploads/books/e.epub") (Some "emma.epub")
                         (Some 2048).
Definition halfCent : AnyScale.UpdateBody.t :=
  AnyScale.UpdateBody.mk "The Hobbit, 2nd ed." "Fiction" (Decimal.mk 12005 3) "Revised"
                         None None None None.
Definition nulName : CreateBookDto.t :=
  CreateBookDto.mk (String Ascii.zero "Emma") "Fiction" 799 "A novel"
                   None None None None.

Definition request : HttpRequest.t := HttpRequest.mk "https" "books.example".
Definition disk : FileSystem := [("/srv/wwwroot/uploads/images/old.png", 10)].
Definition cover : IFormFile.t := IFormFile.mk "Cover.PNG" 2048.
Definition huge : IFormFile.t := IFormFile.mk "huge.exe" 5242881.
Definition script : IFormFile.t := IFormFile.mk "cover.png.exe" 2048.
Definition nothing : IFormFile.t := IFormFile.mk "empty.exe" 0.

Definition users : UserRepository.IUserRepository := {|
  UserRepository.GetByEmailAsync ctx email :=
    find (fun u => String.eqb (User.Email u) (Str.ToLower email))
         (BookStoreContext.Users ctx);
  UserRepository.GetByIdAsync ctx id :=
    find (fun u => User.Id u =? id) (BookStoreContext.Users ctx);
  UserRepository.CreateAsync ctx user :=
    Return (user, BookStoreContext.mk (BookStoreContext.Users ctx ++ [user])
                                      (BookStoreContext.Books ctx));
  UserRepository.EmailExistsAsync ctx email :=
    existsb (fun u => String.eqb (User.Email u) (Str.ToLower email))
            (BookStoreContext.Users ctx)
|}.

Definition tokens : TokenService.ITokenService := {|
  TokenService.GenerateToken user := ("token-for-" ++ User.Email user)%string
|}.

Definition hasher : BCrypt.BCrypt := {|
  BCrypt.Verify password hash := Return (String.eqb ("$2a$11$" ++ password) hash)
|}.

Definition unknown : LoginDto.t := LoginDto.mk "unknown@x.com" "hashA".
Definition wrong : LoginDto.t := LoginDto.mk "alice@x.com" "wrong".
Definition right : LoginDto.t := LoginDto.mk "Alice@X.com" "hashA".

Fixpoint replicate (n : nat) (c : ascii) : string :=
  match n with
  | O => EmptyString
  | S n => String c (replicate n c)
  end.

Definition longDescription : CreateBookDto.t :=
  CreateBookDto.mk "Emma" "Fiction" 799 (replicate 1001 "a") None None None None.
Definition longName : CreateBookDto.t :=
  CreateBookDto.mk (replicate 256 "a") "Fiction" 799 "A novel" None None None None.
Definition noCategory : UpdateBookDto.t :=
  UpdateBookDto.mk "Emma" "" 799 "A novel" None None None None.

End Sample.

(** ** Further operations of the back end *)

From Stdlib Require Import Sorted.

(** *** BookRepository.GetCategoriesAsync and BooksController.GetCategories

    The category column is projected, made distinct and ordered by the
    database; [leb] is the database's ordering of text. *)

Module Categories.

Section Collation.

Variable leb : string -> string -> bool.

(** [Distinct]: the first occurrence of each value. *)
Fixpoint Distinct (l : list string) : list string :=
  match l with
  | [] => []
  | x :: r => x :: filter (fun y => negb (String.eqb y x)) (Distinct r)
  end.

(** [OrderBy]: a stable sort, smallest first. *)
Fixpoint insert_asc (x : string) (l : list string) : list string :=
  match l with
  | [] => [x]
  | y :: r => if leb x y then x :: l else y :: insert_asc x r
  end.

Definition OrderBy (l : list string) : list string :=
  fold_right insert_asc [] l.

Definition GetCategoriesAsync (ctx : BookStoreContext.t) : list string :=
  OrderBy (Distinct (map Book.Category (BookStoreContext.Books ctx))).

Definition GetCategories (ctx : BookStoreContext.t) : ActionResult (list string) :=
  try_read
    (let categories := GetCategoriesAsync ctx in
     Return (Ok categories))
    "An error occurred while fetching categories".

End Collation.

End Categories.

(** *** FilesController.DeleteFile *)

Module FileDeletion.

(** [System.IO.File.Exists] and [System.IO.File.Delete]. *)
Definition Exists (fs : FileSystem) (path : string) : bool :=
  existsb (fun e => String.eqb (fst e) path) fs.

Definition Delete (fs : FileSystem) (path : string) : FileSystem :=
  filter (fun e => negb (String.eqb (fst e) path)) fs.

Definition DeleteFile (WebRootPath : string) (fs : FileSystem)
  (fileName fileType : string) : ActionResult string * FileSystem :=
  FilesController.catch fs
    (if negb (String.eqb fileType "images") && negb (String.eqb fileType "books") then
       Return (BadRequest "Invalid file type. Must be 'images' or 'books'", fs)
     else
       let filePath :=
         FilesController.Combine
           (FilesController.Combine (FilesController.Combine WebRootPath "uploads")
                                    fileType)
           fileName in
       if negb (Exists fs filePath) then
         Return (NotFound "File not found", fs)
       else
         let fs := Delete fs filePath in
         Return (Ok "File deleted successfully", fs))
    "An error occurred while deleting the file".

Definition HttpDelete_delete (User : Principal) (WebRootPath : string)
  (fs : FileSystem) (fileName fileType : string)
  : ActionResult string * FileSystem :=
  Authorize User (DeleteFile WebRootPath fs fileName fileType) (Unauthorized, fs).

(** The name a successful upload stores the file under, and its path. *)
Definition storedName (newGuid timestamp : string) (file : IFormFile.t)
  (bookId : option string) : string :=
  ((match bookId with Some bookId => bookId | None => newGuid end)
   ++ "-" ++ timestamp
   ++ Str.ToLower (Str.GetExtension (IFormFile.FileName file)))%string.

Definition folder (kind : Intake.Kind) : string :=
  match kind with
  | Intake.image => "images"
  | Intake.document => "books"
  end.

Definition storedPath (WebRootPath : string) (kind : Intake.Kind) (name : string)
  : string :=
  FilesController.Combine
    (FilesController.Combine (FilesController.Combine WebRootPath "uploads")
                             (folder kind))
    name.

(** No two entries of the disk share a path. *)
Definition unique_paths (fs : FileSystem) : Prop := NoDup (map fst fs).

End FileDeletion.

(** The stored books all satisfy the bounds of the request bodies. *)
Definition row_valid (b : Book.t) : Prop :=
  Spec.valid (Book.Name b) (Book.Category b) (Book.Price b) (Book.Description b).

Definition rows_valid (ctx : BookStoreContext.t) : Prop :=
  Forall row_valid (BookStoreContext.Books ctx).

(** ** Further functions of the front end *)

(** JavaScript strings and arrays, as far as the pages use them. *)
Module Js.

(** The text after the last [sep] of [s], if [s] has one. *)
Fixpoint after_last (sep : ascii) (s : string) : option string :=
  match s with
  | EmptyString => None
  | String c r =>
      match after_last sep r with
      | Some e => Some e
      | None => if Ascii.eqb c sep then Some r else None
      end
  end.

(** [s.split(sep).pop()]: the last of the pieces, which is [s] itself when
    [sep] does not occur. *)
Definition split_pop (sep : ascii) (s : string) : string :=
  match after_last sep s with
  | Some e => e
  | None => s
  end.

Definition includes (a : list string) (x : string) : bool :=
  existsb (fun y => String.eqb y x) a.

Definition toLowerCase : string -> string := Str.ToLower.

End Js.

(** *** apiService.getAllBooks *)

Module apiClient.

Definition getAllBooks (ctx : BookStoreContext.t) (filters : option BookFilters.t)
  : Task (list BookDto.t) :=
  match BooksController.HttpGet ctx
          (ModelBinding.FromQuery (apiService.params filters)) with
  | Ok data => Return data
  | StatusCode500 message _ => Throw message
  | _ => Throw "Failed to fetch books"
  end.

(** [leb] is the database's ordering of text, as for [GetCategoriesAsync]. *)
Definition getCategories (leb : string -> string -> bool) (ctx : BookStoreContext.t)
  : Task (list string) :=
  match Categories.GetCategories leb ctx with
  | Ok data => Return data
  | StatusCode500 message _ => Throw message
  | _ => Throw "Failed to fetch categories"
  end.

End apiClient.

(** *** Dashboard: the filter controls

    The text inputs pass their text and the price inputs pass
    [parseFloat] of their text, a number or [NaN] (here [None]), to
    [handleFilterChange], which stores [value || undefined] under the key. *)

Module DashboardFilters.

Inductive Change : Type :=
  | search (value : string)
  | category (value : string)
  | minPrice (value : option decimal)
  | maxPrice (value : option decimal).

(** [value || undefined] for a string and for a number. *)
Definition string_or_undefined (value : string) : option string :=
  match value with
  | EmptyString => None
  | _ => Some value
  end.

Definition number_or_undefined (value : option decimal) : option decimal :=
  match value with
  | None => None
  | Some n => if n =? 0 then None else Some n
  end.

Definition handleFilterChange (prev : BookFilters.t) (change : Change) : BookFilters.t :=
  match change with
  | search value =>
      BookFilters.mk (string_or_undefined value) (BookFilters.category prev)
                     (BookFilters.minPrice prev) (BookFilters.maxPrice prev)
  | category value =>
      BookFilters.mk (BookFilters.search prev) (string_or_undefined value)
                     (BookFilters.minPrice prev) (BookFilters.maxPrice prev)
  | minPrice value =>
      BookFilters.mk (BookFilters.search prev) (BookFilters.category prev)
                     (number_or_undefined value) (BookFilters.maxPrice prev)
  | maxPrice value =>
      BookFilters.mk (BookFilters.search prev) (BookFilters.category prev)
                     (BookFilters.minPrice prev) (number_or_undefined value)
  end.

Definition clearFilters : BookFilters.t := BookFilters.mk None None None None.

End DashboardFilters.

(** *** Store: loading the public listing

    [loadBooks] and [loadCategories] read [response.ok] after the call to
    the service; the module declares no [response], so reading it throws a
    [ReferenceError], which their [catch] blocks handle. *)

Module StorePage.

Record State : Type := mkState {
  books : list BookDto.t;
  categories : list string;
  error : string
}.

Definition setBooks (v : list BookDto.t) (s : State) : State :=
  mkState v (categories s) (error s).
Definition setCategories (v : list string) (s : State) : State :=
  mkState (books s) v (error s).
Definition setError (v : string) (s : State) : State :=
  mkState (books s) (categories s) v.

Record Response : Type := mkResponse {
  ok : bool;
  status : string
}.

Definition response : Task Response :=
  Throw "ReferenceError: response is not defined".

Definition loadBooks (ctx : BookStoreContext.t) (filters : BookFilters.t) (s : State)
  : State :=
  match
    (await booksData <- apiClient.getAllBooks ctx (Some filters);
     await response <- response;
     if negb (ok response) then
       Throw ("HTTP error! status: " ++ status response)%string
     else Return (setError "" (setBooks booksData s)))
  with
  | Return s => s
  | Throw err =>
      let s := setError "Failed to load books. Please try again." s in
      let s := setBooks [] s in
      setError "Unable to connect to server. Please check if the backend is running." s
  end.

Definition loadCategories (leb : string -> string -> bool) (ctx : BookStoreContext.t)
  (s : State) : State :=
  match
    (await categoriesData <- apiClient.getCategories leb ctx;
     await response <- response;
     if negb (ok response) then
       Throw ("HTTP error! status: " ++ status response)%string
     else Return (setCategories categoriesData s))
  with
  | Return s => s
  | Throw err =>
      let s := setCategories [] s in
      setError "Unable to connect to server. Please check if the backend is running." s
  end.

End StorePage.

(** *** BookForm: choosing the book file *)

Module BookFormPage.

Record File : Type := mkFile {
  name : string;
  type : string;
  size : Z
}.

Record State : Type := mkState {
  bookFile : option File;
  error : string
}.

Definition allowedTypes : list string :=
  ["application/pdf";
   "application/epub+zip";
   "application/vnd.openxmlformats-officedocument.wordprocessingml.document";
   "application/msword";
   "text/plain";
   "application/x-mobipocket-ebook"].

Definition allowedExtensions : list string :=
  ["pdf"; "epub"; "docx"; "doc"; "txt"; "mobi"; "azw3"].

Definition handleBookFileChange (file : option File) (s : State) : State :=
  match file with
  | None => s
  | Some file =>
      let fileExtension := Js.split_pop "." (Js.toLowerCase (name file)) in
      if negb (Js.includes allowedTypes (type file)) &&
         negb (Js.includes allowedExtensions fileExtension) then
        mkState (bookFile s)
                "Please select a valid book file (PDF, EPUB, DOCX, DOC, TXT, MOBI, AZW3)"
      else if size file >? 100 * 1024 * 1024 then
        mkState (bookFile s) "Book file size must be less than 100MB"
      else mkState (Some file) ""
  end.

End BookFormPage.

(** *** BookService.getCategories

    The rows the caller may select, ordered by category by the database
    ([sort]), then made unique by a [Set]. *)

Module BookServiceCategories.

Definition getCategories (sort : list string -> list string)
  (auth_uid : option Guid) (books : list Row.t) : list string :=
  let visible :=
    filter (fun r => match auth_uid with
                     | Some uid => uid =? Row.user_id r
                     | None => false
                     end) books in
  let data := sort (map Row.category visible) in
  JsSet.new data.

End BookServiceCategories.

Module SampleFiles.
Definition thesis : BookFormPage.File :=
  BookFormPage.mkFile "Thesis.Final.PDF" "application/octet-stream" 4096.
Definition thesisUpload : IFormFile.t := IFormFile.mk "Thesis.Final.PDF" 4096.
End SampleFiles.

(** *** storageService.extractFileNameFromUrl *)

Module storageService.

(** [url.split('/')] and its last element; nothing in the [try] block
    throws for a string. *)
Definition extractFileNameFromUrl (url : string) : option string :=
  Some (Js.split_pop "/" url).

(** The name [uploadBookImage] and [uploadBookFile] store a file under;
    [now] is the text of [Date.now()]. *)
Definition fileName (fileName_of_file bookId now : string) : string :=
  let fileExt := Js.split_pop "." fileName_of_file in
  (bookId ++ "-" ++ now ++ "." ++ fileExt)%string.

Fixpoint has_slash (s : string) : bool :=
  match s with
  | EmptyString => false
  | String c r => Ascii.eqb c "/" || has_slash r
  end.

End storageService.

(** * Properties *)

(** ** Strings and paths *)

Example ext1 : Str.GetExtension "a/b.c/Cover.PNG" = ".PNG". Proof. reflexivity. Qed.
Example ext2 : Str.GetExtension "a.b/cover" = "". Proof. reflexivity. Qed.
Example ext3 : Str.GetExtension "cover." = "". Proof. reflexivity. Qed.
Example ext4 : Str.GetExtension "x.tar.gz" = ".gz". Proof. reflexivity. Qed.
Example low1 : Str.ToLower "HeLLo Z@[" = "hello z@[". Proof. reflexivity. Qed.
Example con1 : Str.Contains "the hobbit" "hob" = true. Proof. reflexivity. Qed.
Example con2 : Str.Contains "the hobbit" "hot" = false. Proof. reflexivity. Qed.

Lemma StartsWith_spec (s t : string) :
  Str.StartsWith s t = true <-> exists post, s = (t ++ post)%string.
Proof.
  revert s; induction t as [|b t IH]; intros s; simpl.
  - split; [intros _; now exists s | reflexivity].
  - destruct s as [|a s]; simpl.
    + split; [discriminate | intros [post H]; discriminate].
    + rewrite andb_true_iff, Ascii.eqb_eq, IH. split.
      * intros [-> [post ->]]. now exists post.
      * intros [post H]. injection H as -> ->. split; [reflexivity | now exists post].
Qed.

Lemma Contains_spec (s t : string) :
  Str.Contains s t = true <-> exists pre post, s = (pre ++ t ++ post)%string.
Proof.
  induction s as [|a s IH].
  - simpl. rewrite orb_false_r, StartsWith_spec. split.
    + intros [post H]. exists EmptyString, post. exact H.
    + intros [pre [post H]]. destruct pre; simpl in H.
      * now exists post.
      * discriminate.
  - cbn [Str.Contains]. rewrite orb_true_iff, IH, StartsWith_spec. split.
    + intros [[post H] | [pre [post H]]].
      * exists EmptyString, post. exact H.
      * exists (String a pre), post. simpl. now rewrite H.
    + intros [pre [post H]]. destruct pre as [|c pre]; simpl in H.
      * left. now exists post.
      * right. injection H as _ H. now exists pre, post.
Qed.

Lemma Contains_empty (s : string) : Str.Contains s "" = true.
Proof. destruct s; reflexivity. Qed.

Lemma Char_ToLower_idempotent (c : ascii) :
  Str.Char_ToLower (Str.Char_ToLower c) = Str.Char_ToLower c.
Proof.
  unfold Str.Char_ToLower.
  destruct ((65 <=? nat_of_ascii c) && (nat_of_ascii c <=? 90))%nat eqn:E;
    [|now rewrite E].
  apply andb_true_iff in E. destruct E as [E1 E2].
  apply Nat.leb_le in E1, E2.
  rewrite nat_ascii_embedding by lia.
  replace (nat_of_ascii c + 32 <=? 90)%nat with false; [now rewrite andb_false_r|].
  symmetry. apply Nat.leb_gt. lia.
Qed.

Lemma ToLower_idempotent (s : string) : Str.ToLower (Str.ToLower s) = Str.ToLower s.
Proof.
  induction s as [|c s IH]; simpl; [reflexivity|].
  now rewrite Char_ToLower_idempotent, IH.
Qed.

Lemma ToLower_length (s : string) : String.length (Str.ToLower s) = String.length s.
Proof. induction s; simpl; congruence. Qed.

(** [GetExtension] returns nothing, or a period and at least one more
    character, none of them a directory separator. *)
Lemma scan_Found (s e : string) :
  Str.scan s = Str.Found e ->
  e = "" \/ exists c r, e = String "." (String c r).
Proof.
  revert e. induction s as [|a s IH]; intros e; simpl; [discriminate|].
  destruct (Str.scan s) eqn:E.
  - intros [= <-]. now apply IH.
  - discriminate.
  - destruct (Ascii.eqb a ".") eqn:Ea.
    + apply Ascii.eqb_eq in Ea. subst a. intros [= <-].
      destruct s as [|c r]; [now left | right; now exists c, r].
    + destruct (Str.IsDirectorySeparator a); discriminate.
Qed.

Lemma GetExtension_shape (path : string) :
  Str.GetExtension path = "" \/
  exists c r, Str.GetExtension path = String "." (String c r).
Proof.
  unfold Str.GetExtension. destruct (Str.scan path) eqn:E; [|now left..].
  now apply (scan_Found path).
Qed.

(** ** Sorting *)

Lemma insert_desc_Permutation {A : Type} (key : A -> Z) (x : A) (l : list A) :
  Permutation (BookRepository.insert_desc key x l) (x :: l).
Proof.
  induction l as [|y r IH]; simpl.
  - reflexivity.
  - destruct (key y <=? key x).
    + reflexivity.
    + rewrite IH. apply perm_swap.
Qed.

Lemma OrderByDescending_Permutation {A : Type} (key : A -> Z) (l : list A) :
  Permutation (BookRepository.OrderByDescending key l) l.
Proof.
  induction l as [|x l IH]; simpl.
  - reflexivity.
  - rewrite insert_desc_Permutation. now apply perm_skip.
Qed.

Lemma OrderByDescending_In {A : Type} (key : A -> Z) (l : list A) (x : A) :
  In x (BookRepository.OrderByDescending key l) <-> In x l.
Proof.
  split; apply Permutation_in;
    [ | symmetry ]; apply OrderByDescending_Permutation.
Qed.

(** The result of [OrderByDescending] is in descending order of its key. *)
Inductive Descending {A : Type} (key : A -> Z) : list A -> Prop :=
  | Descending_nil : Descending key []
  | Descending_cons x l :
      Forall (fun y => key y <= key x) l -> Descending key l ->
      Descending key (x :: l).

Lemma insert_desc_Descending {A : Type} (key : A -> Z) (x : A) (l : list A) :
  Descending key l -> Descending key (BookRepository.insert_desc key x l).
Proof.
  induction 1 as [|y r Hall Hr IH]; simpl.
  - constructor; constructor.
  - destruct (key y <=? key x) eqn:E.
    + apply Z.leb_le in E. constructor.
      * constructor; [exact E|].
        eapply Forall_impl; [|exact Hall]. simpl. intros; lia.
      * now constructor.
    + apply Z.leb_gt in E. constructor; [|exact IH].
      rewrite Forall_forall. intros z Hz.
      apply (Permutation_in _ (insert_desc_Permutation key x r)) in Hz.
      destruct Hz as [<- | Hz]; [lia|].
      rewrite Forall_forall in Hall. now apply Hall.
Qed.

Lemma OrderByDescending_Descending {A : Type} (key : A -> Z) (l : list A) :
  Descending key (BookRepository.OrderByDescending key l).
Proof.
  induction l; simpl; [constructor | now apply insert_desc_Descending].
Qed.

(** ** Listing and filtering *)

Lemma filter_and {A : Type} (p q : A -> bool) (l : list A) :
  filter p (filter q l) = filter (fun x => q x && p x) l.
Proof.
  induction l as [|x l IH]; simpl; [reflexivity|].
  destruct (q x); simpl; [destruct (p x)|]; now rewrite IH.
Qed.

Lemma filter_all {A : Type} (l : list A) : filter (fun _ => true) l = l.
Proof. induction l; simpl; congruence. Qed.

(** The chain of conditional [Where] clauses of [GetAllAsync] and of
    [GetByUserIdAsync] is one filter by [Spec.matchesb]. *)
Lemma Where_chain (filters : option BookFiltersDto.t) (query : list Book.t) :
  match filters with
  | None => query
  | Some filters =>
      let query :=
        match BookFiltersDto.Search filters with
        | Some Search =>
            if negb (Str.IsNullOrEmpty (Some Search)) then
              let searchLower := Str.ToLower Search in
              filter (fun b =>
                        Str.Contains (Str.ToLower (Book.Name b)) searchLower ||
                        Str.Contains (Str.ToLower (Book.Description b)) searchLower)
                     query
            else query
        | None => query
        end in
      let query :=
        match BookFiltersDto.Category filters with
        | Some Category =>
            if negb (Str.IsNullOrEmpty (Some Category)) then
              filter (fun b => String.eqb (Book.Category b) Category) query
            else query
        | None => query
        end in
      let query :=
        match BookFiltersDto.MinPrice filters with
        | Some MinPrice => filter (fun b => Book.Price b >=? MinPrice) query
        | None => query
        end in
      let query :=
        match BookFiltersDto.MaxPrice filters with
        | Some MaxPrice => filter (fun b => Book.Price b <=? MaxPrice) query
        | None => query
        end in
      query
  end = filter (Spec.matchesb filters) query.
Proof.
  destruct filters as [[search category minPrice maxPrice page pageSize]|];
    [|symmetry; apply filter_all].
  cbn [BookFiltersDto.Search BookFiltersDto.Category BookFiltersDto.MinPrice
       BookFiltersDto.MaxPrice Spec.matchesb].
  cbv zeta.
  assert (Hs : forall l,
    match search with
    | Some Search =>
        if negb (Str.IsNullOrEmpty (Some Search)) then
          filter (fun b =>
                    Str.Contains (Str.ToLower (Book.Name b)) (Str.ToLower Search) ||
                    Str.Contains (Str.ToLower (Book.Description b)) (Str.ToLower Search)) l
        else l
    | None => l
    end =
    filter (fun b => match search with
                     | Some q =>
                         Str.Contains (Str.ToLower (Book.Name b)) (Str.ToLower q) ||
                         Str.Contains (Str.ToLower (Book.Description b)) (Str.ToLower q)
                     | None => true
                     end) l).
  { intros l. destruct search as [[|c q]|]; simpl.
    - rewrite <- (filter_all l) at 1. apply filter_ext. intros b.
      now rewrite Contains_empty.
    - reflexivity.
    - symmetry; apply filter_all. }
  assert (Hc : forall l,
    match category with
    | Some Category =>
        if negb (Str.IsNullOrEmpty (Some Category)) then
          filter (fun b => String.eqb (Book.Category b) Category) l
        else l
    | None => l
    end =
    filter (fun b => match category with
                     | Some c => String.eqb c "" || String.eqb (Book.Category b) c
                     | None => true
                     end) l).
  { intros l. destruct category as [[|c q]|]; simpl.
    - symmetry; apply filter_all.
    - reflexivity.
    - symmetry; apply filter_all. }
  assert (Hm : forall l,
    match minPrice with
    | Some MinPrice => filter (fun b => Book.Price b >=? MinPrice) l
    | None => l
    end =
    filter (fun b => match minPrice with
                     | Some m => m <=? Book.Price b
                     | None => true
                     end) l).
  { intros l. destruct minPrice as [m|].
    - apply filter_ext. intros b. now rewrite Z.geb_leb.
    - symmetry; apply filter_all. }
  assert (HM : forall l,
    match maxPrice with
    | Some MaxPrice => filter (fun b => Book.Price b <=? MaxPrice) l
    | None => l
    end =
    filter (fun b => match maxPrice with
                     | Some M => Book.Price b <=? M
                     | None => true
                     end) l).
  { intros l. destruct maxPrice as [M|].
    - reflexivity.
    - symmetry; apply filter_all. }
  rewrite Hs, Hc, Hm, HM, !filter_and.
  apply filter_ext. intros b. now rewrite ?andb_assoc.
Qed.

Lemma GetAllAsync_eq (ctx : BookStoreContext.t) (filters : option BookFiltersDto.t) :
  BookRepository.GetAllAsync ctx filters =
  BookRepository.OrderByDescending Book.CreatedAt
    (filter (Spec.matchesb filters) (Spec.Population ctx)).
Proof.
  unfold BookRepository.GetAllAsync, Spec.Population. cbv zeta.
  f_equal. apply Where_chain.
Qed.

Lemma GetByUserIdAsync_eq (ctx : BookStoreContext.t) (userId : Guid)
  (filters : option BookFiltersDto.t) :
  BookRepository.GetByUserIdAsync ctx userId filters =
  BookRepository.OrderByDescending Book.CreatedAt
    (filter (Spec.matchesb filters)
       (filter (fun b => Book.UserId b =? userId) (Spec.Population ctx))).
Proof.
  unfold BookRepository.GetByUserIdAsync, Spec.Population. cbv zeta.
  f_equal. apply Where_chain.
Qed.

Lemma Contains_ci (s q : string) :
  Str.Contains (Str.ToLower s) (Str.ToLower q) = true <-> Spec.ci_substring q s.
Proof. apply Contains_spec. Qed.

Lemma matchesb_iff (f : BookFiltersDto.t) (b : Book.t) :
  Spec.matchesb (Some f) b = true <-> Spec.satisfies f b.
Proof.
  destruct f as [search category minPrice maxPrice page pageSize].
  unfold Spec.satisfies, Spec.search_matches.
  cbn [Spec.matchesb BookFiltersDto.Search BookFiltersDto.Category
       BookFiltersDto.MinPrice BookFiltersDto.MaxPrice].
  rewrite !andb_true_iff.
  assert (Hs : match search with
               | Some q =>
                   Str.Contains (Str.ToLower (Book.Name b)) (Str.ToLower q) ||
                   Str.Contains (Str.ToLower (Book.Description b)) (Str.ToLower q)
               | None => true
               end = true <->
               (forall q, search = Some q ->
                  Spec.ci_substring q (Book.Name b) \/
                  Spec.ci_substring q (Book.Description b))).
  { destruct search as [q|].
    - rewrite orb_true_iff, !Contains_ci. split.
      + intros H q' [= <-]. exact H.
      + intros H. now apply H.
    - split; [intros _ q; discriminate | reflexivity]. }
  assert (Hc : match category with
               | Some c => String.eqb c "" || String.eqb (Book.Category b) c
               | None => true
               end = true <->
               (forall c, category = Some c -> c <> "" -> Book.Category b = c)).
  { destruct category as [c|].
    - rewrite orb_true_iff, !String.eqb_eq. split.
      + intros [H | H] c' [= <-] Hne; [contradiction | exact H].
      + intros H. destruct (string_dec c "") as [-> | Hne]; [now left | right; now apply H].
    - split; [intros _ c; discriminate | reflexivity]. }
  assert (Hm : match minPrice with
               | Some m => m <=? Book.Price b
               | None => true
               end = true <->
               (forall m, minPrice = Some m -> m <= Book.Price b)).
  { destruct minPrice as [m|].
    - rewrite Z.leb_le. split; [intros H m' [= <-]; exact H | intros H; now apply H].
    - split; [intros _ m; discriminate | reflexivity]. }
  assert (HM : match maxPrice with
               | Some M => Book.Price b <=? M
               | None => true
               end = true <->
               (forall M, maxPrice = Some M -> Book.Price b <= M)).
  { destruct maxPrice as [M|].
    - rewrite Z.leb_le. split; [intros H M' [= <-]; exact H | intros H; now apply H].
    - split; [intros _ M; discriminate | reflexivity]. }
  rewrite Hs, Hc, Hm, HM. tauto.
Qed.

Lemma matchesb_opt_iff (f : option BookFiltersDto.t) (b : Book.t) :
  Spec.matchesb f b = true <-> Spec.satisfies_opt f b.
Proof.
  destruct f as [f|]; [apply matchesb_iff | simpl; tauto].
Qed.

Lemma relaxes_satisfies (f f' : BookFiltersDto.t) (b : Book.t) :
  Spec.relaxes f f' -> Spec.satisfies f b -> Spec.satisfies f' b.
Proof.
  intros (Rs & Rc & Rm & RM) (Ss & Sc & Sm & SM).
  repeat split.
  - intros q Hq. destruct Rs as [Rs | Rs]; rewrite Rs in Hq;
      [now apply Ss | discriminate].
  - intros c Hc Hne. destruct Rc as [Rc | Rc]; rewrite Rc in Hc;
      [now apply Sc | discriminate].
  - intros m' Hm'. destruct (Rm m' Hm') as (m & Hm & Hle).
    specialize (Sm m Hm). lia.
  - intros M' HM'. destruct (RM M' HM') as (M & HM & Hle).
    specialize (SM M HM). lia.
Qed.

Lemma GetAllAsync_In (ctx : BookStoreContext.t) (filters : option BookFiltersDto.t)
  (b : Book.t) :
  In b (BookRepository.GetAllAsync ctx filters) <->
  In b (Spec.Population ctx) /\ Spec.satisfies_opt filters b.
Proof.
  rewrite GetAllAsync_eq, OrderByDescending_In, filter_In, matchesb_opt_iff.
  reflexivity.
Qed.

Lemma GetByUserIdAsync_In (ctx : BookStoreContext.t) (userId : Guid)
  (filters : option BookFiltersDto.t) (b : Book.t) :
  In b (BookRepository.GetByUserIdAsync ctx userId filters) <->
  In b (Spec.Population ctx) /\ Book.UserId b = userId /\
  Spec.satisfies_opt filters b.
Proof.
  rewrite GetByUserIdAsync_eq, OrderByDescending_In, !filter_In,
    matchesb_opt_iff, Z.eqb_eq.
  tauto.
Qed.

(** C2 (as amended).  Over any stored population, [GetAllAsync] returns
    exactly the books that satisfy every specified predicate of the
    filter, once each and newest first: a case-insensitive substring match
    of [Search] against the name or the description, an exact match of
    [Category], inclusive price bounds, all conjoined; an absent field, and
    a [Category] given as the empty text, impose no constraint; a null
    filter returns the whole population; relaxing a filter gives a
    superset. *)
Theorem GetAllAsync_returns_exactly_the_matching_books (ctx : BookStoreContext.t) :
  (forall b, In b (BookRepository.GetAllAsync ctx None) <-> In b (Spec.Population ctx)) /\
  (forall f b,
     In b (BookRepository.GetAllAsync ctx (Some f)) <->
     In b (Spec.Population ctx) /\ Spec.satisfies f b) /\
  (forall f,
     exists p : Book.t -> bool,
       (forall b, p b = true <-> Spec.satisfies_opt f b) /\
       Permutation (BookRepository.GetAllAsync ctx f)
                   (filter p (Spec.Population ctx)) /\
       Descending Book.CreatedAt (BookRepository.GetAllAsync ctx f)) /\
  (forall f f',
     Spec.relaxes f f' ->
     incl (BookRepository.GetAllAsync ctx (Some f))
          (BookRepository.GetAllAsync ctx (Some f'))).
Proof.
  split; [|split; [|split]].
  - intros b. rewrite GetAllAsync_In. simpl. tauto.
  - intros f b. apply GetAllAsync_In.
  - intros f. exists (Spec.matchesb f). split; [|split].
    + intros b. apply matchesb_opt_iff.
    + rewrite GetAllAsync_eq. apply OrderByDescending_Permutation.
    + rewrite GetAllAsync_eq. apply OrderByDescending_Descending.
  - intros f f' R b [Hp Hs]%GetAllAsync_In.
    apply GetAllAsync_In. split; [exact Hp|].
    simpl in *. now apply (relaxes_satisfies f f').
Qed.

Lemma GetAllAsync_returns_exactly_the_matching_books_witness :
  Spec.relaxes Sample.fiction_under_10 Sample.fiction /\
  incl (BookRepository.GetAllAsync Sample.ctx (Some Sample.fiction_under_10))
       (BookRepository.GetAllAsync Sample.ctx (Some Sample.fiction)).
Proof.
  assert (R : Spec.relaxes Sample.fiction_under_10 Sample.fiction).
  { unfold Spec.relaxes; simpl. repeat split.
    - now right.
    - now left.
    - intros m' H; discriminate.
    - intros M' [= <-]. exists 1000. split; [reflexivity | lia]. }
  split; [exact R|].
  exact (proj2 (proj2 (proj2
    (GetAllAsync_returns_exactly_the_matching_books Sample.ctx)))
    Sample.fiction_under_10 Sample.fiction R).
Defined.

(** C2 as stated fails for a category given as the empty text: the guard
    [!string.IsNullOrEmpty(filters.Category)] skips the clause, so a book
    of category "Fiction" is returned although it is no exact match. *)
Lemma GetAllAsync_empty_category_is_no_exact_match :
  In (BookRepository.Include Sample.ctx Sample.hobbit)
     (BookRepository.GetAllAsync Sample.ctx (Some Sample.emptyCategory)) /\
  ~ Spec.satisfies_stated Sample.emptyCategory
      (BookRepository.Include Sample.ctx Sample.hobbit).
Proof.
  split.
  - vm_compute. tauto.
  - intros (_ & Hc & _). specialize (Hc "" eq_refl). discriminate.
Qed.

Example GetAllAsync_sample :
  map Book.Name (BookRepository.GetAllAsync Sample.ctx (Some Sample.fiction))
  = ["Dune"; "The Hobbit"].
Proof. reflexivity. Qed.

Example GetAllAsync_sample_search :
  map Book.Name (BookRepository.GetAllAsync Sample.ctx (Some Sample.fiction_under_10))
  = ["The Hobbit"].
Proof. reflexivity. Qed.

(** The owner's listing is the owner's part of the whole listing, in the
    same order. *)
Lemma insert_desc_front {A : Type} (key : A -> Z) (x : A) (l : list A) :
  Forall (fun y => key y <= key x) l ->
  BookRepository.insert_desc key x l = x :: l.
Proof.
  destruct l as [|y r]; simpl; [reflexivity|].
  intros H. apply Forall_inv in H. apply Z.leb_le in H. now rewrite H.
Qed.

Lemma filter_insert_desc {A : Type} (key : A -> Z) (p : A -> bool) (x : A)
  (l : list A) :
  Descending key l ->
  filter p (BookRepository.insert_desc key x l) =
  if p x then BookRepository.insert_desc key x (filter p l) else filter p l.
Proof.
  induction 1 as [|y r Hall Hr IH]; simpl.
  - now destruct (p x).
  - destruct (key y <=? key x) eqn:E; simpl.
    + destruct (p x); [|reflexivity].
      apply Z.leb_le in E. symmetry. apply insert_desc_front.
      destruct (p y).
      * constructor; [exact E|]. apply Forall_forall. intros z Hz.
        apply filter_In in Hz. destruct Hz as [Hz _].
        rewrite Forall_forall in Hall. specialize (Hall z Hz). simpl in Hall. lia.
      * apply Forall_forall. intros z Hz.
        apply filter_In in Hz. destruct Hz as [Hz _].
        rewrite Forall_forall in Hall. specialize (Hall z Hz). simpl in Hall. lia.
    + rewrite IH. destruct (p y), (p x); simpl; try reflexivity.
      now rewrite E.
Qed.

Lemma filter_OrderByDescending {A : Type} (key : A -> Z) (p : A -> bool)
  (l : list A) :
  filter p (BookRepository.OrderByDescending key l) =
  BookRepository.OrderByDescending key (filter p l).
Proof.
  induction l as [|x l IH]; simpl; [reflexivity|].
  rewrite filter_insert_desc by apply OrderByDescending_Descending.
  rewrite IH. now destruct (p x).
Qed.

Lemma GetByUserIdAsync_is_the_owners_part
  (ctx : BookStoreContext.t) (userId : Guid) (filters : option BookFiltersDto.t) :
  BookRepository.GetByUserIdAsync ctx userId filters =
  filter (fun b => Book.UserId b =? userId) (BookRepository.GetAllAsync ctx filters).
Proof.
  rewrite GetByUserIdAsync_eq, GetAllAsync_eq, filter_OrderByDescending.
  f_equal. rewrite !filter_and. apply filter_ext. intros b. apply andb_comm.
Qed.

(** C8.  For every owner and every filter, each book returned by
    [GetByUserIdAsync] is returned by [GetAllAsync] over the same stored
    population. *)
Theorem GetByUserIdAsync_subset_of_GetAllAsync
  (ctx : BookStoreContext.t) (userId : Guid) (filters : option BookFiltersDto.t) :
  incl (BookRepository.GetByUserIdAsync ctx userId filters)
       (BookRepository.GetAllAsync ctx filters).
Proof.
  intros b (Hp & _ & Hs)%GetByUserIdAsync_In.
  apply GetAllAsync_In. now split.
Qed.

(** ** Rows and keys *)

Lemma Include_Id (ctx : BookStoreContext.t) (b : Book.t) :
  Book.Id (BookRepository.Include ctx b) = Book.Id b.
Proof. reflexivity. Qed.

Lemma find_Include (ctx : BookStoreContext.t) (id : Guid) (l : list Book.t) :
  find (fun b => Book.Id b =? id) (map (BookRepository.Include ctx) l) =
  option_map (BookRepository.Include ctx) (find (fun b => Book.Id b =? id) l).
Proof.
  induction l as [|x l IH]; simpl; [reflexivity|].
  destruct (Book.Id x =? id); [reflexivity | exact IH].
Qed.

Lemma find_by_key (l : list Book.t) (b : Book.t) :
  NoDup (map Book.Id l) -> In b l ->
  find (fun x => Book.Id x =? Book.Id b) l = Some b.
Proof.
  induction l as [|x l IH]; simpl; [contradiction|].
  intros Hnd [-> | Hin].
  - now rewrite Z.eqb_refl.
  - inversion Hnd as [|? ? Hx Hl]; subst.
    destruct (Book.Id x =? Book.Id b) eqn:E.
    + apply Z.eqb_eq in E. exfalso. apply Hx. rewrite E. now apply in_map.
    + now apply IH.
Qed.

Lemma key_determines_row (l : list Book.t) (b x : Book.t) :
  NoDup (map Book.Id l) -> In b l -> In x l -> Book.Id x = Book.Id b -> x = b.
Proof.
  intros Hnd Hb Hx E.
  pose proof (find_by_key l b Hnd Hb) as Fb.
  pose proof (find_by_key l x Hnd Hx) as Fx.
  rewrite E in Fx. congruence.
Qed.

Lemma no_match_find_None {A : Type} (p : A -> bool) (l : list A) :
  (forall x, In x l -> p x = false) -> find p l = None.
Proof.
  induction l as [|x l IH]; simpl; [reflexivity|].
  intros H. rewrite (H x (or_introl eq_refl)). apply IH.
  intros y Hy. apply H. now right.
Qed.

Lemma existsb_false_iff {A : Type} (p : A -> bool) (l : list A) :
  existsb p l = false <-> forall x, In x l -> p x = false.
Proof.
  induction l as [|x l IH]; simpl.
  - split; [intros _ y [] | reflexivity].
  - rewrite orb_false_iff, IH. split.
    + intros [Hx Hl] y [<- | Hy]; [exact Hx | now apply Hl].
    + intros H. split; [apply H; now left | intros y Hy; apply H; now right].
Qed.

Lemma not_owned_no_match (l : list Book.t) (b : Book.t) (r : Guid) :
  NoDup (map Book.Id l) -> In b l -> r <> Book.UserId b ->
  forall x, In x l -> (Book.Id x =? Book.Id b) && (Book.UserId x =? r) = false.
Proof.
  intros Hnd Hb Hr x Hx.
  destruct (Book.Id x =? Book.Id b) eqn:E; [|reflexivity].
  apply Z.eqb_eq in E.
  rewrite (key_determines_row l b x Hnd Hb Hx E).
  simpl. apply Z.eqb_neq. congruence.
Qed.

Lemma In_replace_other (l : list Book.t) (b nb : Book.t) (id : Guid) :
  In b l -> Book.Id b <> id ->
  In b (map (fun x => if Book.Id x =? id then nb else x) l).
Proof.
  intros Hb Hne. apply in_map_iff. exists b. split; [|exact Hb].
  apply Z.eqb_neq in Hne. now rewrite Hne.
Qed.


(** ** Ownership-checked mutation *)

Lemma ExistsAsync_owned (ctx : BookStoreContext.t) (id userId : Guid) :
  BookRepository.ExistsAsync ctx id userId = true ->
  exists x, In x (BookStoreContext.Books ctx) /\ Book.Id x = id /\ Book.UserId x = userId.
Proof.
  unfold BookRepository.ExistsAsync. intros H.
  apply existsb_exists in H. destruct H as (x & Hx & H).
  apply andb_true_iff in H. destruct H as [H1 H2].
  apply Z.eqb_eq in H1, H2. now exists x.
Qed.

(** Whatever book a requester names, [UpdateBook] leaves the rows of the
    other owners as they are. *)
Lemma UpdateBook_frame (ctx : BookStoreContext.t) (b : Book.t) (User : Principal)
  (now : DateTime) (id : Guid) (fields : UpdateBookDto.t) :
  Spec.unique_ids ctx -> In b (BookStoreContext.Books ctx) ->
  User <> Bearer (Some (Book.UserId b)) ->
  In b (BookStoreContext.Books (snd (BooksController.UpdateBook User ctx now id fields))).
Proof.
  intros Hnd Hb Hr. unfold BooksController.UpdateBook.
  destruct User as [|[r|]]; simpl; try exact Hb.
  destruct (BookRepository.ExistsAsync ctx id r) eqn:E; simpl; [|exact Hb].
  apply ExistsAsync_owned in E. destruct E as (x & Hx & <- & <-).
  unfold BookRepository.GetByIdAsync. rewrite find_Include.
  rewrite (find_by_key _ x Hnd Hx). simpl.
  unfold BookRepository.UpdateAsync, BookRepository.SaveChanges_Modified.
  cbn [Book.Id Book.UserId].
  destruct (negb (existsb _ (BookStoreContext.Books ctx))); [exact Hb|].
  destruct (negb (BookRepository.Storable _)); [exact Hb|].
  cbn [bind try_write snd BookStoreContext.Books].
  apply In_replace_other; [exact Hb|].
  intros E. apply Hr.
  now rewrite (key_determines_row _ x b Hnd Hx Hb E).
Qed.

(** Whatever book a requester names, [DeleteAsync] leaves the rows of the
    other owners in place. *)
Lemma DeleteAsync_frame (ctx : BookStoreContext.t) (b : Book.t) (id r : Guid) :
  Spec.unique_ids ctx -> In b (BookStoreContext.Books ctx) ->
  r <> Book.UserId b ->
  In b (BookStoreContext.Books (snd (BookRepository.DeleteAsync ctx id r))).
Proof.
  intros Hnd Hb Hr. unfold BookRepository.DeleteAsync.
  destruct (find _ (BookStoreContext.Books ctx)) as [x|] eqn:F; simpl; [|exact Hb].
  apply find_some in F. destruct F as [Hx F].
  apply andb_true_iff in F. destruct F as [F1 F2]. apply Z.eqb_eq in F1, F2.
  apply filter_In. split; [exact Hb|].
  apply negb_true_iff, Z.eqb_neq. intros E.
  apply Hr. rewrite <- F2. f_equal.
  now apply (key_determines_row _ b x Hnd Hb Hx).
Qed.

(** C1.  For a stored book [b] and a requester [r] other than its owner,
    whatever the fields: [UpdateBook] on [b]'s id answers not-found and
    leaves the database as it was, so that a following [GetByIdAsync]
    still yields [b]; [DeleteAsync] on [b]'s id returns false and leaves
    the database as it was, and [DeleteBook] answers not-found.  Update
    and delete take effect only behind the ownership test: whichever id
    [r] names, and also through the validated endpoint, [b]'s row stays
    in the table unchanged. *)
Theorem non_owner_update_and_delete_are_not_found
  (ctx : BookStoreContext.t) (b : Book.t) (r : Guid) (now : DateTime)
  (fields : UpdateBookDto.t) :
  Spec.unique_ids ctx ->
  In b (BookStoreContext.Books ctx) ->
  r <> Book.UserId b ->
  BooksController.UpdateBook (Bearer (Some r)) ctx now (Book.Id b) fields =
    (NotFound "Book not found or you don't have permission to update it", ctx) /\
  BookRepository.GetByIdAsync
    (snd (BooksController.UpdateBook (Bearer (Some r)) ctx now (Book.Id b) fields))
    (Book.Id b) = Some (BookRepository.Include ctx b) /\
  BookRepository.DeleteAsync ctx (Book.Id b) r = (false, ctx) /\
  BooksController.DeleteBook (Bearer (Some r)) ctx (Book.Id b) =
    (NotFound "Book not found or you don't have permission to delete it", ctx) /\
  (forall id,
     In b (BookStoreContext.Books
             (snd (BooksController.UpdateBook (Bearer (Some r)) ctx now id fields))) /\
     In b (BookStoreContext.Books
             (snd (BooksController.HttpPut_id (Bearer (Some r)) ctx now id fields))) /\
     In b (BookStoreContext.Books (snd (BookRepository.DeleteAsync ctx id r))) /\
     In b (BookStoreContext.Books
             (snd (BooksController.HttpDelete_id (Bearer (Some r)) ctx id)))).
Proof.
  intros Hnd Hb Hr.
  assert (HE : BookRepository.ExistsAsync ctx (Book.Id b) r = false).
  { apply existsb_false_iff. now apply not_owned_no_match. }
  assert (HF : find (fun x => (Book.Id x =? Book.Id b) && (Book.UserId x =? r))
                    (BookStoreContext.Books ctx) = None).
  { apply no_match_find_None. now apply not_owned_no_match. }
  assert (HU : BooksController.UpdateBook (Bearer (Some r)) ctx now (Book.Id b) fields =
    (NotFound "Book not found or you don't have permission to update it", ctx)).
  { unfold BooksController.UpdateBook. simpl. now rewrite HE. }
  assert (HD : BookRepository.DeleteAsync ctx (Book.Id b) r = (false, ctx)).
  { unfold BookRepository.DeleteAsync. now rewrite HF. }
  assert (Hneq : Bearer (Some r) <> Bearer (Some (Book.UserId b))) by congruence.
  split; [exact HU|]. split; [|split; [exact HD|split]].
  - rewrite HU. simpl. unfold BookRepository.GetByIdAsync.
    rewrite find_Include, (find_by_key _ b Hnd Hb). reflexivity.
  - unfold BooksController.DeleteBook. simpl. now rewrite HD.
  - intros id.
    pose proof (UpdateBook_frame ctx b (Bearer (Some r)) now id fields Hnd Hb Hneq) as HUf.
    pose proof (DeleteAsync_frame ctx b id r Hnd Hb Hr) as HDf.
    split; [exact HUf|]. split; [|split; [exact HDf|]].
    + unfold BooksController.HttpPut_id, Authorize, ApiController.
      destruct (Validation.UpdateBookDto_errors fields); [exact HUf | exact Hb].
    + unfold BooksController.HttpDelete_id, Authorize, BooksController.DeleteBook.
      simpl. destruct (BookRepository.DeleteAsync ctx id r) as [[|] ctx'];
        simpl in *; exact HDf.
Qed.

Lemma non_owner_update_and_delete_are_not_found_witness :
  BooksController.UpdateBook (Bearer (Some 2)) Sample.ctx 300 10 Sample.blankName =
    (NotFound "Book not found or you don't have permission to update it", Sample.ctx) /\
  BookRepository.DeleteAsync Sample.ctx 10 2 = (false, Sample.ctx).
Proof.
  assert (Hnd : Spec.unique_ids Sample.ctx).
  { unfold Spec.unique_ids. simpl.
    repeat (constructor; [simpl; intuition discriminate|]). constructor. }
  assert (Hb : In Sample.hobbit (BookStoreContext.Books Sample.ctx)) by (simpl; tauto).
  assert (Hr : 2 <> Book.UserId Sample.hobbit) by (simpl; discriminate).
  pose proof (non_owner_update_and_delete_are_not_found
                Sample.ctx Sample.hobbit 2 300 Sample.blankName Hnd Hb Hr)
    as (HU & _ & HD & _).
  split; [exact HU | exact HD].
Defined.

Example owner_update_takes_effect :
  option_map Book.Price
    (BookRepository.GetByIdAsync
       (snd (BooksController.HttpPut_id (Bearer (Some 1)) Sample.ctx 300 10 Sample.newFields))
       10) = Some 1200.
Proof. reflexivity. Qed.

Example blank_name_is_refused_first :
  BooksController.HttpPut_id (Bearer (Some 2)) Sample.ctx 300 10 Sample.blankName =
  (ValidationProblem ["Name"], Sample.ctx).
Proof. reflexivity. Qed.

(** ** Create and read back *)

Lemma find_app_last {A : Type} (p : A -> bool) (l : list A) (x : A) :
  existsb p l = false -> p x = true -> find p (l ++ [x]) = Some x.
Proof.
  induction l as [|y l IH]; simpl; intros H Hx.
  - now rewrite Hx.
  - apply orb_false_iff in H. destruct H as [Hy H]. rewrite Hy. now apply IH.
Qed.

Lemma fresh_id_not_stored (l : list Book.t) (id : Guid) :
  ~ In id (map Book.Id l) -> existsb (fun b => Book.Id b =? id) l = false.
Proof.
  intros H. apply existsb_false_iff. intros x Hx.
  apply Z.eqb_neq. intros E. apply H. rewrite <- E. now apply in_map.
Qed.

Lemma registered_user_found (l : list User.t) (u : Guid) :
  In u (map User.Id l) -> existsb (fun x => User.Id x =? u) l = true.
Proof.
  intros H. apply in_map_iff in H. destruct H as (x & E & Hx).
  apply existsb_exists. exists x. split; [exact Hx | now apply Z.eqb_eq].
Qed.

Lemma stored_id_iff (l : list Book.t) (id : Guid) :
  existsb (fun b => Book.Id b =? id) l = true <-> In id (map Book.Id l).
Proof.
  rewrite existsb_exists, in_map_iff. split.
  - intros (x & Hx & E). apply Z.eqb_eq in E. now exists x.
  - intros (x & E & Hx). exists x. split; [exact Hx | now apply Z.eqb_eq].
Qed.

Lemma registered_iff (l : list User.t) (u : Guid) :
  existsb (fun x => User.Id x =? u) l = true <-> In u (map User.Id l).
Proof.
  rewrite existsb_exists, in_map_iff. split.
  - intros (x & Hx & E). apply Z.eqb_eq in E. now exists x.
  - intros (x & E & Hx). exists x. split; [exact Hx | now apply Z.eqb_eq].
Qed.

(** The row a create has inserted is the one a lookup of its id finds. *)
Lemma GetByIdAsync_inserted (ctx : BookStoreContext.t) (row : Book.t) :
  existsb (fun b => Book.Id b =? Book.Id row) (BookStoreContext.Books ctx) = false ->
  BookRepository.GetByIdAsync (Spec.inserted ctx row) (Book.Id row) =
    Some (BookRepository.Include (Spec.inserted ctx row) row).
Proof.
  intros H. unfold BookRepository.GetByIdAsync. rewrite find_Include.
  change (BookStoreContext.Books (Spec.inserted ctx row))
    with (BookStoreContext.Books ctx ++ [row]).
  rewrite find_app_last; [reflexivity | exact H | apply Z.eqb_refl].
Qed.

(** The two outcomes of [CreateBook]: the row of the body is inserted and
    the answer is Created, which takes a token with an id, a fresh key, a
    user row for the owner and a row that the columns take; or the answer
    is the 500 response and the database is as it was. *)
Lemma CreateBook_cases (User : Principal) (ctx : BookStoreContext.t)
  (newId : Guid) (now : DateTime) (d : CreateBookDto.t) :
  (exists u,
     User = Bearer (Some u) /\
     ~ In newId (map Book.Id (BookStoreContext.Books ctx)) /\
     In u (map User.Id (BookStoreContext.Users ctx)) /\
     BookRepository.Storable (Spec.created_row u newId now d) = true /\
     BooksController.CreateBook User ctx newId now d =
       (CreatedAtAction newId
          (BooksController.MapToDto
             (BookRepository.Include
                (Spec.inserted ctx (Spec.created_row u newId now d))
                (Spec.created_row u newId now d))),
        Spec.inserted ctx (Spec.created_row u newId now d))) \/
  (exists ex,
     BooksController.CreateBook User ctx newId now d =
       (StatusCode500 "An error occurred while creating the book" (Some ex), ctx)).
Proof.
  unfold BooksController.CreateBook.
  destruct User as [|[u|]]; cbn [GetCurrentUserId bind try_write];
    [right; eexists; reflexivity | | right; eexists; reflexivity].
  unfold BookRepository.CreateAsync, BookRepository.SaveChanges_Added.
  cbn [Book.Id Book.UserId Book.Name Book.Category Book.Price Book.Description
       Book.ImageUrl Book.FileUrl Book.FileName Book.FileSize Book.User].
  destruct (existsb (fun b => Book.Id b =? newId) (BookStoreContext.Books ctx)) eqn:E1;
    [right; eexists; reflexivity|].
  destruct (existsb (fun x => User.Id x =? u) (BookStoreContext.Users ctx)) eqn:E2;
    cbn [negb]; [|right; eexists; reflexivity].
  match goal with
  | |- context [BookRepository.Storable ?b] =>
      change (BookRepository.Storable b)
        with (BookRepository.Storable (Spec.created_row u newId now d))
  end.
  destruct (BookRepository.Storable (Spec.created_row u newId now d)) eqn:E3;
    cbn [negb]; [|right; eexists; reflexivity].
  left. exists u. split; [reflexivity|]. split.
  { intros Hin. apply stored_id_iff in Hin. congruence. }
  split; [now apply registered_iff|]. split; [first [exact E3 | reflexivity]|].
  pose proof (GetByIdAsync_inserted ctx (Spec.created_row u newId now d) E1) as Hget.
  unfold Spec.inserted, Spec.created_row, BookRepository.row_of in Hget |- *.
  cbn [bind try_write
       Book.Id Book.UserId Book.Name Book.Category Book.Price Book.Description
       Book.ImageUrl Book.FileUrl Book.FileName Book.FileSize Book.User
       Book.CreatedAt Book.UpdatedAt] in Hget |- *.
  rewrite Hget. reflexivity.
Qed.

(** ** Prices of any scale on their way to the column *)

Lemma pow10_positive (n : nat) : 0 < Decimal.pow10 n.
Proof. unfold Decimal.pow10. apply Z.pow_pos_nonneg; lia. Qed.

(** Rounding keeps a price that has at most two fraction digits. *)
Lemma round_of_two_fraction_digits (d : Decimal.t) (h : decimal) :
  Decimal.same d (Decimal.of_hundredths h) -> Decimal.round d = h.
Proof.
  unfold Decimal.same, Decimal.round, Decimal.of_hundredths.
  cbn [Decimal.unscaled Decimal.scale].
  change (Decimal.pow10 2) with 100.
  pose proof (pow10_positive (Decimal.scale d)) as Hq.
  set (q := Decimal.pow10 (Decimal.scale d)) in *.
  set (m := Decimal.unscaled d). intros H.
  assert (Habs : Z.abs m * 100 = Z.abs h * q).
  { replace (Z.abs m * 100) with (Z.abs (m * 100)) by (rewrite Z.abs_mul; lia).
    rewrite H, Z.abs_mul. f_equal. lia. }
  rewrite Habs.
  replace ((2 * (Z.abs h * q) + q) / (2 * q)) with (Z.abs h).
  - assert (Hs : Z.sgn m = Z.sgn h) by nia.
    rewrite Hs. lia.
  - apply (Z.div_unique _ _ _ q); lia.
Qed.

(** C3.  A book that a request has created, the price of its body having
    any number of fraction digits, is read back by [GetByIdAsync] and
    [GetBook] on the returned id with name, category, description, image
    URL, file URL, file name and file size as supplied and with the price
    rounded to two fraction digits, which is the supplied price whenever
    that has at most two; the server assigns the id, the owner (the
    requester) and both time stamps.  The response itself shows the price
    as supplied. *)
Theorem create_then_get_round_trips
  (ctx : BookStoreContext.t) (u newId : Guid) (now : DateTime)
  (fields : AnyScale.CreateBody.t)
  (id : Guid) (response : AnyScale.View.t) (ctx' : BookStoreContext.t) :
  AnyScale.HttpPost (Bearer (Some u)) ctx newId now fields =
    (CreatedAtAction id response, ctx') ->
  id = newId /\
  AnyScale.View.Price response = AnyScale.CreateBody.Price fields /\
  exists created : Book.t,
    BookRepository.GetByIdAsync ctx' id = Some created /\
    BooksController.GetBook ctx' id = Ok (BooksController.MapToDto created) /\
    Book.Name created = AnyScale.CreateBody.Name fields /\
    Book.Category created = AnyScale.CreateBody.Category fields /\
    Book.Price created = Decimal.round (AnyScale.CreateBody.Price fields) /\
    (forall h, Decimal.same (AnyScale.CreateBody.Price fields) (Decimal.of_hundredths h) ->
               Book.Price created = h) /\
    Book.Description created = AnyScale.CreateBody.Description fields /\
    Book.ImageUrl created = AnyScale.CreateBody.ImageUrl fields /\
    Book.FileUrl created = AnyScale.CreateBody.FileUrl fields /\
    Book.FileName created = AnyScale.CreateBody.FileName fields /\
    Book.FileSize created = AnyScale.CreateBody.FileSize fields /\
    Book.Id created = newId /\
    Book.UserId created = u /\
    Book.CreatedAt created = now /\
    Book.UpdatedAt created = now.
Proof.
  unfold AnyScale.HttpPost, Authorize, ApiController.
  destruct (AnyScale.CreateBody_errors fields) eqn:Hv; [|discriminate].
  destruct (CreateBook_cases (Bearer (Some u)) ctx newId now
              (AnyScale.CreateBody_at_column fields))
    as [(u' & Hu & Hfresh & _ & _ & Hc) | (ex & Hc)];
    rewrite Hc; cbn [AnyScale.respond]; [|discriminate].
  injection Hu as <-. intros [= <- <- <-].
  split; [reflexivity|]. split; [reflexivity|].
  set (row := Spec.created_row u newId now (AnyScale.CreateBody_at_column fields)).
  assert (Hget : BookRepository.GetByIdAsync (Spec.inserted ctx row) newId =
                 Some (BookRepository.Include (Spec.inserted ctx row) row)).
  { apply (GetByIdAsync_inserted ctx row). apply fresh_id_not_stored. exact Hfresh. }
  exists (BookRepository.Include (Spec.inserted ctx row) row).
  split; [exact Hget|]. split.
  { unfold BooksController.GetBook. now rewrite Hget. }
  repeat (split; [reflexivity|]). split.
  { intros h Hh. now apply round_of_two_fraction_digits. }
  repeat split; reflexivity.
Qed.

Lemma create_then_get_round_trips_witness :
  exists created : Book.t,
    BookRepository.GetByIdAsync
      (snd (AnyScale.HttpPost (Bearer (Some 2)) Sample.ctx 13 300 Sample.twoDigits)) 13
      = Some created /\
    Book.Name created = "Emma" /\
    Book.Price created = 799.
Proof.
  eassert (H : AnyScale.HttpPost (Bearer (Some 2)) Sample.ctx 13 300 Sample.twoDigits =
               (CreatedAtAction 13 _, _)) by reflexivity.
  destruct (create_then_get_round_trips _ _ _ _ _ _ _ _ H)
    as (_ & _ & created & Hget & _ & Hname & _ & _ & Hprice & _).
  exists created. split; [exact Hget|]. split; [exact Hname|].
  apply Hprice. reflexivity.
Defined.

(** A price of three fraction digits passes validation, is answered
    Created, and is read back rounded: 7.995 comes back as 8.00. *)
Lemma price_of_three_fraction_digits_is_read_back_rounded :
  AnyScale.CreateBody_errors Sample.threeDigits = [] /\
  exists response ctx' dto,
    AnyScale.HttpPost (Bearer (Some 2)) Sample.ctx 13 300 Sample.threeDigits =
      (CreatedAtAction 13 response, ctx') /\
    BooksController.GetBook ctx' 13 = Ok dto /\
    BookDto.Price dto = 800 /\
    ~ Decimal.same (Decimal.of_hundredths (BookDto.Price dto))
                   (AnyScale.CreateBody.Price Sample.threeDigits).
Proof.
  split; [reflexivity|].
  eexists. eexists. eexists. split; [reflexivity|]. split; [reflexivity|].
  split; [reflexivity|]. vm_compute. discriminate.
Qed.

(** On a price of two fraction digits the endpoint for any scale is the
    endpoint on the DTO: same database, same answer. *)
Lemma AnyScale_HttpPost_at_two_fraction_digits
  (User : Principal) (ctx : BookStoreContext.t) (newId : Guid) (now : DateTime)
  (d : CreateBookDto.t) :
  let body :=
    AnyScale.CreateBody.mk (CreateBookDto.Name d) (CreateBookDto.Category d)
      (Decimal.of_hundredths (CreateBookDto.Price d)) (CreateBookDto.Description d)
      (CreateBookDto.ImageUrl d) (CreateBookDto.FileUrl d)
      (CreateBookDto.FileName d) (CreateBookDto.FileSize d) in
  AnyScale.HttpPost User ctx newId now body =
  (AnyScale.respond (Decimal.of_hundredths (CreateBookDto.Price d))
     (fst (BooksController.HttpPost User ctx newId now d)),
   snd (BooksController.HttpPost User ctx newId now d)).
Proof.
  cbv zeta. unfold AnyScale.HttpPost, BooksController.HttpPost, Authorize, ApiController.
  destruct User as [|o]; [reflexivity|].
  unfold AnyScale.CreateBody_errors, Validation.CreateBookDto_errors,
    AnyScale.errors, Validation.errors, Decimal.Range, Validation.Range.
  cbn [AnyScale.CreateBody.Name AnyScale.CreateBody.Category AnyScale.CreateBody.Price
       AnyScale.CreateBody.Description Decimal.of_hundredths Decimal.unscaled
       Decimal.scale].
  change (Decimal.pow10 2) with 100.
  replace (0 * 100 <=? CreateBookDto.Price d * 100) with (0 <=? CreateBookDto.Price d)
    by (destruct (0 <=? CreateBookDto.Price d) eqn:E; symmetry;
        [apply Z.leb_le; apply Z.leb_le in E | apply Z.leb_gt; apply Z.leb_gt in E]; lia).
  replace (CreateBookDto.Price d * 100 <=? 9999999 * 100)
    with (CreateBookDto.Price d <=? 9999999)
    by (destruct (CreateBookDto.Price d <=? 9999999) eqn:E; symmetry;
        [apply Z.leb_le; apply Z.leb_le in E | apply Z.leb_gt; apply Z.leb_gt in E]; lia).
  match goal with
  | |- match ?e with _ => _ end = _ => destruct e; [|reflexivity]
  end.
  unfold AnyScale.CreateBody_at_column.
  cbn [AnyScale.CreateBody.Name AnyScale.CreateBody.Category AnyScale.CreateBody.Price
       AnyScale.CreateBody.Description AnyScale.CreateBody.ImageUrl
       AnyScale.CreateBody.FileUrl AnyScale.CreateBody.FileName
       AnyScale.CreateBody.FileSize].
  rewrite (round_of_two_fraction_digits (Decimal.of_hundredths (CreateBookDto.Price d))
             (CreateBookDto.Price d) eq_refl).
  replace (CreateBookDto.mk (CreateBookDto.Name d) (CreateBookDto.Category d)
             (CreateBookDto.Price d) (CreateBookDto.Description d)
             (CreateBookDto.ImageUrl d) (CreateBookDto.FileUrl d)
             (CreateBookDto.FileName d) (CreateBookDto.FileSize d)) with d
    by now destruct d.
  now destruct (BooksController.CreateBook (Bearer o) ctx newId now d).
Qed.

Example create_refuses_a_name_with_NUL :
  BooksController.HttpPost (Bearer (Some 2)) Sample.ctx 13 300 Sample.nulName =
  (StatusCode500 "An error occurred while creating the book" (Some "DbUpdateException"),
   Sample.ctx).
Proof. reflexivity. Qed.

Example create_sample :
  fst (BooksController.HttpPost (Bearer (Some 2)) Sample.ctx 13 300 Sample.newBook) =
  CreatedAtAction 13
    (BookDto.mk 13 "Emma" "Fiction" 799 "A novel" 2 300 300
       (Some "http://h/uploads/images/e.png") (Some "http://h/uploads/books/e.epub")
       (Some "emma.epub") (Some 2048)
       (Some (UserDto.mk 2 "bob@x.com" None 110))).
Proof. reflexivity. Qed.

Example create_duplicate_key :
  BooksController.HttpPost (Bearer (Some 2)) Sample.ctx 10 300 Sample.newBook =
  (StatusCode500 "An error occurred while creating the book" (Some "DbUpdateException"),
   Sample.ctx).
Proof. reflexivity. Qed.

(** ** Delete *)

(** C4.  For a stored book and its owner as caller, the first
    [DeleteAsync] on its id returns true and the second returns false,
    without an exception and without a further change; [DeleteBook]
    answers no-content, then not-found; after the first call no book of
    that id is in any [GetAllAsync] result, and the other rows are all
    still stored. *)
Theorem delete_twice_true_then_false (ctx : BookStoreContext.t) (b : Book.t) :
  In b (BookStoreContext.Books ctx) ->
  let id := Book.Id b in
  let caller := Book.UserId b in
  let ctx1 := snd (BookRepository.DeleteAsync ctx id caller) in
  BookRepository.DeleteAsync ctx id caller = (true, ctx1) /\
  BookRepository.DeleteAsync ctx1 id caller = (false, ctx1) /\
  BooksController.DeleteBook (Bearer (Some caller)) ctx id = (NoContent, ctx1) /\
  BooksController.DeleteBook (Bearer (Some caller)) ctx1 id =
    (NotFound "Book not found or you don't have permission to delete it", ctx1) /\
  (forall filters x, In x (BookRepository.GetAllAsync ctx1 filters) -> Book.Id x <> id) /\
  BookRepository.GetByIdAsync ctx1 id = None /\
  (forall x, In x (BookStoreContext.Books ctx) -> Book.Id x <> id ->
             In x (BookStoreContext.Books ctx1)).
Proof.
  intros Hb id caller.
  destruct (find (fun x => (Book.Id x =? id) && (Book.UserId x =? caller))
                 (BookStoreContext.Books ctx)) as [x|] eqn:F.
  2:{ exfalso. apply (find_none _ _ F) in Hb.
      unfold id, caller in Hb. now rewrite !Z.eqb_refl in Hb. }
  assert (Hx : Book.Id x = id).
  { apply find_some in F. destruct F as [_ F].
    apply andb_true_iff in F. destruct F as [F _]. now apply Z.eqb_eq. }
  assert (H1 : BookRepository.DeleteAsync ctx id caller =
               (true, BookRepository.SaveChanges_Deleted ctx x)).
  { unfold BookRepository.DeleteAsync. now rewrite F. }
  rewrite H1. cbn [snd]. cbv zeta.
  set (ctx1 := BookRepository.SaveChanges_Deleted ctx x).
  assert (Hgone : forall y, In y (BookStoreContext.Books ctx1) -> Book.Id y <> id).
  { intros y Hy. unfold ctx1, BookRepository.SaveChanges_Deleted in Hy.
    cbn [BookStoreContext.Books] in Hy. apply filter_In in Hy.
    destruct Hy as [_ Hy]. apply negb_true_iff, Z.eqb_neq in Hy. congruence. }
  assert (H2 : BookRepository.DeleteAsync ctx1 id caller = (false, ctx1)).
  { unfold BookRepository.DeleteAsync.
    replace (find _ (BookStoreContext.Books ctx1)) with (@None Book.t); [reflexivity|].
    symmetry. apply no_match_find_None. intros y Hy.
    apply Hgone, Z.eqb_neq in Hy. now rewrite Hy. }
  split; [reflexivity|]. split; [exact H2|]. split; [|split; [|split; [|split]]].
  - unfold BooksController.DeleteBook. simpl. now rewrite H1.
  - unfold BooksController.DeleteBook. simpl. now rewrite H2.
  - intros filters y Hy. apply GetAllAsync_In in Hy. destruct Hy as [Hy _].
    unfold Spec.Population in Hy. apply in_map_iff in Hy.
    destruct Hy as (z & <- & Hz). rewrite Include_Id. now apply Hgone.
  - unfold BookRepository.GetByIdAsync. rewrite find_Include.
    replace (find _ (BookStoreContext.Books ctx1)) with (@None Book.t); [reflexivity|].
    symmetry. apply no_match_find_None. intros y Hy. now apply Z.eqb_neq, Hgone.
  - intros y Hy Hne. unfold ctx1, BookRepository.SaveChanges_Deleted.
    cbn [BookStoreContext.Books]. apply filter_In. split; [exact Hy|].
    apply negb_true_iff, Z.eqb_neq. congruence.
Qed.

Lemma delete_twice_true_then_false_witness :
  BookRepository.DeleteAsync Sample.ctx 11 2 =
    (true, snd (BookRepository.DeleteAsync Sample.ctx 11 2)) /\
  BookRepository.DeleteAsync (snd (BookRepository.DeleteAsync Sample.ctx 11 2)) 11 2 =
    (false, snd (BookRepository.DeleteAsync Sample.ctx 11 2)).
Proof.
  assert (Hb : In Sample.sicp (BookStoreContext.Books Sample.ctx)) by (simpl; tauto).
  destruct (delete_twice_true_then_false Sample.ctx Sample.sicp Hb) as (H1 & H2 & _).
  split; [exact H1 | exact H2].
Defined.

Example delete_sample :
  map Book.Name
    (BookRepository.GetAllAsync (snd (BookRepository.DeleteAsync Sample.ctx 11 2)) None)
  = ["Dune"; "The Hobbit"].
Proof. reflexivity. Qed.

(** ** Dashboard statistics *)












Example loadStats_sample :
  Dashboard.loadStats (Bearer (Some 1)) Sample.ctx
                      (Dashboard.mkStats 0 JsNumber.zero 0) =
  Dashboard.mkStats 2
    (PrimFloat.add (PrimFloat.add JsNumber.zero (JsNumber.of_decimal 1250))
                   (JsNumber.of_decimal 999))
    1.
Proof. reflexivity. Qed.

Example loadStats_failed_request :
  Dashboard.loadStats Anonymous Sample.ctx (Dashboard.mkStats 7 JsNumber.zero 7) =
  Dashboard.mkStats 7 JsNumber.zero 7.
Proof. reflexivity. Qed.

(** ** File intake *)

Lemma Contains_allow_list (kind : Intake.Kind) (ext : string) :
  FilesController.Contains
    (match kind with
     | Intake.image => FilesController._allowedImageExtensions
     | Intake.document => FilesController._allowedBookExtensions
     end) ext = true <->
  exists e, In e (Intake.allow_list kind) /\ ext = ("." ++ e)%string.
Proof.
  unfold FilesController.Contains. rewrite existsb_exists. split.
  - intros (y & Hy & E). apply String.eqb_eq in E. subst y.
    destruct kind; simpl in Hy;
      repeat (destruct Hy as [<- | Hy];
              [eexists; split; [|reflexivity]; simpl; tauto|]);
      contradiction.
  - intros (e & He & ->). exists ("." ++ e)%string.
    split; [|apply String.eqb_refl].
    destruct kind; simpl in He |- *;
      repeat (destruct He as [<- | He]; [tauto|]); contradiction.
Qed.

(** C6.  For an upload of either kind: a caller without a valid token is
    turned away first; then a missing or empty payload is rejected; then a
    file larger than the kind's cap (5 MiB for images, 100 MiB for
    documents); then a file whose extension is not on the kind's list.
    Each rejection is decided by the earlier checks having passed and by
    nothing that comes later, and leaves the files on disk as they were. *)
Theorem upload_rejects_in_order_without_writing
  (kind : Intake.Kind) (User : Principal) (WebRootPath : string)
  (Request : HttpRequest.t) (fs : FileSystem) (newGuid timestamp : string)
  (bookId : option string) :
  Intake.cap Intake.image = 5242880 /\
  Intake.cap Intake.document = 104857600 /\
  Intake.endpoint kind Anonymous WebRootPath Request fs newGuid timestamp None bookId
    = (Unauthorized, fs) /\
  Intake.upload kind User WebRootPath Request fs newGuid timestamp None bookId
    = (BadRequest "No file provided", fs) /\
  forall file : IFormFile.t,
    Intake.endpoint kind Anonymous WebRootPath Request fs newGuid timestamp
                    (Some file) bookId = (Unauthorized, fs) /\
    (IFormFile.Length file = 0 ->
     Intake.upload kind User WebRootPath Request fs newGuid timestamp (Some file) bookId
       = (BadRequest "No file provided", fs)) /\
    (IFormFile.Length file <> 0 ->
     IFormFile.Length file > Intake.cap kind ->
     Intake.upload kind User WebRootPath Request fs newGuid timestamp (Some file) bookId
       = (BadRequest (Intake.too_large kind), fs)) /\
    (IFormFile.Length file <> 0 ->
     IFormFile.Length file <= Intake.cap kind ->
     ~ Intake.allowed kind (IFormFile.FileName file) ->
     Intake.upload kind User WebRootPath Request fs newGuid timestamp (Some file) bookId
       = (BadRequest (Intake.wrong_type kind), fs)).
Proof.
  split; [reflexivity|]. split; [reflexivity|].
  split; [now destruct kind|]. split; [now destruct kind|].
  intros file. split; [now destruct kind|]. split; [|split].
  - intros H0. destruct kind; simpl;
      unfold FilesController.UploadImage, FilesController.UploadBookFile;
      now rewrite H0.
  - intros H0 Hbig. apply Z.eqb_neq in H0.
    destruct kind; simpl;
      unfold FilesController.UploadImage, FilesController.UploadBookFile;
      rewrite H0.
    + replace (IFormFile.Length file >? FilesController.MaxImageSize) with true;
        [reflexivity|].
      symmetry. apply Z.gtb_lt. unfold Intake.cap, Intake.MiB in Hbig.
      unfold FilesController.MaxImageSize. lia.
    + replace (IFormFile.Length file >? FilesController.MaxBookSize) with true;
        [reflexivity|].
      symmetry. apply Z.gtb_lt. unfold Intake.cap, Intake.MiB in Hbig.
      unfold FilesController.MaxBookSize. lia.
  - intros H0 Hfit Hext. apply Z.eqb_neq in H0.
    unfold Intake.allowed in Hext. rewrite <- Contains_allow_list in Hext.
    apply not_true_is_false in Hext.
    destruct kind; simpl;
      unfold FilesController.UploadImage, FilesController.UploadBookFile;
      rewrite H0.
    + replace (IFormFile.Length file >? FilesController.MaxImageSize) with false.
      * cbv zeta. now rewrite Hext.
      * symmetry. rewrite Z.gtb_ltb. apply Z.ltb_ge.
        unfold Intake.cap, Intake.MiB in Hfit.
        unfold FilesController.MaxImageSize. lia.
    + replace (IFormFile.Length file >? FilesController.MaxBookSize) with false.
      * cbv zeta. now rewrite Hext.
      * symmetry. rewrite Z.gtb_ltb. apply Z.ltb_ge.
        unfold Intake.cap, Intake.MiB in Hfit.
        unfold FilesController.MaxBookSize. lia.
Qed.

Lemma upload_rejects_in_order_without_writing_witness :
  FilesController.UploadImage (Bearer (Some 1)) "/srv/wwwroot" Sample.request
    Sample.disk "guid" "20240101120000" (Some Sample.nothing) None
    = (BadRequest "No file provided", Sample.disk) /\
  FilesController.UploadImage (Bearer (Some 1)) "/srv/wwwroot" Sample.request
    Sample.disk "guid" "20240101120000" (Some Sample.huge) None
    = (BadRequest "File size exceeds maximum allowed size of 5MB", Sample.disk) /\
  FilesController.UploadBookFile (Bearer (Some 1)) "/srv/wwwroot" Sample.request
    Sample.disk "guid" "20240101120000" (Some Sample.script) None
    = (BadRequest "Invalid file type. Only book files (PDF, EPUB, DOCX, etc.) are allowed.",
       Sample.disk).
Proof.
  pose proof (upload_rejects_in_order_without_writing Intake.image (Bearer (Some 1))
                "/srv/wwwroot" Sample.request Sample.disk "guid" "20240101120000" None)
    as (_ & _ & _ & _ & Himg).
  pose proof (upload_rejects_in_order_without_writing Intake.document (Bearer (Some 1))
                "/srv/wwwroot" Sample.request Sample.disk "guid" "20240101120000" None)
    as (_ & _ & _ & _ & Hdoc).
  split; [|split].
  - apply (proj1 (proj2 (Himg Sample.nothing))). reflexivity.
  - apply (proj1 (proj2 (proj2 (Himg Sample.huge)))).
    + simpl. discriminate.
    + reflexivity.
  - apply (proj2 (proj2 (proj2 (Hdoc Sample.script)))).
    + simpl. discriminate.
    + simpl. discriminate.
    + intros (e & He & E). simpl in He.
      repeat (destruct He as [<- | He]; [discriminate E|]). exact He.
Defined.

Example upload_accepts :
  FilesController.HttpPost_upload_image (Bearer (Some 1)) "/srv/wwwroot" Sample.request
    Sample.disk "guid" "20240101120000" (Some Sample.cover) (Some "10")
  = (Ok (UploadResult.mk
           "https://books.example/uploads/images/10-20240101120000.png" "Cover.PNG" 2048),
     [("/srv/wwwroot/uploads/images/10-20240101120000.png", 2048);
      ("/srv/wwwroot/uploads/images/old.png", 10)]).
Proof. reflexivity. Qed.

Example upload_at_the_cap_is_accepted :
  fst (FilesController.UploadImage (Bearer (Some 1)) "/srv/wwwroot" Sample.request
         Sample.disk "guid" "t" (Some (IFormFile.mk "a.gif" 5242880)) None)
  = Ok (UploadResult.mk "https://books.example/uploads/images/guid-t.gif" "a.gif" 5242880).
Proof. reflexivity. Qed.

Example upload_empty_is_reported_before_its_type :
  FilesController.HttpPost_upload_book (Bearer (Some 1)) "/srv/wwwroot" Sample.request
    Sample.disk "guid" "t" (Some Sample.nothing) None
  = (BadRequest "No file provided", Sample.disk).
Proof. reflexivity. Qed.

Example upload_size_is_reported_before_its_type :
  FilesController.HttpPost_upload_image (Bearer (Some 1)) "/srv/wwwroot" Sample.request
    Sample.disk "guid" "t" (Some Sample.huge) None
  = (BadRequest "File size exceeds maximum allowed size of 5MB", Sample.disk).
Proof. reflexivity. Qed.

(** ** Login *)

Section LoginFailures.

Context {_userRepository : UserRepository.IUserRepository}.
Context {_tokenService : TokenService.ITokenService}.
Context {bcrypt : BCrypt.BCrypt}.

(** C7.  A login with an e-mail no user has and a login with the e-mail of
    a user but a password that does not verify against the stored hash get
    the same response, a bad request saying "Invalid email or password". *)
Theorem login_failures_are_one_generic_outcome
  (ctx : BookStoreContext.t) (unknown wrong : LoginDto.t) (user : User.t) :
  UserRepository.GetByEmailAsync ctx (LoginDto.Email unknown) = None ->
  UserRepository.GetByEmailAsync ctx (LoginDto.Email wrong) = Some user ->
  BCrypt.Verify (LoginDto.Password wrong) (User.PasswordHash user) = Return false ->
  AuthController.Login ctx unknown = BadRequest "Invalid email or password" /\
  AuthController.Login ctx wrong = BadRequest "Invalid email or password" /\
  AuthController.Login ctx unknown = AuthController.Login ctx wrong.
Proof.
  intros Hunknown Hknown Hwrong.
  assert (H1 : AuthController.Login ctx unknown = BadRequest "Invalid email or password").
  { unfold AuthController.Login. now rewrite Hunknown. }
  assert (H2 : AuthController.Login ctx wrong = BadRequest "Invalid email or password").
  { unfold AuthController.Login. now rewrite Hknown, Hwrong. }
  split; [exact H1|]. split; [exact H2|]. now rewrite H1, H2.
Qed.

End LoginFailures.

Lemma login_failures_are_one_generic_outcome_witness :
  @AuthController.Login Sample.users Sample.tokens Sample.hasher Sample.ctx Sample.unknown
  = @AuthController.Login Sample.users Sample.tokens Sample.hasher Sample.ctx Sample.wrong.
Proof.
  apply (@login_failures_are_one_generic_outcome
           Sample.users Sample.tokens Sample.hasher
           Sample.ctx Sample.unknown Sample.wrong Sample.alice);
    reflexivity.
Defined.

Example login_succeeds :
  @AuthController.Login Sample.users Sample.tokens Sample.hasher Sample.ctx Sample.right
  = Ok (AuthResponseDto.mk "token-for-alice@x.com"
          (UserDto.mk 1 "alice@x.com" (Some "Alice") 100)).
Proof. reflexivity. Qed.

(** ** Validation of the create and update bodies *)

Lemma errors_nil (Name Category : string) (Price : decimal) (Description : string) :
  Validation.errors Name Category Price Description = [] <->
  Spec.valid Name Category Price Description.
Proof.
  unfold Validation.errors, Spec.valid, Spec.present, Validation.member,
    Validation.Required, Validation.MaxLength, Validation.Range,
    Str.IsNullOrWhiteSpace.
  rewrite <- !Nat.leb_le, <- !Z.leb_le.
  destruct (Str.AllWhiteSpace Name), (String.length Name <=? 255)%nat,
    (Str.AllWhiteSpace Category), (String.length Category <=? 100)%nat,
    (0 <=? Price), (Price <=? 9999999),
    (Str.AllWhiteSpace Description), (String.length Description <=? 1000)%nat;
    simpl; intuition congruence.
Qed.

(** C9 (as amended).  The create and the update body pass validation
    exactly when name, category and description are present, the name has
    at most 255 characters, the category at most 100, the description at
    most 1000, and the price lies between 0 and 99999.99; a body that does
    not is answered with the failing members and the database is left as
    it was. *)
Theorem validation_bounds_and_rejection :
  (forall d : CreateBookDto.t,
     Validation.CreateBookDto_errors d = [] <->
     Spec.valid (CreateBookDto.Name d) (CreateBookDto.Category d)
                  (CreateBookDto.Price d) (CreateBookDto.Description d)) /\
  (forall d : UpdateBookDto.t,
     Validation.UpdateBookDto_errors d = [] <->
     Spec.valid (UpdateBookDto.Name d) (UpdateBookDto.Category d)
                  (UpdateBookDto.Price d) (UpdateBookDto.Description d)) /\
  (forall claim ctx newId now (d : CreateBookDto.t),
     Validation.CreateBookDto_errors d <> [] ->
     BooksController.HttpPost (Bearer claim) ctx newId now d =
       (ValidationProblem (Validation.CreateBookDto_errors d), ctx)) /\
  (forall claim ctx now id (d : UpdateBookDto.t),
     Validation.UpdateBookDto_errors d <> [] ->
     BooksController.HttpPut_id (Bearer claim) ctx now id d =
       (ValidationProblem (Validation.UpdateBookDto_errors d), ctx)).
Proof.
  split; [intros d; apply errors_nil|]. split; [intros d; apply errors_nil|].
  split.
  - intros claim ctx newId now d H.
    unfold BooksController.HttpPost, Authorize, ApiController.
    destruct (Validation.CreateBookDto_errors d); [contradiction | reflexivity].
  - intros claim ctx now id d H.
    unfold BooksController.HttpPut_id, Authorize, ApiController.
    destruct (Validation.UpdateBookDto_errors d); [contradiction | reflexivity].
Qed.

Lemma validation_bounds_and_rejection_witness :
  BooksController.HttpPost (Bearer (Some 1)) Sample.ctx 13 300 Sample.longName =
    (ValidationProblem ["Name"], Sample.ctx) /\
  BooksController.HttpPut_id (Bearer (Some 1)) Sample.ctx 300 10 Sample.noCategory =
    (ValidationProblem ["Category"], Sample.ctx).
Proof.
  destruct validation_bounds_and_rejection as (_ & _ & Hpost & Hput).
  split.
  - apply (Hpost (Some 1) Sample.ctx 13 300 Sample.longName). vm_compute. discriminate.
  - apply (Hput (Some 1) Sample.ctx 300 10 Sample.noCategory). vm_compute. discriminate.
Defined.

(** C9 as stated fails: a body whose description has 1001 characters is
    valid when the description is unbounded, yet [[MaxLength(1000)]] on
    [Description] refuses it and nothing is created. *)
Lemma description_of_1001_characters_is_rejected :
  Spec.valid_without_description_bound
    (CreateBookDto.Name Sample.longDescription)
    (CreateBookDto.Category Sample.longDescription)
    (CreateBookDto.Price Sample.longDescription)
    (CreateBookDto.Description Sample.longDescription) /\
  Validation.CreateBookDto_errors Sample.longDescription = ["Description"] /\
  BooksController.HttpPost (Bearer (Some 1)) Sample.ctx 13 300 Sample.longDescription =
    (ValidationProblem ["Description"], Sample.ctx).
Proof.
  split; [|split].
  - unfold Spec.valid_without_description_bound, Spec.present.
    repeat split; try reflexivity; vm_compute; try discriminate; lia.
  - vm_compute. reflexivity.
  - vm_compute. reflexivity.
Qed.

Example description_of_1000_characters_is_accepted :
  Validation.errors "Emma" "Fiction" 799 (Sample.replicate 1000 "a") = [].
Proof. vm_compute. reflexivity. Qed.

Example price_above_the_range_is_rejected :
  Validation.errors "Emma" "Fiction" 10000000 "A novel" = ["Price"].
Proof. reflexivity. Qed.

(** ** What the public views contain *)

(** Under the primary key of [Users], [Include] loads the row that the
    foreign key names. *)
Lemma Include_loads_the_owner (ctx : BookStoreContext.t) (b : Book.t) (owner : User.t) :
  Spec.unique_user_ids ctx -> Spec.owner_of ctx b owner ->
  Book.User (BookRepository.Include ctx b) = Some owner.
Proof.
  unfold Spec.unique_user_ids, Spec.owner_of, BookRepository.Include.
  cbn [Book.User]. generalize (Book.UserId b) as key. intros key.
  induction (BookStoreContext.Users ctx) as [|x l IH]; intros Hnd [Hin Hid];
    [contradiction|].
  cbn [map] in Hnd. apply NoDup_cons_iff in Hnd. destruct Hnd as [Hx Hl].
  cbn [find]. destruct Hin as [-> | Hin].
  - apply Z.eqb_eq in Hid. now rewrite Hid.
  - destruct (User.Id x =? key) eqn:E; [|now apply IH].
    exfalso. apply Z.eqb_eq in E. apply Hx. rewrite E, <- Hid. now apply in_map.
Qed.

Lemma MapToDto_exposes (ctx : BookStoreContext.t) (b : Book.t) (owner : User.t) :
  Spec.unique_user_ids ctx -> Spec.owner_of ctx b owner ->
  Spec.exposes b owner (BooksController.MapToDto (BookRepository.Include ctx b)).
Proof.
  intros Hnd Ho. unfold Spec.exposes. split; [reflexivity|]. split; [reflexivity|].
  unfold BooksController.MapToDto.
  rewrite (Include_loads_the_owner ctx b owner Hnd Ho).
  eexists. split; [reflexivity|]. split; reflexivity.
Qed.

(** C10.  The listing [GetAllBooks] and the lookup [GetBook] take no
    caller identity.  Under the primary key of the users, every stored
    book has a view in the unfiltered listing, and under the primary key
    of the books it is what [GetBook] answers for its id; every view the
    two return is the view of a stored book; and each such view carries
    the book's file URL and a user view with the id and the e-mail address
    of the user row that the book's owner column names. *)
Theorem public_views_expose_owner_email_and_file_url (ctx : BookStoreContext.t) :
  Spec.unique_user_ids ctx ->
  (forall b owner,
     In b (BookStoreContext.Books ctx) -> Spec.owner_of ctx b owner ->
     exists views dto,
       BooksController.HttpGet ctx BookFiltersDto.empty = Ok views /\
       In dto views /\ Spec.exposes b owner dto) /\
  (forall b owner,
     Spec.unique_ids ctx ->
     In b (BookStoreContext.Books ctx) -> Spec.owner_of ctx b owner ->
     exists dto,
       BooksController.HttpGet_id ctx (Book.Id b) = Ok dto /\ Spec.exposes b owner dto) /\
  (forall filters,
     exists views,
       BooksController.HttpGet ctx filters = Ok views /\
       forall dto, In dto views ->
         exists b, In b (BookStoreContext.Books ctx) /\
                   BookDto.Id dto = Book.Id b /\
                   forall owner, Spec.owner_of ctx b owner -> Spec.exposes b owner dto) /\
  (forall id dto,
     BooksController.HttpGet_id ctx id = Ok dto ->
     exists b, In b (BookStoreContext.Books ctx) /\ Book.Id b = id /\
               forall owner, Spec.owner_of ctx b owner -> Spec.exposes b owner dto).
Proof.
  intros Hnd. unfold BooksController.HttpGet, BooksController.HttpGet_id.
  split; [|split; [|split]].
  - intros b owner Hb Ho.
    eexists. exists (BooksController.MapToDto (BookRepository.Include ctx b)).
    split; [reflexivity|]. split; [|now apply MapToDto_exposes].
    apply in_map. apply GetAllAsync_In. split.
    + unfold Spec.Population. now apply in_map.
    + simpl. unfold Spec.satisfies. simpl. repeat split; intros; discriminate.
  - intros b owner Hk Hb Ho.
    exists (BooksController.MapToDto (BookRepository.Include ctx b)).
    split; [|now apply MapToDto_exposes].
    unfold BooksController.GetBook, BookRepository.GetByIdAsync.
    rewrite find_Include, (find_by_key _ b Hk Hb). reflexivity.
  - intros filters. eexists. split; [reflexivity|].
    intros dto Hdto. apply in_map_iff in Hdto. destruct Hdto as (x & <- & Hx).
    apply GetAllAsync_In in Hx. destruct Hx as [Hx _].
    unfold Spec.Population in Hx. apply in_map_iff in Hx.
    destruct Hx as (b & <- & Hb). exists b. split; [exact Hb|].
    split; [reflexivity|]. intros owner Ho. now apply MapToDto_exposes.
  - intros id dto. unfold BooksController.GetBook, BookRepository.GetByIdAsync.
    rewrite find_Include.
    destruct (find _ (BookStoreContext.Books ctx)) as [b|] eqn:F; simpl; [|discriminate].
    intros [= <-]. apply find_some in F. destruct F as [Hb E]. apply Z.eqb_eq in E.
    exists b. split; [exact Hb|]. split; [exact E|].
    intros owner Ho. now apply MapToDto_exposes.
Qed.

Lemma public_views_expose_owner_email_and_file_url_witness :
  exists views dto view,
    BooksController.HttpGet Sample.ctx BookFiltersDto.empty = Ok views /\
    In dto views /\
    BookDto.FileUrl dto = Some "http://h/uploads/books/10-1.pdf" /\
    BookDto.User dto = Some view /\
    UserDto.Email view = "alice@x.com".
Proof.
  assert (Hnd : Spec.unique_user_ids Sample.ctx).
  { unfold Spec.unique_user_ids. simpl.
    repeat (constructor; [simpl; intuition discriminate|]). constructor. }
  assert (Hb : In Sample.hobbit (BookStoreContext.Books Sample.ctx)) by (simpl; tauto).
  assert (Ho : Spec.owner_of Sample.ctx Sample.hobbit Sample.alice).
  { split; [simpl; tauto | reflexivity]. }
  destruct (proj1 (public_views_expose_owner_email_and_file_url Sample.ctx Hnd)
              Sample.hobbit Sample.alice Hb Ho)
    as (views & dto & Hv & Hin & _ & Hurl & view & Hu & _ & He).
  exists views, dto, view. repeat split; assumption.
Defined.

Example anonymous_listing_sample :
  BooksController.GetAllBooks Sample.ctx Sample.fiction_under_10 =
  Ok [BookDto.mk 10 "The Hobbit" "Fiction" 999 "There and back again" 1 200 200
        (Some "http://h/uploads/images/10-1.png")
        (Some "http://h/uploads/books/10-1.pdf") (Some "hobbit.pdf") (Some 4096)
        (Some (UserDto.mk 1 "alice@x.com" (Some "Alice") 100))].
Proof. reflexivity. Qed.

(** ** The primary key is kept by every request *)

Lemma filter_keeps_unique_keys (keep : Book.t -> bool) (rows : list Book.t) :
  NoDup (map Book.Id rows) -> NoDup (map Book.Id (filter keep rows)).
Proof.
  intros Hnd. induction rows as [|x rows IH]; simpl in *; [exact Hnd|].
  apply NoDup_cons_iff in Hnd. destruct Hnd as [Hx Hrows].
  destruct (keep x); simpl; [|now apply IH].
  apply NoDup_cons_iff. split; [|now apply IH].
  intros Hin. apply Hx. apply in_map_iff in Hin. destruct Hin as (y & E & Hy).
  apply filter_In in Hy. rewrite <- E. apply in_map. tauto.
Qed.

Lemma map_Id_replace (l : list Book.t) (nb : Book.t) :
  map Book.Id (map (fun b => if Book.Id b =? Book.Id nb then nb else b) l) =
  map Book.Id l.
Proof.
  rewrite map_map. apply map_ext. intros b.
  destruct (Book.Id b =? Book.Id nb) eqn:E; [|reflexivity].
  apply Z.eqb_eq in E. now rewrite E.
Qed.

Lemma HttpPost_keeps_unique_ids User ctx newId now d :
  Spec.unique_ids ctx ->
  Spec.unique_ids (snd (BooksController.HttpPost User ctx newId now d)).
Proof.
  intros H. unfold BooksController.HttpPost, Authorize, ApiController.
  destruct User as [|[u|]]; [exact H| |];
    (destruct (Validation.CreateBookDto_errors d); [|exact H]).
  2: exact H.
  unfold BooksController.CreateBook, BookRepository.CreateAsync,
    BookRepository.SaveChanges_Added.
  cbn [GetCurrentUserId bind Book.Id Book.UserId].
  destruct (existsb _ (BookStoreContext.Books ctx)) eqn:E; [exact H|].
  destruct (negb (existsb _ (BookStoreContext.Users ctx))); [exact H|].
  destruct (negb (BookRepository.Storable _)); [exact H|].
  cbn [bind try_write snd]. unfold Spec.unique_ids. cbn [BookStoreContext.Books].
  rewrite map_app. cbn [map Book.Id].
  apply (Permutation_NoDup (Permutation_cons_append _ _)).
  constructor; [|exact H].
  intros Hin. apply in_map_iff in Hin. destruct Hin as (y & Ey & Hy).
  rewrite existsb_false_iff in E. specialize (E y Hy). cbv beta in E.
  apply Z.eqb_neq in E. contradiction.
Qed.

Lemma HttpPut_id_keeps_unique_ids User ctx now id d :
  Spec.unique_ids ctx ->
  Spec.unique_ids (snd (BooksController.HttpPut_id User ctx now id d)).
Proof.
  intros H. unfold BooksController.HttpPut_id, Authorize, ApiController.
  destruct User as [|[u|]]; [exact H| |];
    (destruct (Validation.UpdateBookDto_errors d); [|exact H]).
  2: exact H.
  unfold BooksController.UpdateBook. cbn [GetCurrentUserId bind].
  destruct (negb (BookRepository.ExistsAsync ctx id u)); [exact H|].
  destruct (BookRepository.GetByIdAsync ctx id) as [e|]; [|exact H].
  unfold BookRepository.UpdateAsync, BookRepository.SaveChanges_Modified.
  cbn [Book.Id Book.UserId].
  destruct (negb (existsb _ (BookStoreContext.Books ctx))); [exact H|].
  destruct (negb (BookRepository.Storable _)); [exact H|].
  cbn [bind try_write snd]. unfold Spec.unique_ids. cbn [BookStoreContext.Books].
  match goal with
  | |- NoDup (map Book.Id (map (fun b => if Book.Id b =? _ then ?nb else b) _)) =>
      rewrite (map_Id_replace _ nb)
  end.
  exact H.
Qed.

Lemma HttpDelete_id_keeps_unique_ids User ctx id :
  Spec.unique_ids ctx ->
  Spec.unique_ids (snd (BooksController.HttpDelete_id User ctx id)).
Proof.
  intros H. unfold BooksController.HttpDelete_id, Authorize,
    BooksController.DeleteBook.
  destruct User as [|[u|]]; [exact H| |exact H].
  cbn [GetCurrentUserId bind]. unfold BookRepository.DeleteAsync.
  destruct (find _ (BookStoreContext.Books ctx)) as [x|]; simpl; [|exact H].
  unfold Spec.unique_ids. simpl. now apply filter_keeps_unique_keys.
Qed.

(** * Further properties of the back end *)

(** ** Update by the owner *)

Lemma find_replace_by_key (l : list Book.t) (nb : Book.t) (id : Guid) :
  Book.Id nb = id ->
  existsb (fun b => Book.Id b =? id) l = true ->
  find (fun b => Book.Id b =? id)
       (map (fun b => if Book.Id b =? id then nb else b) l) = Some nb.
Proof.
  intros Hid. induction l as [|x l IH]; simpl; [discriminate|].
  destruct (Book.Id x =? id) eqn:E; simpl.
  - intros _. now rewrite Hid, Z.eqb_refl.
  - intros H. rewrite E. now apply IH.
Qed.

Lemma stored_id_exists (l : list Book.t) (b : Book.t) :
  In b l -> existsb (fun x => Book.Id x =? Book.Id b) l = true.
Proof.
  intros H. apply existsb_exists. exists b. split; [exact H | apply Z.eqb_refl].
Qed.

Lemma ExistsAsync_of_owned_row (ctx : BookStoreContext.t) (b : Book.t) :
  In b (BookStoreContext.Books ctx) ->
  BookRepository.ExistsAsync ctx (Book.Id b) (Book.UserId b) = true.
Proof.
  intros H. unfold BookRepository.ExistsAsync. apply existsb_exists.
  exists b. split; [exact H | now rewrite !Z.eqb_refl].
Qed.

Lemma find_Some_key (l : list Book.t) (id : Guid) (x : Book.t) :
  find (fun b => Book.Id b =? id) l = Some x -> In x l /\ Book.Id x = id.
Proof.
  intros H. apply find_some in H. destruct H as [H E]. now apply Z.eqb_eq in E.
Qed.

(** The row an update has written is the one a lookup of its id finds. *)
Lemma GetByIdAsync_replaced (ctx : BookStoreContext.t) (row : Book.t) :
  existsb (fun b => Book.Id b =? Book.Id row) (BookStoreContext.Books ctx) = true ->
  BookRepository.GetByIdAsync (Spec.replaced ctx row) (Book.Id row) =
    Some (BookRepository.Include (Spec.replaced ctx row) row).
Proof.
  intros H. unfold BookRepository.GetByIdAsync. rewrite find_Include.
  change (BookStoreContext.Books (Spec.replaced ctx row))
    with (map (fun b => if Book.Id b =? Book.Id row then row else b)
              (BookStoreContext.Books ctx)).
  rewrite (find_replace_by_key _ row (Book.Id row) eq_refl H). reflexivity.
Qed.

(** The outcomes of [UpdateBook] for a requester with an id: not-found
    when [ExistsAsync] finds no book of that id owned by the requester;
    otherwise the rows of that id are replaced by the row of the body and
    the answer is Ok, or the columns do not take that row and the answer
    is the 500 response with the database as it was. *)
Lemma UpdateBook_cases
  (u : Guid) (ctx : BookStoreContext.t) (now : DateTime) (id : Guid)
  (d : UpdateBookDto.t) :
  (BookRepository.ExistsAsync ctx id u = false /\
   BooksController.UpdateBook (Bearer (Some u)) ctx now id d =
     (NotFound "Book not found or you don't have permission to update it", ctx)) \/
  (BookRepository.ExistsAsync ctx id u = true /\
   exists e,
     find (fun b => Book.Id b =? id) (BookStoreContext.Books ctx) = Some e /\
     ((BookRepository.Storable (Spec.updated_row e now d) = true /\
       BooksController.UpdateBook (Bearer (Some u)) ctx now id d =
         (Ok (BooksController.MapToDto
                (BookRepository.Include
                   (Spec.replaced ctx (Spec.updated_row e now d))
                   (Spec.updated_row e now d))),
          Spec.replaced ctx (Spec.updated_row e now d))) \/
      (BookRepository.Storable (Spec.updated_row e now d) = false /\
       BooksController.UpdateBook (Bearer (Some u)) ctx now id d =
         (StatusCode500 "An error occurred while updating the book"
                        (Some "DbUpdateException"), ctx)))).
Proof.
  destruct (BookRepository.ExistsAsync ctx id u) eqn:E; [right | left].
  2:{ split; [reflexivity|]. unfold BooksController.UpdateBook.
      cbn [GetCurrentUserId bind]. now rewrite E. }
  split; [reflexivity|].
  pose proof E as Hown. apply ExistsAsync_owned in Hown.
  destruct Hown as (x & Hx & Hid & _).
  destruct (find (fun b => Book.Id b =? id) (BookStoreContext.Books ctx)) as [e|] eqn:F.
  2:{ exfalso. apply (find_none _ _ F) in Hx. apply Z.eqb_neq in Hx. contradiction. }
  exists e. split; [reflexivity|].
  pose proof F as Hkey. apply find_Some_key in Hkey. destruct Hkey as [He Heid].
  pose proof (GetByIdAsync_replaced ctx (Spec.updated_row e now d)
                (stored_id_exists _ e He)) as Hget.
  change (Book.Id (Spec.updated_row e now d)) with (Book.Id e) in Hget.
  assert (Hstep :
    BooksController.UpdateBook (Bearer (Some u)) ctx now id d =
    if BookRepository.Storable (Spec.updated_row e now d)
    then (Ok (BooksController.MapToDto
                (BookRepository.Include
                   (Spec.replaced ctx (Spec.updated_row e now d))
                   (Spec.updated_row e now d))),
          Spec.replaced ctx (Spec.updated_row e now d))
    else (StatusCode500 "An error occurred while updating the book"
                        (Some "DbUpdateException"), ctx)).
  { unfold BooksController.UpdateBook. cbn [GetCurrentUserId bind].
    rewrite E. cbn [negb].
    unfold BookRepository.GetByIdAsync at 1. rewrite find_Include, F.
    cbn [option_map].
    unfold BookRepository.UpdateAsync, BookRepository.SaveChanges_Modified.
    cbn [Book.Id Book.UserId Book.Name Book.Category Book.Price Book.Description
         Book.ImageUrl Book.FileUrl Book.FileName Book.FileSize Book.User
         Book.CreatedAt Book.UpdatedAt BookRepository.Include].
    rewrite (stored_id_exists _ e He). cbn [negb].
    match goal with
    | |- context [BookRepository.Storable ?b] =>
        change (BookRepository.Storable b)
          with (BookRepository.Storable (Spec.updated_row e now d))
    end.
    destruct (BookRepository.Storable (Spec.updated_row e now d)); cbn [negb];
      [|reflexivity].
    unfold Spec.replaced, Spec.updated_row, BookRepository.row_of in Hget |- *.
    cbn [bind try_write
         Book.Id Book.UserId Book.Name Book.Category Book.Price Book.Description
         Book.ImageUrl Book.FileUrl Book.FileName Book.FileSize Book.User
         Book.CreatedAt Book.UpdatedAt] in Hget |- *.
    rewrite Hget. reflexivity. }
  rewrite Hstep.
  destruct (BookRepository.Storable (Spec.updated_row e now d));
    [left | right]; split; reflexivity.
Qed.

(** Under the primary key the row that [UpdateBook] replaces is the one
    the requester owns. *)
Lemma owned_row_is_the_one_found
  (ctx : BookStoreContext.t) (id u : Guid) (e : Book.t) :
  Spec.unique_ids ctx ->
  BookRepository.ExistsAsync ctx id u = true ->
  find (fun b => Book.Id b =? id) (BookStoreContext.Books ctx) = Some e ->
  In e (BookStoreContext.Books ctx) /\ Book.Id e = id /\ Book.UserId e = u.
Proof.
  intros Hnd E F. apply find_Some_key in F. destruct F as [He Heid].
  apply ExistsAsync_owned in E. destruct E as (x & Hx & Hxid & Hxu).
  split; [exact He|]. split; [exact Heid|].
  rewrite <- Hxu. f_equal.
  apply (key_determines_row _ x e Hnd Hx He). congruence.
Qed.

(** X1.  When a request to update, its price of any scale, is answered Ok,
    the requester owned a book of that id, and the book read back under
    the id carries the fields of the body, the price rounded to two
    fraction digits, the time of the request as [UpdatedAt], and the id,
    owner and [CreatedAt] it had; every other stored book stays in the
    table as it was. *)
Theorem owner_update_overwrites_the_mutable_fields
  (ctx : BookStoreContext.t) (u : Guid) (now : DateTime) (id : Guid)
  (fields : AnyScale.UpdateBody.t)
  (response : AnyScale.View.t) (ctx' : BookStoreContext.t) :
  Spec.unique_ids ctx ->
  AnyScale.HttpPut_id (Bearer (Some u)) ctx now id fields = (Ok response, ctx') ->
  exists (b updated : Book.t),
    In b (BookStoreContext.Books ctx) /\ Book.Id b = id /\ Book.UserId b = u /\
    BookRepository.GetByIdAsync ctx' id = Some updated /\
    Book.Name updated = AnyScale.UpdateBody.Name fields /\
    Book.Category updated = AnyScale.UpdateBody.Category fields /\
    Book.Price updated = Decimal.round (AnyScale.UpdateBody.Price fields) /\
    Book.Description updated = AnyScale.UpdateBody.Description fields /\
    Book.ImageUrl updated = AnyScale.UpdateBody.ImageUrl fields /\
    Book.FileUrl updated = AnyScale.UpdateBody.FileUrl fields /\
    Book.FileName updated = AnyScale.UpdateBody.FileName fields /\
    Book.FileSize updated = AnyScale.UpdateBody.FileSize fields /\
    Book.Id updated = id /\
    Book.UserId updated = u /\
    Book.CreatedAt updated = Book.CreatedAt b /\
    Book.UpdatedAt updated = now /\
    (forall x, In x (BookStoreContext.Books ctx) -> Book.Id x <> id ->
               In x (BookStoreContext.Books ctx')).
Proof.
  intros Hnd. unfold AnyScale.HttpPut_id, Authorize, ApiController.
  destruct (AnyScale.UpdateBody_errors fields); [|discriminate].
  destruct (UpdateBook_cases u ctx now id (AnyScale.UpdateBody_at_column fields))
    as [[_ Hc] | (E & e & F & [[_ Hc] | [_ Hc]])];
    rewrite Hc; cbn [AnyScale.respond]; try discriminate.
  intros [= <- <-].
  destruct (owned_row_is_the_one_found ctx id u e Hnd E F) as (He & Heid & Heu).
  set (row := Spec.updated_row e now (AnyScale.UpdateBody_at_column fields)).
  exists e, (BookRepository.Include (Spec.replaced ctx row) row).
  split; [exact He|]. split; [exact Heid|]. split; [exact Heu|]. split.
  { rewrite <- Heid. apply (GetByIdAsync_replaced ctx row).
    apply (stored_id_exists _ e He). }
  repeat (split; [first [reflexivity | exact Heid | exact Heu]|]).
  intros x Hx Hne. unfold Spec.replaced. cbn [BookStoreContext.Books].
  apply In_replace_other; [exact Hx|].
  change (Book.Id row) with (Book.Id e). congruence.
Qed.

Lemma owner_update_overwrites_the_mutable_fields_witness :
  exists (updated : Book.t),
    BookRepository.GetByIdAsync
      (snd (AnyScale.HttpPut_id (Bearer (Some 1)) Sample.ctx 300 10 Sample.halfCent)) 10
      = Some updated /\
    Book.Price updated = 1201 /\ Book.UpdatedAt updated = 300 /\
    Book.CreatedAt updated = 200.
Proof.
  assert (Hnd : Spec.unique_ids Sample.ctx).
  { unfold Spec.unique_ids. simpl.
    repeat (constructor; [simpl; intuition discriminate|]). constructor. }
  eassert (H : AnyScale.HttpPut_id (Bearer (Some 1)) Sample.ctx 300 10 Sample.halfCent =
               (Ok _, _)) by reflexivity.
  destruct (owner_update_overwrites_the_mutable_fields _ _ _ _ _ _ _ Hnd H)
    as (b & updated & _ & _ & _ & Hget & _ & _ & Hp & _ & _ & _ & _ & _ & _ & _ & _
        & Hup & _).
  exists updated. split; [exact Hget|]. split; [exact Hp|]. split; [exact Hup|].
  cbn [snd] in Hget. vm_compute in Hget. injection Hget as <-. reflexivity.
Defined.

(** X2.  Under the primary key, a request to update, whoever sends it and
    whatever id and fields it names, leaves the table with the same rows
    in the same places as far as id, owner and creation time go, and
    leaves the users as they are: no book changes hands. *)
Theorem update_keeps_id_owner_and_creation_time
  (User : Principal) (ctx : BookStoreContext.t) (now : DateTime) (id : Guid)
  (fields : UpdateBookDto.t) :
  Spec.unique_ids ctx ->
  let ctx' := snd (BooksController.HttpPut_id User ctx now id fields) in
  map (fun b => (Book.Id b, Book.UserId b, Book.CreatedAt b)) (BookStoreContext.Books ctx')
  = map (fun b => (Book.Id b, Book.UserId b, Book.CreatedAt b)) (BookStoreContext.Books ctx)
  /\ BookStoreContext.Users ctx' = BookStoreContext.Users ctx.
Proof.
  intros Hnd. cbv zeta.
  unfold BooksController.HttpPut_id, Authorize, ApiController.
  destruct User as [|[u|]]; [now split | |];
    (destruct (Validation.UpdateBookDto_errors fields); [|now split]).
  2: now split.
  destruct (UpdateBook_cases u ctx now id fields)
    as [[_ Hc] | (E & e & F & [[_ Hc] | [_ Hc]])];
    rewrite Hc; [now split | | now split].
  destruct (owned_row_is_the_one_found ctx id u e Hnd E F) as (He & Heid & Heu).
  unfold Spec.replaced.
  cbn [snd BookStoreContext.Books BookStoreContext.Users].
  split; [|reflexivity].
  rewrite map_map. apply map_ext_in. intros r Hr.
  change (Book.Id (Spec.updated_row e now fields)) with (Book.Id e).
  destruct (Book.Id r =? Book.Id e) eqn:Er; [|reflexivity].
  apply Z.eqb_eq in Er. rewrite (key_determines_row _ e r Hnd He Hr); [reflexivity|].
  congruence.
Qed.

Lemma update_keeps_id_owner_and_creation_time_witness :
  map (fun b => (Book.Id b, Book.UserId b, Book.CreatedAt b))
      (BookStoreContext.Books
         (snd (BooksController.HttpPut_id (Bearer (Some 1)) Sample.ctx 300 10
                                          Sample.newFields)))
  = [(10, 1, 200); (11, 2, 210); (12, 1, 220)].
Proof.
  assert (Hnd : Spec.unique_ids Sample.ctx).
  { unfold Spec.unique_ids. simpl.
    repeat (constructor; [simpl; intuition discriminate|]). constructor. }
  exact (proj1 (update_keeps_id_owner_and_creation_time
                  (Bearer (Some 1)) Sample.ctx 300 10 Sample.newFields Hnd)).
Defined.

Lemma ExistsAsync_false_iff (ctx : BookStoreContext.t) (id u : Guid) :
  BookRepository.ExistsAsync ctx id u = false <->
  ~ exists b, In b (BookStoreContext.Books ctx) /\ Book.Id b = id /\ Book.UserId b = u.
Proof.
  split.
  - intros E (b & Hb & Hid & Hu).
    unfold BookRepository.ExistsAsync in E. rewrite existsb_false_iff in E.
    specialize (E b Hb). cbv beta in E. subst.
    now rewrite !Z.eqb_refl in E.
  - intros H. destruct (BookRepository.ExistsAsync ctx id u) eqn:E; [|reflexivity].
    exfalso. apply H. now apply ExistsAsync_owned.
Qed.

(** X3.  For a requester with an id in its token, [UpdateBook] gives the
    not-found answer that names the permission exactly when [ExistsAsync]
    finds no book of that id owned by the requester, that is when no
    stored book has that id and that owner; the database is then as it
    was. *)
Theorem update_is_not_found_exactly_without_an_owned_book
  (u : Guid) (ctx : BookStoreContext.t) (now : DateTime) (id : Guid)
  (fields : UpdateBookDto.t) :
  (fst (BooksController.UpdateBook (Bearer (Some u)) ctx now id fields) =
     NotFound "Book not found or you don't have permission to update it"
   <-> BookRepository.ExistsAsync ctx id u = false) /\
  (BookRepository.ExistsAsync ctx id u = false <->
   ~ exists b, In b (BookStoreContext.Books ctx) /\ Book.Id b = id /\ Book.UserId b = u) /\
  (fst (BooksController.UpdateBook (Bearer (Some u)) ctx now id fields) =
     NotFound "Book not found or you don't have permission to update it" ->
   snd (BooksController.UpdateBook (Bearer (Some u)) ctx now id fields) = ctx).
Proof.
  split; [|split; [apply ExistsAsync_false_iff|]];
    destruct (UpdateBook_cases u ctx now id fields)
      as [[E Hc] | (E & e & F & [[_ Hc] | [_ Hc]])];
    rewrite Hc; cbn [fst snd]; try reflexivity;
    try (split; intros H; [discriminate H | congruence]);
    try (intros H; discriminate H).
  split; intros _; [exact E | reflexivity].
Qed.

(** ** Create *)

(** X4.  When a request to create, its price of any scale, is answered
    Created, the caller had a token with an id and a user row and the new
    id was no key of the table; the request has appended one row, the fields of the body with the price
    rounded to two fraction digits, under the new id and with the caller
    as owner, and has changed nothing else.  A request that is not
    answered Created leaves the database as it was. *)
Theorem create_appends_one_row_of_the_caller
  (User : Principal) (ctx : BookStoreContext.t) (newId : Guid) (now : DateTime)
  (d : AnyScale.CreateBody.t) :
  let result := AnyScale.HttpPost User ctx newId now d in
  (forall id response,
     fst result = CreatedAtAction id response ->
     id = newId /\
     exists u,
       User = Bearer (Some u) /\
       ~ In newId (map Book.Id (BookStoreContext.Books ctx)) /\
       In u (map User.Id (BookStoreContext.Users ctx)) /\
       BookStoreContext.Users (snd result) = BookStoreContext.Users ctx /\
       BookStoreContext.Books (snd result) =
         BookStoreContext.Books ctx ++
         [Book.mk newId (AnyScale.CreateBody.Name d) (AnyScale.CreateBody.Category d)
                  (Decimal.round (AnyScale.CreateBody.Price d))
                  (AnyScale.CreateBody.Description d) u now now
                  (AnyScale.CreateBody.ImageUrl d) (AnyScale.CreateBody.FileUrl d)
                  (AnyScale.CreateBody.FileName d) (AnyScale.CreateBody.FileSize d)
                  None]) /\
  ((forall id response, fst result <> CreatedAtAction id response) ->
   snd result = ctx).
Proof.
  cbv zeta. unfold AnyScale.HttpPost, Authorize, ApiController.
  destruct User as [|o]; [split; [discriminate | reflexivity]|].
  destruct (AnyScale.CreateBody_errors d) eqn:Hv;
    [|split; [discriminate | reflexivity]].
  destruct (CreateBook_cases (Bearer o) ctx newId now (AnyScale.CreateBody_at_column d))
    as [(u & Hu & Hfresh & Hreg & _ & Hc) | (ex & Hc)];
    rewrite Hc; cbn [AnyScale.respond fst snd];
    [|split; [discriminate | reflexivity]].
  split.
  - intros id response [= <- _]. split; [reflexivity|].
    exists u. split; [exact Hu|]. split; [exact Hfresh|].
    split; [exact Hreg|]. split; reflexivity.
  - intros H. exfalso. eapply H. reflexivity.
Qed.

Lemma create_appends_one_row_of_the_caller_witness :
  map (fun b => (Book.Id b, Book.UserId b, Book.Price b))
    (BookStoreContext.Books
       (snd (AnyScale.HttpPost (Bearer (Some 2)) Sample.ctx 13 300 Sample.threeDigits)))
  = [(10, 1, 999); (11, 2, 4500); (12, 1, 1250); (13, 2, 800)].
Proof.
  eassert (H : fst (AnyScale.HttpPost (Bearer (Some 2)) Sample.ctx 13 300
                                      Sample.threeDigits) = CreatedAtAction 13 _)
    by reflexivity.
  destruct (proj1 (create_appends_one_row_of_the_caller
                     (Bearer (Some 2)) Sample.ctx 13 300 Sample.threeDigits) _ _ H)
    as (_ & u & Hu & _ & _ & _ & HB).
  rewrite HB. injection Hu as <-. reflexivity.
Defined.

(** ** Delete *)

Lemma existsb_find {A : Type} (p : A -> bool) (l : list A) :
  existsb p l = match find p l with Some _ => true | None => false end.
Proof.
  induction l as [|x l IH]; simpl; [reflexivity|].
  destruct (p x); [reflexivity | exact IH].
Qed.

(** X5.  [DeleteAsync] returns what [ExistsAsync] answers for the same id
    and requester.  When that is true it removes the rows of that id and
    no other row; when it is false the table is untouched.  The users are
    never touched. *)
Theorem DeleteAsync_deletes_exactly_when_ExistsAsync
  (ctx : BookStoreContext.t) (id userId : Guid) :
  let result := BookRepository.DeleteAsync ctx id userId in
  fst result = BookRepository.ExistsAsync ctx id userId /\
  BookStoreContext.Users (snd result) = BookStoreContext.Users ctx /\
  BookStoreContext.Books (snd result) =
    (if BookRepository.ExistsAsync ctx id userId
     then filter (fun b => negb (Book.Id b =? id)) (BookStoreContext.Books ctx)
     else BookStoreContext.Books ctx).
Proof.
  cbv zeta. unfold BookRepository.DeleteAsync, BookRepository.ExistsAsync.
  rewrite existsb_find.
  destruct (find _ (BookStoreContext.Books ctx)) as [x|] eqn:F; simpl;
    [|repeat split; reflexivity].
  apply find_some in F. destruct F as [_ F].
  apply andb_true_iff in F. destruct F as [F _]. apply Z.eqb_eq in F.
  rewrite F. repeat split; reflexivity.
Qed.

(** ** Lookup and the caller's listing *)

(** X6.  [GetBook] answers not-found exactly for an id that is no key of
    the table; under the primary key it answers, for the id of a stored
    book, Ok with the view of that book. *)
Theorem GetBook_is_not_found_exactly_for_unknown_ids
  (ctx : BookStoreContext.t) (id : Guid) :
  (BooksController.GetBook ctx id = NotFound "Book not found" <->
   ~ In id (map Book.Id (BookStoreContext.Books ctx))) /\
  (forall b, Spec.unique_ids ctx -> In b (BookStoreContext.Books ctx) ->
     BooksController.GetBook ctx (Book.Id b) =
       Ok (BooksController.MapToDto (BookRepository.Include ctx b))).
Proof.
  split.
  - unfold BooksController.GetBook, BookRepository.GetByIdAsync.
    rewrite find_Include, <- stored_id_iff, existsb_find.
    destruct (find _ (BookStoreContext.Books ctx)); simpl; split;
      intros H; try discriminate; try reflexivity; congruence.
  - intros b Hnd Hb. unfold BooksController.GetBook, BookRepository.GetByIdAsync.
    rewrite find_Include, (find_by_key _ b Hnd Hb). reflexivity.
Qed.

Lemma GetBook_is_not_found_exactly_for_unknown_ids_witness :
  BooksController.GetBook Sample.ctx 99 = NotFound "Book not found" /\
  BooksController.GetBook Sample.ctx 11 =
    Ok (BooksController.MapToDto (BookRepository.Include Sample.ctx Sample.sicp)).
Proof.
  split.
  - apply (proj1 (GetBook_is_not_found_exactly_for_unknown_ids Sample.ctx 99)).
    simpl. intuition discriminate.
  - apply (proj2 (GetBook_is_not_found_exactly_for_unknown_ids Sample.ctx 11) Sample.sicp).
    + unfold Spec.unique_ids. simpl.
      repeat (constructor; [simpl; intuition discriminate|]). constructor.
    + simpl. tauto.
Defined.

(** X7.  The listing of one's own books turns a caller without a token
    away and fails with a 500 answer for a token without an id.  For a
    caller with an id it answers Ok with views that all carry the caller
    as owner, and they are exactly the views of the public listing under
    the same filter that carry the caller as owner. *)
Theorem GetMyBooks_lists_the_callers_part_of_the_public_listing
  (ctx : BookStoreContext.t) (filters : BookFiltersDto.t) :
  BooksController.HttpGet_my_books Anonymous ctx filters = Unauthorized /\
  BooksController.HttpGet_my_books (Bearer None) ctx filters =
    StatusCode500 "An error occurred while fetching your books"
                  (Some "Invalid user ID in token") /\
  forall userId,
    exists mine everyones,
      BooksController.HttpGet_my_books (Bearer (Some userId)) ctx filters = Ok mine /\
      BooksController.HttpGet ctx filters = Ok everyones /\
      forall dto, In dto mine <-> In dto everyones /\ BookDto.UserId dto = userId.
Proof.
  split; [reflexivity|]. split; [reflexivity|].
  intros userId. eexists. eexists. split; [reflexivity|]. split; [reflexivity|].
  intros dto. rewrite !in_map_iff. split.
  - intros (b & <- & Hb). apply GetByUserIdAsync_In in Hb.
    destruct Hb as (Hp & Hu & Hs). split; [|exact Hu].
    exists b. split; [reflexivity|]. apply GetAllAsync_In. now split.
  - intros [(b & <- & Hb) Hu]. exists b. split; [reflexivity|].
    apply GetAllAsync_In in Hb. destruct Hb as [Hp Hs].
    apply GetByUserIdAsync_In. split; [exact Hp | split; [exact Hu | exact Hs]].
Qed.

(** X8.  The listing of one owner's books is in descending order of
    creation time and holds each book of that owner that satisfies the
    filter once for each of its rows. *)
Theorem GetByUserIdAsync_is_sorted_and_complete
  (ctx : BookStoreContext.t) (userId : Guid) (filters : option BookFiltersDto.t) :
  Descending Book.CreatedAt (BookRepository.GetByUserIdAsync ctx userId filters) /\
  exists p : Book.t -> bool,
    (forall b, p b = true <->
               Book.UserId b = userId /\ Spec.satisfies_opt filters b) /\
    Permutation (BookRepository.GetByUserIdAsync ctx userId filters)
                (filter p (Spec.Population ctx)).
Proof.
  rewrite GetByUserIdAsync_eq. split; [apply OrderByDescending_Descending|].
  exists (fun b => (Book.UserId b =? userId) && Spec.matchesb filters b).
  split.
  - intros b. now rewrite andb_true_iff, Z.eqb_eq, matchesb_opt_iff.
  - rewrite OrderByDescending_Permutation, filter_and. reflexivity.
Qed.

(** ** Invariants of the table of books *)

(** X9.  The primary key survives every request that writes: after a
    create, an update or a delete, whoever sends it and whatever it
    names, no two rows share an id if none did before. *)
Theorem every_write_keeps_the_primary_key
  (User : Principal) (ctx : BookStoreContext.t) (now : DateTime) (id : Guid)
  (created : CreateBookDto.t) (updated : UpdateBookDto.t) :
  Spec.unique_ids ctx ->
  Spec.unique_ids (snd (BooksController.HttpPost User ctx id now created)) /\
  Spec.unique_ids (snd (BooksController.HttpPut_id User ctx now id updated)) /\
  Spec.unique_ids (snd (BooksController.HttpDelete_id User ctx id)).
Proof.
  intros H. split; [|split].
  - now apply HttpPost_keeps_unique_ids.
  - now apply HttpPut_id_keeps_unique_ids.
  - now apply HttpDelete_id_keeps_unique_ids.
Qed.

Lemma every_write_keeps_the_primary_key_witness :
  Spec.unique_ids
    (snd (BooksController.HttpPost (Bearer (Some 2)) Sample.ctx 13 300 Sample.newBook)).
Proof.
  assert (Hnd : Spec.unique_ids Sample.ctx).
  { unfold Spec.unique_ids. simpl.
    repeat (constructor; [simpl; intuition discriminate|]). constructor. }
  exact (proj1 (every_write_keeps_the_primary_key
                  (Bearer (Some 2)) Sample.ctx 300 13 Sample.newBook Sample.newFields Hnd)).
Defined.

Lemma rows_valid_replace (l : list Book.t) (nb : Book.t) (id : Guid) :
  Forall row_valid l -> row_valid nb ->
  Forall row_valid (map (fun b => if Book.Id b =? id then nb else b) l).
Proof.
  intros Hl Hnb. apply Forall_forall. intros x Hx.
  apply in_map_iff in Hx. destruct Hx as (y & <- & Hy).
  destruct (Book.Id y =? id); [exact Hnb|].
  rewrite Forall_forall in Hl. now apply Hl.
Qed.

(** X10.  The bounds of validation hold of the stored books for good: if
    every stored book has a present name of at most 255 characters, a
    present category of at most 100, a present description of at most
    1000 and a price between 0 and 99999.99, the same is true after any
    create, update or delete request. *)
Theorem every_write_keeps_the_stored_books_valid
  (User : Principal) (ctx : BookStoreContext.t) (now : DateTime) (id : Guid)
  (created : CreateBookDto.t) (updated : UpdateBookDto.t) :
  rows_valid ctx ->
  rows_valid (snd (BooksController.HttpPost User ctx id now created)) /\
  rows_valid (snd (BooksController.HttpPut_id User ctx now id updated)) /\
  rows_valid (snd (BooksController.HttpDelete_id User ctx id)).
Proof.
  intros H. unfold rows_valid in *. split; [|split].
  - unfold BooksController.HttpPost, Authorize, ApiController.
    destruct User as [|[u|]]; [exact H| |];
      (destruct (Validation.CreateBookDto_errors created) eqn:Hv; [|exact H]).
    2: exact H.
    unfold BooksController.CreateBook, BookRepository.CreateAsync,
      BookRepository.SaveChanges_Added, BookRepository.row_of.
    cbn [GetCurrentUserId bind Book.Id Book.UserId].
    destruct (existsb _ (BookStoreContext.Books ctx)); [exact H|].
    destruct (negb (existsb _ (BookStoreContext.Users ctx))); [exact H|].
    destruct (negb (BookRepository.Storable _)); [exact H|].
    cbn [bind try_write snd BookStoreContext.Books].
    apply Forall_app. split; [exact H|]. constructor; [|constructor].
    unfold row_valid. simpl. now apply errors_nil.
  - unfold BooksController.HttpPut_id, Authorize, ApiController.
    destruct User as [|[u|]]; [exact H| |];
      (destruct (Validation.UpdateBookDto_errors updated) eqn:Hv; [|exact H]).
    2: exact H.
    unfold BooksController.UpdateBook. cbn [GetCurrentUserId bind].
    destruct (negb (BookRepository.ExistsAsync ctx id u)); [exact H|].
    destruct (BookRepository.GetByIdAsync ctx id) as [e|]; [|exact H].
    unfold BookRepository.UpdateAsync, BookRepository.SaveChanges_Modified,
      BookRepository.row_of.
    cbn [Book.Id Book.UserId].
    destruct (negb (existsb _ (BookStoreContext.Books ctx))); [exact H|].
    destruct (negb (BookRepository.Storable _)); [exact H|].
    cbn [bind try_write snd BookStoreContext.Books].
    apply rows_valid_replace; [exact H|].
    unfold row_valid. simpl. now apply errors_nil.
  - unfold BooksController.HttpDelete_id, Authorize, BooksController.DeleteBook.
    destruct User as [|[u|]]; [exact H| |exact H].
    cbn [GetCurrentUserId bind]. unfold BookRepository.DeleteAsync.
    destruct (find _ (BookStoreContext.Books ctx)) as [x|]; simpl; [|exact H].
    apply Forall_forall. intros y Hy. apply filter_In in Hy.
    rewrite Forall_forall in H. now apply H.
Qed.

Lemma every_write_keeps_the_stored_books_valid_witness :
  rows_valid
    (snd (BooksController.HttpPut_id (Bearer (Some 1)) Sample.ctx 300 10 Sample.newFields)).
Proof.
  assert (Hv : rows_valid Sample.ctx).
  { unfold rows_valid. simpl.
    repeat (constructor; [apply errors_nil; reflexivity|]). constructor. }
  exact (proj1 (proj2 (every_write_keeps_the_stored_books_valid
                  (Bearer (Some 1)) Sample.ctx 300 10 Sample.newBook Sample.newFields Hv))).
Defined.

(** ** Categories *)

Lemma Distinct_In (l : list string) (c : string) :
  In c (Categories.Distinct l) <-> In c l.
Proof.
  induction l as [|x l IH]; simpl; [tauto|].
  rewrite filter_In, IH, negb_true_iff, String.eqb_neq.
  destruct (string_dec x c) as [-> | Hne]; [tauto|].
  split; [tauto|]. intros [H | H]; [contradiction|]. right. split; congruence.
Qed.

Lemma Distinct_NoDup (l : list string) : NoDup (Categories.Distinct l).
Proof.
  induction l as [|x l IH]; simpl; constructor.
  - rewrite filter_In, negb_true_iff, String.eqb_neq. tauto.
  - now apply NoDup_filter.
Qed.

Lemma insert_asc_Permutation (leb : string -> string -> bool) (x : string)
  (l : list string) :
  Permutation (Categories.insert_asc leb x l) (x :: l).
Proof.
  induction l as [|y r IH]; simpl; [reflexivity|].
  destruct (leb x y); [reflexivity|].
  rewrite IH. apply perm_swap.
Qed.

Lemma OrderBy_Permutation (leb : string -> string -> bool) (l : list string) :
  Permutation (Categories.OrderBy leb l) l.
Proof.
  induction l as [|x l IH]; simpl; [reflexivity|].
  rewrite insert_asc_Permutation. now apply perm_skip.
Qed.

Lemma insert_asc_Sorted (leb : string -> string -> bool) (x : string)
  (l : list string) :
  (forall a b, leb a b = true \/ leb b a = true) ->
  Sorted (fun a b => leb a b = true) l ->
  Sorted (fun a b => leb a b = true) (Categories.insert_asc leb x l).
Proof.
  intros Htotal. induction 1 as [|y r Hr IH Hhd]; simpl.
  - repeat constructor.
  - destruct (leb x y) eqn:E.
    + constructor; [now constructor | now constructor].
    + constructor; [exact IH|].
      destruct r as [|z r]; simpl.
      * constructor. destruct (Htotal x y); congruence.
      * destruct (leb x z).
        -- constructor. destruct (Htotal x y); congruence.
        -- constructor. now inversion Hhd.
Qed.

(** X11.  Whatever total ordering of text the database uses, the list of
    categories holds each category of a stored book, of any owner, exactly
    once and nothing else, in ascending order; [GetCategories] answers Ok
    with it. *)
Theorem GetCategoriesAsync_is_distinct_sorted_and_global
  (leb : string -> string -> bool) (ctx : BookStoreContext.t) :
  (forall a b, leb a b = true \/ leb b a = true) ->
  let categories := Categories.GetCategoriesAsync leb ctx in
  NoDup categories /\
  (forall c, In c categories <->
             exists b, In b (BookStoreContext.Books ctx) /\ Book.Category b = c) /\
  Sorted (fun a b => leb a b = true) categories /\
  Categories.GetCategories leb ctx = Ok categories.
Proof.
  intros Htotal categories. unfold categories, Categories.GetCategoriesAsync.
  split; [|split; [|split]].
  - apply (Permutation_NoDup (Permutation_sym (OrderBy_Permutation leb _))).
    apply Distinct_NoDup.
  - intros c. split.
    + intros H. apply (Permutation_in _ (OrderBy_Permutation leb _)) in H.
      apply Distinct_In, in_map_iff in H. destruct H as (b & E & Hb). now exists b.
    + intros (b & Hb & <-).
      apply (Permutation_in _ (Permutation_sym (OrderBy_Permutation leb _))).
      apply Distinct_In. now apply in_map.
  - unfold Categories.OrderBy.
    induction (Categories.Distinct (map Book.Category (BookStoreContext.Books ctx)))
      as [|x l IH]; simpl; [constructor | now apply insert_asc_Sorted].
  - reflexivity.
Qed.

Lemma GetCategoriesAsync_is_distinct_sorted_and_global_witness :
  Categories.GetCategories String.leb Sample.ctx = Ok ["Computing"; "Fiction"].
Proof.
  exact (proj2 (proj2 (proj2 (GetCategoriesAsync_is_distinct_sorted_and_global
                                String.leb Sample.ctx String.leb_total)))).
Defined.

(** ** Files: accepted uploads and deletion *)

Lemma Exists_iff (fs : FileSystem) (path : string) :
  FileDeletion.Exists fs path = true <-> In path (map fst fs).
Proof.
  unfold FileDeletion.Exists. rewrite existsb_exists, in_map_iff. split.
  - intros (e & He & E). apply String.eqb_eq in E. now exists e.
  - intros (e & E & He). exists e. split; [exact He | now apply String.eqb_eq].
Qed.


Lemma Delete_gone (fs : FileSystem) (path : string) :
  ~ In path (map fst (FileDeletion.Delete fs path)).
Proof.
  unfold FileDeletion.Delete. rewrite in_map_iff. intros (e & E & He).
  apply filter_In in He. destruct He as [_ He].
  apply negb_true_iff, String.eqb_neq in He. contradiction.
Qed.


Lemma cap_not_exceeded (kind : Intake.Kind) (length : Z) :
  (length >?
     match kind with
     | Intake.image => FilesController.MaxImageSize
     | Intake.document => FilesController.MaxBookSize
     end) = false <-> length <= Intake.cap kind.
Proof.
  rewrite Z.gtb_ltb, Z.ltb_ge.
  destruct kind; unfold Intake.cap, Intake.MiB, FilesController.MaxImageSize,
    FilesController.MaxBookSize; lia.
Qed.

(** What an upload that passes the checks answers and writes. *)
Lemma accepted_upload
  (kind : Intake.Kind) (u : Guid) (WebRootPath : string) (Request : HttpRequest.t)
  (fs : FileSystem) (newGuid timestamp : string) (file : IFormFile.t)
  (bookId : option string) :
  IFormFile.Length file <> 0 ->
  IFormFile.Length file <= Intake.cap kind ->
  Intake.allowed kind (IFormFile.FileName file) ->
  Intake.upload kind (Bearer (Some u)) WebRootPath Request fs newGuid timestamp
                (Some file) bookId =
  (Ok (UploadResult.mk
         (HttpRequest.Scheme Request ++ "://" ++ HttpRequest.Host Request
          ++ "/uploads/" ++ FileDeletion.folder kind ++ "/"
          ++ FileDeletion.storedName newGuid timestamp file bookId)%string
         (IFormFile.FileName file) (IFormFile.Length file)),
   (FileDeletion.storedPath WebRootPath kind
      (FileDeletion.storedName newGuid timestamp file bookId),
    IFormFile.Length file)
     :: FileDeletion.Delete fs
          (FileDeletion.storedPath WebRootPath kind
             (FileDeletion.storedName newGuid timestamp file bookId))).
Proof.
  intros H0 Hfit Hext. apply Z.eqb_neq in H0.
  apply Contains_allow_list in Hext. apply cap_not_exceeded in Hfit.
  destruct kind; cbv beta iota in Hfit, Hext; cbn [Intake.upload];
    unfold FilesController.UploadImage, FilesController.UploadBookFile;
    rewrite H0, Hfit; cbv zeta; rewrite Hext; reflexivity.
Qed.

(** What an upload that is answered Ok was given, and what it has
    answered and written. *)
Lemma upload_answered_Ok
  (kind : Intake.Kind) (User : Principal) (WebRootPath : string)
  (Request : HttpRequest.t) (fs : FileSystem) (newGuid timestamp : string)
  (file : option IFormFile.t) (bookId : option string)
  (r : UploadResult.t) (fs' : FileSystem) :
  Intake.upload kind User WebRootPath Request fs newGuid timestamp file bookId
    = (Ok r, fs') ->
  exists f u,
    file = Some f /\ User = Bearer (Some u) /\
    IFormFile.Length f <> 0 /\
    IFormFile.Length f <= Intake.cap kind /\
    Intake.allowed kind (IFormFile.FileName f) /\
    r = UploadResult.mk
          (HttpRequest.Scheme Request ++ "://" ++ HttpRequest.Host Request
           ++ "/uploads/" ++ FileDeletion.folder kind ++ "/"
           ++ FileDeletion.storedName newGuid timestamp f bookId)%string
          (IFormFile.FileName f) (IFormFile.Length f) /\
    fs' = (FileDeletion.storedPath WebRootPath kind
             (FileDeletion.storedName newGuid timestamp f bookId),
           IFormFile.Length f)
            :: FileDeletion.Delete fs
                 (FileDeletion.storedPath WebRootPath kind
                    (FileDeletion.storedName newGuid timestamp f bookId)).
Proof.
  intros H.
  assert (Hchecks : exists f u,
            file = Some f /\ User = Bearer (Some u) /\
            IFormFile.Length f <> 0 /\
            IFormFile.Length f <= Intake.cap kind /\
            Intake.allowed kind (IFormFile.FileName f)).
  { destruct file as [f|].
    2:{ destruct kind; cbn [Intake.upload] in H;
          unfold FilesController.UploadImage, FilesController.UploadBookFile in H;
          discriminate H. }
    destruct (IFormFile.Length f =? 0) eqn:H0.
    { destruct kind; cbn [Intake.upload] in H;
        unfold FilesController.UploadImage, FilesController.UploadBookFile in H;
        rewrite H0 in H; discriminate H. }
    pose proof cap_not_exceeded as Hcap.
    assert (Hu : exists u, User = Bearer (Some u)).
    { destruct User as [|[u|]]; [|now exists u|];
        exfalso; destruct kind; cbn [Intake.upload] in H;
          unfold FilesController.UploadImage, FilesController.UploadBookFile in H;
          rewrite H0 in H;
          (destruct (IFormFile.Length f >? _); [discriminate H|]);
          cbv zeta in H;
          (destruct (negb (FilesController.Contains _ _)); discriminate H). }
    destruct Hu as [u Hu]. exists f, u.
    split; [reflexivity|]. split; [exact Hu|].
    split; [now apply Z.eqb_neq|].
    destruct kind; cbn [Intake.upload] in H;
      unfold FilesController.UploadImage, FilesController.UploadBookFile in H;
      rewrite H0 in H.
    - destruct (IFormFile.Length f >? FilesController.MaxImageSize) eqn:Hbig;
        [discriminate H|].
      split; [now apply (Hcap Intake.image (IFormFile.Length f))|].
      cbv zeta in H. apply (Contains_allow_list Intake.image).
      destruct (FilesController.Contains FilesController._allowedImageExtensions _);
        [reflexivity | discriminate H].
    - destruct (IFormFile.Length f >? FilesController.MaxBookSize) eqn:Hbig;
        [discriminate H|].
      split; [now apply (Hcap Intake.document (IFormFile.Length f))|].
      cbv zeta in H. apply (Contains_allow_list Intake.document).
      destruct (FilesController.Contains FilesController._allowedBookExtensions _);
        [reflexivity | discriminate H]. }
  destruct Hchecks as (f & u & -> & -> & H0 & Hfit & Hext).
  exists f, u. repeat (split; [first [reflexivity | assumption]|]).
  rewrite (accepted_upload kind u WebRootPath Request fs newGuid timestamp f bookId
             H0 Hfit Hext) in H.
  injection H as <- <-. split; reflexivity.
Qed.



(** X13.  [DeleteFile] refuses a file type other than "images" and
    "books", answers not-found for a path that holds no file, and
    otherwise removes the file at that path and no other; asked again for
    the same file it answers not-found.  Only the last case changes the
    disk. *)
Theorem DeleteFile_removes_one_file_once
  (WebRootPath : string) (fs : FileSystem) (fileName fileType : string) :
  let path :=
    FilesController.Combine
      (FilesController.Combine (FilesController.Combine WebRootPath "uploads") fileType)
      fileName in
  (fileType <> "images" -> fileType <> "books" ->
   FileDeletion.DeleteFile WebRootPath fs fileName fileType =
     (BadRequest "Invalid file type. Must be 'images' or 'books'", fs)) /\
  (fileType = "images" \/ fileType = "books" ->
   ~ In path (map fst fs) ->
   FileDeletion.DeleteFile WebRootPath fs fileName fileType =
     (NotFound "File not found", fs)) /\
  (fileType = "images" \/ fileType = "books" ->
   In path (map fst fs) ->
   FileDeletion.DeleteFile WebRootPath fs fileName fileType =
     (Ok "File deleted successfully", FileDeletion.Delete fs path) /\
   FileDeletion.DeleteFile WebRootPath (FileDeletion.Delete fs path) fileName fileType =
     (NotFound "File not found", FileDeletion.Delete fs path) /\
   (forall e, In e fs -> fst e <> path -> In e (FileDeletion.Delete fs path)) /\
   (forall e, In e (FileDeletion.Delete fs path) -> In e fs /\ fst e <> path)).
Proof.
  cbv zeta.
  assert (Htype : fileType = "images" \/ fileType = "books" ->
    negb (String.eqb fileType "images") && negb (String.eqb fileType "books") = false).
  { intros [-> | ->]; reflexivity. }
  assert (Hmissing : forall fs0,
    fileType = "images" \/ fileType = "books" ->
    ~ In (FilesController.Combine
            (FilesController.Combine (FilesController.Combine WebRootPath "uploads")
                                     fileType) fileName) (map fst fs0) ->
    FileDeletion.DeleteFile WebRootPath fs0 fileName fileType =
      (NotFound "File not found", fs0)).
  { intros fs0 Ht Hfree. unfold FileDeletion.DeleteFile. rewrite (Htype Ht). cbv zeta.
    rewrite <- Exists_iff in Hfree. apply not_true_is_false in Hfree.
    now rewrite Hfree. }
  split; [|split].
  - intros H1 H2. unfold FileDeletion.DeleteFile.
    apply String.eqb_neq in H1, H2. now rewrite H1, H2.
  - intros Ht Hfree. now apply Hmissing.
  - intros Ht Hin. split; [|split; [|split]].
    + unfold FileDeletion.DeleteFile. rewrite (Htype Ht). cbv zeta.
      apply Exists_iff in Hin. now rewrite Hin.
    + apply Hmissing; [exact Ht | apply Delete_gone].
    + intros e He Hne. unfold FileDeletion.Delete. apply filter_In.
      split; [exact He | now apply negb_true_iff, String.eqb_neq].
    + intros e He. unfold FileDeletion.Delete in He. apply filter_In in He.
      destruct He as [He Hne]. split; [exact He|].
      now apply negb_true_iff, String.eqb_neq in Hne.
Qed.

Lemma DeleteFile_removes_one_file_once_witness :
  FileDeletion.DeleteFile "/srv/wwwroot" Sample.disk "old.png" "images" =
    (Ok "File deleted successfully", []) /\
  FileDeletion.DeleteFile "/srv/wwwroot" Sample.disk "old.png" "covers" =
    (BadRequest "Invalid file type. Must be 'images' or 'books'", Sample.disk).
Proof.
  destruct (DeleteFile_removes_one_file_once "/srv/wwwroot" Sample.disk "old.png" "images")
    as (_ & _ & Hdel).
  destruct (DeleteFile_removes_one_file_once "/srv/wwwroot" Sample.disk "old.png" "covers")
    as (Hbad & _).
  split.
  - apply Hdel; [now left | simpl; tauto].
  - apply Hbad; discriminate.
Defined.




Lemma unique_paths_Delete (fs : FileSystem) (path : string) :
  FileDeletion.unique_paths fs -> FileDeletion.unique_paths (FileDeletion.Delete fs path).
Proof.
  unfold FileDeletion.unique_paths, FileDeletion.Delete.
  intros H. induction fs as [|e fs IH]; simpl in *; [exact H|].
  apply NoDup_cons_iff in H. destruct H as [He Hfs].
  destruct (String.eqb (fst e) path); simpl; [now apply IH|].
  apply NoDup_cons_iff. split; [|now apply IH].
  rewrite in_map_iff. intros (x & E & Hx). apply filter_In in Hx.
  apply He. rewrite <- E. apply in_map. tauto.
Qed.

(** X15.  No upload and no deletion, accepted or refused, by whichever
    caller, leaves two files under one path: a second upload to a path
    replaces the file there. *)
Theorem uploads_and_deletions_keep_paths_unique
  (kind : Intake.Kind) (User : Principal) (WebRootPath : string)
  (Request : HttpRequest.t) (fs : FileSystem) (newGuid timestamp : string)
  (file : option IFormFile.t) (bookId : option string) (fileName fileType : string) :
  FileDeletion.unique_paths fs ->
  FileDeletion.unique_paths
    (snd (Intake.endpoint kind User WebRootPath Request fs newGuid timestamp file bookId)) /\
  FileDeletion.unique_paths
    (snd (FileDeletion.HttpDelete_delete User WebRootPath fs fileName fileType)).
Proof.
  intros H. split.
  - assert (Hw : forall p f, FileDeletion.unique_paths (FilesController.WriteFile fs p f)).
    { intros p f. unfold FilesController.WriteFile, FileDeletion.unique_paths.
      cbn [map fst]. apply NoDup_cons_iff. split; [apply Delete_gone|].
      now apply unique_paths_Delete. }
    destruct kind; cbn [Intake.endpoint];
      unfold FilesController.HttpPost_upload_image, FilesController.HttpPost_upload_book,
        Authorize, FilesController.UploadImage, FilesController.UploadBookFile;
      (destruct User as [|[u|]]; [exact H|..]);
      (destruct file as [f|]; [|exact H]);
      (destruct (IFormFile.Length f =? 0); [exact H|]);
      (destruct (IFormFile.Length f >? _); [exact H|]);
      cbv zeta;
      (destruct (negb (FilesController.Contains _ _)); [exact H|]);
      cbn [GetCurrentUserId bind FilesController.catch snd];
      first [exact H | apply Hw].
  - unfold FileDeletion.HttpDelete_delete, Authorize, FileDeletion.DeleteFile.
    destruct User; [exact H|].
    destruct (negb (String.eqb fileType "images") && negb (String.eqb fileType "books"));
      [exact H|].
    cbv zeta. destruct (negb (FileDeletion.Exists fs _)); [exact H|].
    cbn [FilesController.catch snd]. now apply unique_paths_Delete.
Qed.

Lemma uploads_and_deletions_keep_paths_unique_witness :
  FileDeletion.unique_paths
    (snd (FilesController.HttpPost_upload_image (Bearer (Some 1)) "/srv/wwwroot"
            Sample.request Sample.disk "guid" "20240101120000" (Some Sample.cover)
            (Some "10"))).
Proof.
  assert (H : FileDeletion.unique_paths Sample.disk).
  { unfold FileDeletion.unique_paths. simpl. constructor; [simpl; tauto | constructor]. }
  exact (proj1 (uploads_and_deletions_keep_paths_unique
                  Intake.image (Bearer (Some 1)) "/srv/wwwroot" Sample.request Sample.disk
                  "guid" "20240101120000" (Some Sample.cover) (Some "10")
                  "old.png" "images" H)).
Defined.

(** * Further properties of the front end *)

(** ** What the pages send as filters *)

Lemma FromQuery_never_blank (query : BookFiltersDto.t) :
  (forall s, BookFiltersDto.Search (ModelBinding.FromQuery query) = Some s ->
             Spec.present s) /\
  (forall s, BookFiltersDto.Category (ModelBinding.FromQuery query) = Some s ->
             Spec.present s).
Proof.
  unfold ModelBinding.FromQuery, ModelBinding.ConvertEmptyStringToNull, Spec.present.
  cbn [BookFiltersDto.Search BookFiltersDto.Category Str.IsNullOrWhiteSpace].
  split; intros s.
  - destruct (BookFiltersDto.Search query) as [t|]; [|discriminate].
    destruct (Str.AllWhiteSpace t) eqn:E; [discriminate|]. now intros [= <-].
  - destruct (BookFiltersDto.Category query) as [t|]; [|discriminate].
    destruct (Str.AllWhiteSpace t) eqn:E; [discriminate|]. now intros [= <-].
Qed.

Lemma blank_text_is_bound_to_null (text : string) :
  Str.AllWhiteSpace text = true ->
  ModelBinding.ConvertEmptyStringToNull
    (match text with EmptyString => None | _ => Some text end) = None.
Proof.
  intros H. destruct text as [|c t]; [reflexivity|].
  unfold ModelBinding.ConvertEmptyStringToNull. cbn [Str.IsNullOrWhiteSpace].
  now rewrite H.
Qed.

(** X16.  The filter object that the server binds for a listing requested
    through [getAllBooks] never carries a search text or a category that
    is empty or blank, so a listing that comes back holds exactly the
    views of the stored books that satisfy every predicate bound, the
    category as an exact match.  A search text of white space only is
    bound to no search: the request fares as the one without a search
    text. *)
Theorem getAllBooks_lists_exactly_the_matches_of_what_the_server_binds
  (ctx : BookStoreContext.t) (filters : option BookFilters.t) :
  let bound := ModelBinding.FromQuery (apiService.params filters) in
  (forall s, BookFiltersDto.Search bound = Some s -> Spec.present s) /\
  (forall s, BookFiltersDto.Category bound = Some s -> Spec.present s) /\
  (forall views,
     apiClient.getAllBooks ctx filters = Return views ->
     forall dto, In dto views <->
       exists b, In b (Spec.Population ctx) /\ Spec.satisfies_stated bound b /\
                 dto = BooksController.MapToDto b) /\
  (forall text category minPrice maxPrice,
     Str.AllWhiteSpace text = true ->
     apiClient.getAllBooks ctx
       (Some (BookFilters.mk (Some text) category minPrice maxPrice)) =
     apiClient.getAllBooks ctx
       (Some (BookFilters.mk None category minPrice maxPrice))).
Proof.
  cbv zeta.
  destruct (FromQuery_never_blank (apiService.params filters)) as [Hs Hc].
  split; [exact Hs|]. split; [exact Hc|]. split.
  - intros views [= <-] dto. rewrite in_map_iff.
    set (bound := ModelBinding.FromQuery (apiService.params filters)) in *.
    assert (Heq : forall b, Spec.satisfies bound b <-> Spec.satisfies_stated bound b).
    { intros b. unfold Spec.satisfies, Spec.satisfies_stated. split.
      - intros (H1 & H2 & H3 & H4). repeat split; try assumption.
        intros c Hcat. apply H2; [exact Hcat|]. intros ->.
        specialize (Hc _ Hcat). discriminate Hc.
      - intros (H1 & H2 & H3 & H4). repeat split; try assumption.
        intros c Hcat _. now apply H2. }
    split.
    + intros (b & <- & Hb). apply GetAllAsync_In in Hb. destruct Hb as [Hp Hsat].
      exists b. split; [exact Hp|]. split; [now apply Heq | reflexivity].
    + intros (b & Hp & Hsat & ->). exists b. split; [reflexivity|].
      apply GetAllAsync_In. split; [exact Hp | now apply Heq].
  - intros text category minPrice maxPrice Hblank.
    unfold apiClient.getAllBooks, apiService.params, ModelBinding.FromQuery.
    cbn [BookFilters.search BookFilters.category BookFilters.minPrice
         BookFilters.maxPrice BookFiltersDto.Search BookFiltersDto.Category
         BookFiltersDto.MinPrice BookFiltersDto.MaxPrice BookFiltersDto.Page
         BookFiltersDto.PageSize].
    now rewrite (blank_text_is_bound_to_null text Hblank).
Qed.

Lemma getAllBooks_lists_exactly_the_matches_of_what_the_server_binds_witness :
  apiClient.getAllBooks Sample.ctx (Some (BookFilters.mk (Some " ") None None None)) =
  Return (map BooksController.MapToDto (BookRepository.GetAllAsync Sample.ctx None)).
Proof.
  rewrite (proj2 (proj2 (proj2
             (getAllBooks_lists_exactly_the_matches_of_what_the_server_binds
                Sample.ctx None))) " " None None None eq_refl).
  reflexivity.
Defined.

(** X17.  The dashboard's filter controls store a text only when it is not
    empty and a price bound only when it is a number other than zero, and
    leave the other three filters as they were: the server is sent a
    maximum (minimum) price exactly for such a number, so a bound of zero
    lists as no bound does. *)
Theorem handleFilterChange_keeps_only_non_empty_text_and_non_zero_bounds
  (prev : BookFilters.t) :
  (forall text s,
     BookFiltersDto.Search
       (apiService.params (Some (DashboardFilters.handleFilterChange prev
                                   (DashboardFilters.search text)))) = Some s
     <-> text = s /\ s <> "") /\
  (forall text s,
     BookFiltersDto.Category
       (apiService.params (Some (DashboardFilters.handleFilterChange prev
                                   (DashboardFilters.category text)))) = Some s
     <-> text = s /\ s <> "") /\
  (forall value p,
     BookFiltersDto.MinPrice
       (apiService.params (Some (DashboardFilters.handleFilterChange prev
                                   (DashboardFilters.minPrice value)))) = Some p
     <-> value = Some p /\ p <> 0) /\
  (forall value p,
     BookFiltersDto.MaxPrice
       (apiService.params (Some (DashboardFilters.handleFilterChange prev
                                   (DashboardFilters.maxPrice value)))) = Some p
     <-> value = Some p /\ p <> 0) /\
  (forall User ctx,
     apiService.getMyBooks User ctx
       (Some (DashboardFilters.handleFilterChange prev (DashboardFilters.maxPrice (Some 0))))
     = apiService.getMyBooks User ctx
         (Some (DashboardFilters.handleFilterChange prev (DashboardFilters.maxPrice None)))) /\
  (forall value,
     let next := DashboardFilters.handleFilterChange prev (DashboardFilters.maxPrice value) in
     BookFilters.search next = BookFilters.search prev /\
     BookFilters.category next = BookFilters.category prev /\
     BookFilters.minPrice next = BookFilters.minPrice prev).
Proof.
  split; [|split; [|split; [|split; [|split]]]].
  - intros [|c t] s; simpl; split.
    + discriminate.
    + intros [<- H]. contradiction.
    + intros [= <-]. split; [reflexivity | discriminate].
    + intros [<- _]. reflexivity.
  - intros [|c t] s; simpl; split.
    + discriminate.
    + intros [<- H]. contradiction.
    + intros [= <-]. split; [reflexivity | discriminate].
    + intros [<- _]. reflexivity.
  - intros [n|] p; simpl; [|split; [discriminate | intros [H _]; discriminate]].
    destruct (n =? 0) eqn:E.
    + apply Z.eqb_eq in E. split; [discriminate | intros [[= <-] H]; contradiction].
    + apply Z.eqb_neq in E. split.
      * intros [= <-]. now split.
      * intros [[= <-] _]. reflexivity.
  - intros [n|] p; simpl; [|split; [discriminate | intros [H _]; discriminate]].
    destruct (n =? 0) eqn:E.
    + apply Z.eqb_eq in E. split; [discriminate | intros [[= <-] H]; contradiction].
    + apply Z.eqb_neq in E. split.
      * intros [= <-]. now split.
      * intros [[= <-] _]. reflexivity.
  - reflexivity.
  - intros value. cbv zeta. repeat split; reflexivity.
Qed.

Example max_price_zero_is_a_filter_for_the_server :
  map Book.Name
    (BookRepository.GetByUserIdAsync Sample.ctx 1
       (Some (BookFiltersDto.mk None None None (Some 0) 1 20))) = [] /\
  apiService.getMyBooks (Bearer (Some 1)) Sample.ctx
    (Some (DashboardFilters.handleFilterChange DashboardFilters.clearFilters
             (DashboardFilters.maxPrice (Some 0))))
  = Return (map BooksController.MapToDto
              (BookRepository.GetByUserIdAsync Sample.ctx 1 None)).
Proof. split; reflexivity. Qed.

(** ** The store page *)

(** X18.  Whatever the server holds and whatever filters are set, the
    store page's [loadBooks] ends with no book to show and [loadCategories]
    with no category, both with the message that the server cannot be
    reached: the listing that was fetched is dropped when [response] is
    read. *)
Theorem Store_never_keeps_what_it_loads
  (leb : string -> string -> bool) (ctx : BookStoreContext.t)
  (filters : BookFilters.t) (s : StorePage.State) :
  StorePage.loadBooks ctx filters s =
    StorePage.mkState
      [] (StorePage.categories s)
      "Unable to connect to server. Please check if the backend is running." /\
  StorePage.loadCategories leb ctx s =
    StorePage.mkState
      (StorePage.books s) []
      "Unable to connect to server. Please check if the backend is running.".
Proof.
  split.
  - unfold StorePage.loadBooks.
    destruct (apiClient.getAllBooks ctx (Some filters)); reflexivity.
  - unfold StorePage.loadCategories.
    destruct (apiClient.getCategories leb ctx); reflexivity.
Qed.

(** ** The form's check of a book file and the server's *)

Lemma Char_ToLower_period (c : ascii) :
  Ascii.eqb (Str.Char_ToLower c) "." = Ascii.eqb c ".".
Proof. destruct c as [[] [] [] [] [] [] [] []]; reflexivity. Qed.

Lemma after_last_ToLower (s : string) :
  Js.after_last "." (Str.ToLower s) = option_map Str.ToLower (Js.after_last "." s).
Proof.
  induction s as [|c r IH]; cbn [Str.ToLower Js.after_last option_map]; [reflexivity|].
  rewrite IH. destruct (Js.after_last "." r); cbn [option_map]; [reflexivity|].
  rewrite Char_ToLower_period. now destruct (Ascii.eqb c ".").
Qed.

Lemma scan_Exhausted_no_period (s : string) :
  Str.scan s = Str.Exhausted -> Js.after_last "." s = None.
Proof.
  induction s as [|c r IH]; cbn [Str.scan Js.after_last]; [reflexivity|].
  destruct (Str.scan r); try discriminate.
  destruct (Ascii.eqb c ".") eqn:E; [discriminate|].
  destruct (Str.IsDirectorySeparator c); [discriminate|].
  intros _. now rewrite IH.
Qed.

Lemma scan_Found_after_last (s : string) (c : ascii) (e : string) :
  Str.scan s = Str.Found (String c e) -> Js.after_last "." s = Some e.
Proof.
  induction s as [|a r IH]; cbn [Str.scan Js.after_last]; [discriminate|].
  destruct (Str.scan r) eqn:Er.
  - intros [= ->]. now rewrite IH.
  - discriminate.
  - destruct (Ascii.eqb a ".") eqn:Ea.
    + destruct r as [|b r']; [discriminate|].
      intros [= -> <-]. now rewrite (scan_Exhausted_no_period _ Er).
    + destruct (Str.IsDirectorySeparator a); discriminate.
Qed.

Lemma allowed_extension_is_the_last_piece (name e : string) :
  Str.ToLower (Str.GetExtension name) = ("." ++ e)%string ->
  Js.split_pop "." (Js.toLowerCase name) = e.
Proof.
  unfold Str.GetExtension, Js.split_pop, Js.toLowerCase.
  destruct (Str.scan name) as [x| |] eqn:E; try discriminate.
  destruct x as [|c x']; [discriminate|].
  simpl. intros [= _ <-].
  now rewrite after_last_ToLower, (scan_Found_after_last _ _ _ E).
Qed.

(** X19.  A book file that [UploadBookFile] would accept by size and
    extension is never refused by the form: when the upload's name and
    size are the file's, [handleBookFileChange] selects the file and
    clears the error, whatever the file's media type. *)
Theorem form_accepts_every_book_file_the_server_accepts
  (file : BookFormPage.File) (s : BookFormPage.State) :
  BookFormPage.size file <= Intake.cap Intake.document ->
  Intake.allowed Intake.document (BookFormPage.name file) ->
  BookFormPage.handleBookFileChange (Some file) s = BookFormPage.mkState (Some file) "".
Proof.
  intros Hfit (e & He & Hext).
  unfold BookFormPage.handleBookFileChange. cbv zeta.
  rewrite (allowed_extension_is_the_last_piece _ _ Hext).
  replace (Js.includes BookFormPage.allowedExtensions e) with true.
  2:{ symmetry. unfold Js.includes. apply existsb_exists. exists e.
      split; [exact He | apply String.eqb_refl]. }
  rewrite andb_false_r.
  replace (BookFormPage.size file >? 100 * 1024 * 1024) with false; [reflexivity|].
  symmetry. rewrite Z.gtb_ltb. apply Z.ltb_ge.
  unfold Intake.cap, Intake.MiB in Hfit. lia.
Qed.

Lemma form_accepts_every_book_file_the_server_accepts_witness :
  BookFormPage.handleBookFileChange (Some SampleFiles.thesis)
    (BookFormPage.mkState None "earlier") =
  BookFormPage.mkState (Some SampleFiles.thesis) "".
Proof.
  apply form_accepts_every_book_file_the_server_accepts.
  - simpl. discriminate.
  - exists "pdf". split; [simpl; tauto | reflexivity].
Defined.

Example form_takes_a_media_type_the_server_refuses :
  BookFormPage.handleBookFileChange
    (Some (BookFormPage.mkFile "notes" "text/plain" 10)) (BookFormPage.mkState None "")
  = BookFormPage.mkState (Some (BookFormPage.mkFile "notes" "text/plain" 10)) "" /\
  fst (FilesController.UploadBookFile (Bearer (Some 1)) "/srv/wwwroot" Sample.request
         Sample.disk "guid" "t" (Some (IFormFile.mk "notes" 10)) None)
  = BadRequest "Invalid file type. Only book files (PDF, EPUB, DOCX, etc.) are allowed.".
Proof. split; reflexivity. Qed.

(** ** The categories of the earlier service *)



(** * Failed requests, absolute hints and the newest book *)

(** X21.  A request on books that is not answered with success changes
    nothing: a create that does not answer Created, an update that does
    not answer Ok and a delete that does not answer NoContent leave the
    database exactly as it was, whoever sends them. *)
Theorem unsuccessful_book_requests_change_nothing
  (User : Principal) (ctx : BookStoreContext.t) (now : DateTime) (id : Guid)
  (created : CreateBookDto.t) (updated : UpdateBookDto.t) :
  ((exists dto, fst (BooksController.HttpPost User ctx id now created) =
                CreatedAtAction id dto) \/
   snd (BooksController.HttpPost User ctx id now created) = ctx) /\
  ((exists dto, fst (BooksController.HttpPut_id User ctx now id updated) = Ok dto) \/
   snd (BooksController.HttpPut_id User ctx now id updated) = ctx) /\
  (fst (BooksController.HttpDelete_id User ctx id) = NoContent \/
   snd (BooksController.HttpDelete_id User ctx id) = ctx).
Proof.
  split; [|split].
  - unfold BooksController.HttpPost, Authorize, ApiController.
    destruct User as [|o]; [now right|].
    destruct (Validation.CreateBookDto_errors created); [|now right].
    destruct (CreateBook_cases (Bearer o) ctx id now created)
      as [(u & _ & _ & _ & _ & Hc) | (ex & Hc)]; rewrite Hc;
      [left; eexists; reflexivity | now right].
  - unfold BooksController.HttpPut_id, Authorize, ApiController.
    destruct User as [|[u|]]; [now right| |];
      (destruct (Validation.UpdateBookDto_errors updated); [|now right]).
    2: now right.
    destruct (UpdateBook_cases u ctx now id updated)
      as [[_ Hc] | (_ & e & _ & [[_ Hc] | [_ Hc]])]; rewrite Hc;
      [now right | left; eexists; reflexivity | now right].
  - unfold BooksController.HttpDelete_id, Authorize, BooksController.DeleteBook.
    destruct User as [|[u|]]; [now right| |now right].
    cbn [GetCurrentUserId bind].
    destruct (BookRepository.DeleteAsync ctx id u) as [[|] ctx'] eqn:E; simpl.
    + now left.
    + right. unfold BookRepository.DeleteAsync in E.
      destruct (find _ (BookStoreContext.Books ctx)); [discriminate | congruence].
Qed.

(** X22.  An upload or a deletion of a file that is not answered Ok leaves
    the disk exactly as it was, for every caller and every input: also a
    caller whose token carries no id, who passes the three checks, writes
    nothing. *)
Theorem unsuccessful_file_requests_write_nothing
  (kind : Intake.Kind) (User : Principal) (WebRootPath : string)
  (Request : HttpRequest.t) (fs : FileSystem) (newGuid timestamp : string)
  (file : option IFormFile.t) (bookId : option string) (fileName fileType : string) :
  ((exists r, fst (Intake.endpoint kind User WebRootPath Request fs newGuid timestamp
                                   file bookId) = Ok r) \/
   snd (Intake.endpoint kind User WebRootPath Request fs newGuid timestamp file bookId)
     = fs) /\
  ((exists r, fst (FileDeletion.HttpDelete_delete User WebRootPath fs fileName fileType)
              = Ok r) \/
   snd (FileDeletion.HttpDelete_delete User WebRootPath fs fileName fileType) = fs).
Proof.
  split.
  - destruct kind; cbn [Intake.endpoint];
      unfold FilesController.HttpPost_upload_image, FilesController.HttpPost_upload_book,
        Authorize, FilesController.UploadImage, FilesController.UploadBookFile;
      (destruct User as [|[u|]]; [now right|..]);
      (destruct file as [f|]; [|now right]);
      (destruct (IFormFile.Length f =? 0); [now right|]);
      (destruct (IFormFile.Length f >? _); [now right|]);
      cbv zeta;
      (destruct (negb (FilesController.Contains _ _)); [now right|]);
      cbn [GetCurrentUserId bind FilesController.catch fst snd];
      first [now right | left; eexists; reflexivity].
  - unfold FileDeletion.HttpDelete_delete, Authorize, FileDeletion.DeleteFile.
    destruct User; [now right|].
    destruct (negb (String.eqb fileType "images") && negb (String.eqb fileType "books"));
      [now right|].
    cbv zeta. destruct (negb (FileDeletion.Exists fs _)); [now right|].
    left. eexists. reflexivity.
Qed.

(** X23.  A book id hint that begins with the directory separator takes
    an upload that is answered Ok out of the uploads folder:
    [Path.Combine] drops the folder for a rooted name, so the file has
    been written at the absolute path that the hint, the time stamp and
    the extension spell, wherever the web root is. *)
Theorem rooted_hint_writes_outside_the_uploads_folder
  (kind : Intake.Kind) (User : Principal) (WebRootPath : string)
  (Request : HttpRequest.t) (fs : FileSystem) (newGuid timestamp : string)
  (file : IFormFile.t) (hint : string) (r : UploadResult.t) (fs' : FileSystem) :
  Intake.upload kind User WebRootPath Request fs newGuid timestamp
                (Some file) (Some (String "/" hint)) = (Ok r, fs') ->
  let name :=
    (String "/" hint ++ "-" ++ timestamp
     ++ Str.ToLower (Str.GetExtension (IFormFile.FileName file)))%string in
  fs' = (name, IFormFile.Length file) :: FileDeletion.Delete fs name.
Proof.
  intros H. cbv zeta.
  destruct (upload_answered_Ok _ _ _ _ _ _ _ _ _ _ _ H)
    as (f & u & Hf & _ & _ & _ & _ & _ & ->).
  injection Hf as <-. reflexivity.
Qed.

Lemma rooted_hint_writes_outside_the_uploads_folder_witness :
  snd (FilesController.UploadImage (Bearer (Some 1)) "/srv/wwwroot" Sample.request
         Sample.disk "guid" "20240101120000" (Some Sample.cover) (Some "/etc/cron.d/x"))
  = [("/etc/cron.d/x-20240101120000.png", 2048);
     ("/srv/wwwroot/uploads/images/old.png", 10)].
Proof.
  eassert (H : Intake.upload Intake.image (Bearer (Some 1)) "/srv/wwwroot" Sample.request
                 Sample.disk "guid" "20240101120000" (Some Sample.cover)
                 (Some "/etc/cron.d/x") = (Ok _, _)) by reflexivity.
  change (FilesController.UploadImage (Bearer (Some 1)) "/srv/wwwroot" Sample.request
            Sample.disk "guid" "20240101120000" (Some Sample.cover)
            (Some "/etc/cron.d/x"))
    with (Intake.upload Intake.image (Bearer (Some 1)) "/srv/wwwroot" Sample.request
            Sample.disk "guid" "20240101120000" (Some Sample.cover)
            (Some "/etc/cron.d/x")).
  rewrite H. cbn [snd].
  exact (rooted_hint_writes_outside_the_uploads_folder _ _ _ _ _ _ _ _ _ _ _ H).
Defined.

(** ** The newest book heads the listing *)

(** A list in descending order whose members are [x] and others of a
    smaller key starts with [x]. *)
Lemma Descending_starts_with_the_largest {A : Type} (key : A -> Z)
  (l others : list A) (x : A) :
  Descending key l -> Permutation l (x :: others) ->
  (forall y, In y others -> key y < key x) ->
  exists rest, l = x :: rest /\ Permutation rest others /\ Descending key rest.
Proof.
  intros Hd Hp Hlt. destruct Hd as [|h rest Hall Hrest].
  - apply Permutation_nil in Hp. discriminate Hp.
  - assert (Hh : In h (x :: others)).
    { apply (Permutation_in _ Hp). now left. }
    assert (Hx : In x (h :: rest)).
    { apply (Permutation_in _ (Permutation_sym Hp)). now left. }
    destruct Hh as [<- | Hh].
    + exists rest. split; [reflexivity|]. split; [|exact Hrest].
      now apply Permutation_cons_inv in Hp.
    + exfalso. specialize (Hlt h Hh).
      destruct Hx as [-> | Hx]; [lia|].
      rewrite Forall_forall in Hall. specialize (Hall x Hx). lia.
Qed.

Lemma Include_depends_on_the_users (ctx ctx' : BookStoreContext.t) (b : Book.t) :
  BookStoreContext.Users ctx' = BookStoreContext.Users ctx ->
  BookRepository.Include ctx' b = BookRepository.Include ctx b.
Proof. intros H. unfold BookRepository.Include. now rewrite H. Qed.

(** X24.  When a request to create is answered Created at a time later
    than the creation time of every stored book, the new book is the first
    of the public listing without filter that follows; after it come the
    books of the former listing, newest first, books of one creation time
    in whichever order. *)
Theorem created_book_heads_the_listing
  (User : Principal) (ctx : BookStoreContext.t) (newId : Guid) (now : DateTime)
  (d : CreateBookDto.t) (id : Guid) (dto : BookDto.t) (ctx' : BookStoreContext.t) :
  BooksController.HttpPost User ctx newId now d = (CreatedAtAction id dto, ctx') ->
  (forall b, In b (BookStoreContext.Books ctx) -> Book.CreatedAt b < now) ->
  exists newest rest,
    BookRepository.GetAllAsync ctx' None = newest :: rest /\
    Permutation rest (BookRepository.GetAllAsync ctx None) /\
    Descending Book.CreatedAt rest /\
    Book.Id newest = newId /\
    User = Bearer (Some (Book.UserId newest)) /\
    Book.Name newest = CreateBookDto.Name d /\
    Book.CreatedAt newest = now.
Proof.
  unfold BooksController.HttpPost, Authorize, ApiController.
  destruct User as [|o]; [discriminate|].
  destruct (Validation.CreateBookDto_errors d); [|discriminate].
  destruct (CreateBook_cases (Bearer o) ctx newId now d)
    as [(u & Hu & _ & _ & _ & Hc) | (ex & Hc)]; rewrite Hc; [|discriminate].
  intros [= _ _ <-] Hlater.
  set (row := Spec.created_row u newId now d).
  set (ctx' := Spec.inserted ctx row).
  destruct (Descending_starts_with_the_largest Book.CreatedAt
              (BookRepository.GetAllAsync ctx' None)
              (BookRepository.GetAllAsync ctx None)
              (BookRepository.Include ctx' row))
    as (rest & Heq & Hperm & Hdesc).
  - rewrite GetAllAsync_eq. apply OrderByDescending_Descending.
  - rewrite !GetAllAsync_eq, !OrderByDescending_Permutation.
    cbn [Spec.matchesb]. rewrite !filter_all.
    unfold Spec.Population. unfold ctx' at 2, Spec.inserted.
    cbn [BookStoreContext.Books]. rewrite map_app. cbn [map].
    rewrite <- Permutation_cons_append. apply perm_skip.
    erewrite map_ext; [reflexivity|].
    intros b. now apply Include_depends_on_the_users.
  - intros y Hy. rewrite GetAllAsync_eq, OrderByDescending_In in Hy.
    apply filter_In in Hy. destruct Hy as [Hy _].
    unfold Spec.Population in Hy. apply in_map_iff in Hy.
    destruct Hy as (b & <- & Hb). cbn [Book.CreatedAt BookRepository.Include].
    now apply Hlater.
  - exists (BookRepository.Include ctx' row), rest.
    split; [exact Heq|]. split; [exact Hperm|]. split; [exact Hdesc|].
    split; [reflexivity|]. split; [exact Hu|]. split; reflexivity.
Qed.

Lemma created_book_heads_the_listing_witness :
  exists newest rest,
    BookRepository.GetAllAsync
      (snd (BooksController.HttpPost (Bearer (Some 2)) Sample.ctx 13 300 Sample.newBook))
      None
    = newest :: rest /\
    Permutation rest (BookRepository.GetAllAsync Sample.ctx None) /\
    Book.Name newest = "Emma".
Proof.
  eassert (H : BooksController.HttpPost (Bearer (Some 2)) Sample.ctx 13 300 Sample.newBook
               = (CreatedAtAction 13 _, _)) by reflexivity.
  assert (Hl : forall b, In b (BookStoreContext.Books Sample.ctx) ->
                         Book.CreatedAt b < 300).
  { simpl. intros b [<- | [<- | [<- | []]]]; reflexivity. }
  destruct (created_book_heads_the_listing _ _ _ _ _ _ _ _ H Hl)
    as (newest & rest & Heq & Hperm & _ & _ & _ & Hname & _).
  exists newest, rest. split; [exact Heq|]. split; [exact Hperm | exact Hname].
Defined.

(** * Login, and the names of stored files *)

Section LoginOutcomes.

Context {_userRepository : UserRepository.IUserRepository}.
Context {_tokenService : TokenService.ITokenService}.
Context {bcrypt : BCrypt.BCrypt}.

(** X25.  [Login] answers Ok exactly when the repository finds a user for
    the e-mail and the password verifies against that user's hash; the
    answer then carries the token generated for that user and the user's
    id, e-mail, name and creation time.  When verification throws, the
    answer is the 500 response, and in every other case the generic bad
    request. *)
Theorem Login_succeeds_exactly_for_a_verified_user
  (ctx : BookStoreContext.t) (loginDto : LoginDto.t) :
  (forall response,
     AuthController.Login ctx loginDto = Ok response <->
     exists user,
       UserRepository.GetByEmailAsync ctx (LoginDto.Email loginDto) = Some user /\
       BCrypt.Verify (LoginDto.Password loginDto) (User.PasswordHash user) = Return true /\
       response =
         AuthResponseDto.mk (TokenService.GenerateToken user)
           (UserDto.mk (User.Id user) (User.Email user) (User.FullName user)
                       (User.CreatedAt user))) /\
  ((exists response, AuthController.Login ctx loginDto = Ok response) \/
   AuthController.Login ctx loginDto = BadRequest "Invalid email or password" \/
   exists ex, AuthController.Login ctx loginDto =
              StatusCode500 "An error occurred during login" (Some ex)).
Proof.
  unfold AuthController.Login.
  destruct (UserRepository.GetByEmailAsync ctx (LoginDto.Email loginDto)) as [user|].
  2:{ split.
      - intros response. split; [discriminate | intros (user & H & _); discriminate].
      - right. now left. }
  destruct (BCrypt.Verify (LoginDto.Password loginDto) (User.PasswordHash user))
    as [[|]|ex] eqn:V; cbn [bind negb try_read].
  - split.
    + intros response. split.
      * intros [= <-]. exists user. now repeat split.
      * intros (user' & [= <-] & _ & ->). reflexivity.
    + left. eexists. reflexivity.
  - split.
    + intros response. split; [discriminate|].
      intros (user' & [= <-] & Hv & _). congruence.
    + right. now left.
  - split.
    + intros response. split; [discriminate|].
      intros (user' & [= <-] & Hv & _). congruence.
    + right. right. now exists ex.
Qed.

End LoginOutcomes.

Lemma split_pop_suffix (prefix name : string) :
  storageService.has_slash name = false ->
  Js.after_last "/" (prefix ++ String "/" name) = Some name.
Proof.
  intros Hname.
  assert (Hnone : Js.after_last "/" name = None).
  { induction name as [|c r IH]; cbn [Js.after_last]; [reflexivity|].
    cbn [storageService.has_slash] in Hname. apply orb_false_iff in Hname.
    destruct Hname as [Hc Hr]. now rewrite (IH Hr), Hc. }
  induction prefix as [|a p IH]; cbn [append Js.after_last].
  - now rewrite Hnone, Ascii.eqb_refl.
  - now rewrite IH.
Qed.

Lemma extract_after_slash (prefix name : string) :
  storageService.has_slash name = false ->
  storageService.extractFileNameFromUrl (prefix ++ "/" ++ name) = Some name.
Proof.
  intros H. unfold storageService.extractFileNameFromUrl, Js.split_pop.
  change (prefix ++ "/" ++ name)%string with (prefix ++ String "/" name)%string.
  now rewrite (split_pop_suffix prefix name H).
Qed.

Lemma has_slash_app (a b : string) :
  storageService.has_slash (a ++ b) =
  storageService.has_slash a || storageService.has_slash b.
Proof.
  induction a as [|c r IH]; cbn [append storageService.has_slash]; [reflexivity|].
  now rewrite IH, orb_assoc.
Qed.

Lemma has_slash_split_pop (s : string) :
  storageService.has_slash s = false ->
  storageService.has_slash (Js.split_pop "." s) = false.
Proof.
  unfold Js.split_pop. induction s as [|c r IH]; cbn [Js.after_last]; [reflexivity|].
  cbn [storageService.has_slash]. intros H. apply orb_false_iff in H.
  destruct H as [Hc Hr]. specialize (IH Hr).
  destruct (Js.after_last "." r); [exact IH|].
  destruct (Ascii.eqb c "."); [exact Hr|].
  cbn [storageService.has_slash]. now rewrite Hc, Hr.
Qed.

(** X26.  When the book id, the time stamp and the file's own name hold no
    slash, [extractFileNameFromUrl] recovers, from any URL that ends with
    a slash and the name the service stored the file under, exactly that
    name. *)
Theorem extractFileNameFromUrl_recovers_the_stored_name
  (prefix file bookId now : string) :
  storageService.has_slash file = false ->
  storageService.has_slash bookId = false ->
  storageService.has_slash now = false ->
  storageService.extractFileNameFromUrl
    (prefix ++ "/" ++ storageService.fileName file bookId now)
  = Some (storageService.fileName file bookId now).
Proof.
  intros Hf Hb Hn. apply extract_after_slash.
  unfold storageService.fileName. cbv zeta.
  rewrite !has_slash_app, Hb, Hn, (has_slash_split_pop file Hf). reflexivity.
Qed.

Lemma extractFileNameFromUrl_recovers_the_stored_name_witness :
  storageService.extractFileNameFromUrl
    ("https://x.supabase.co/storage/v1/object/public/book-images" ++ "/"
     ++ storageService.fileName "Cover.v2.png" "10" "1700000000000")
  = Some "10-1700000000000.png".
Proof.
  apply (extractFileNameFromUrl_recovers_the_stored_name
           "https://x.supabase.co/storage/v1/object/public/book-images"
           "Cover.v2.png" "10" "1700000000000"); reflexivity.
Defined.
